(** * DeviceUtils: a shallow embedding of build/android/pylib/device/device_utils.py

    The development follows the Python source method by method.  A
    [DeviceUtils] object is a record holding the fact cache, the
    [_commands_installed] flag and the state of the device behind the adb
    wrapper; every method is a function in a state-and-exception monad, so
    that a mutation made before an exception is raised stays visible, as
    it does in Python.

    Conventions:
    - Python 2 [str] values are [string]s (sequences of bytes);
    - Python [int]s are [Z];
    - [self._cache] is a [gmap string cache_value];
    - the adb wrapper, the quoting helpers of [cmd_helper], the scoped
      device temp file, the md5sum helpers, [install_commands] and the host
      file system are collaborators that live outside device_utils.py; they
      are record fields supplied by the caller of each definition;
    - the timeout/retry decorators are not modelled: each definition is one
      execution of the method body. *)

From Stdlib Require Import ZArith String Ascii List Bool Lia.
From Stdlib Require Import Floats.PrimFloat.
From Stdlib Require Floats.SpecFloat Floats.FloatOps.
From stdpp Require Import gmap strings list fin_maps pretty.

Set Warnings "-inexact-float".

Open Scope Z_scope.
Open Scope string_scope.

(** ** Python string primitives *)

Module PyStr.

Definition LF : ascii := "010"%char.
Definition CR : ascii := "013"%char.

Definition len (s : string) : Z := Z.of_nat (String.length s).

(** [sep.join(l)] *)
Fixpoint join (sep : string) (l : list string) : string :=
  match l with
  | [] => EmptyString
  | [x] => x
  | x :: rest => x +:+ sep +:+ join sep rest
  end.

(** [str.splitlines()] of Python 2 byte strings: a line ends at LF, CR or
    CR LF; the terminators are dropped and no empty line is produced
    after the last terminator.  [cur] accumulates the current line. *)
Fixpoint splitlines_from (cur s : string) : list string :=
  match s with
  | EmptyString => if decide (cur = EmptyString) then [] else [cur]
  | String c s' =>
      if Ascii.eqb c LF then cur :: splitlines_from EmptyString s'
      else if Ascii.eqb c CR then
        match s' with
        | String c' s'' =>
            if Ascii.eqb c' LF then cur :: splitlines_from EmptyString s''
            else cur :: splitlines_from EmptyString s'
        | EmptyString => [cur]
        end
      else splitlines_from (cur +:+ String c EmptyString) s'
  end.

Definition splitlines (s : string) : list string :=
  splitlines_from EmptyString s.

(** The characters [str.split()] and the regex class [\s] treat as white
    space: space, TAB, LF, VT, FF, CR. *)
Definition is_space (c : ascii) : bool :=
  let n := nat_of_ascii c in
  (Nat.eqb n 32 || (Nat.leb 9 n && Nat.leb n 13))%bool.

Definition is_digit (c : ascii) : bool :=
  let n := nat_of_ascii c in (Nat.leb 48 n && Nat.leb n 57)%bool.

Definition is_alpha_ (c : ascii) : bool :=
  let n := nat_of_ascii c in
  ((Nat.leb 65 n && Nat.leb n 90) || (Nat.leb 97 n && Nat.leb n 122)
   || Nat.eqb n 95)%bool.

(** [str.split()] without arguments: maximal runs of non-space
    characters. *)
Fixpoint split_from (cur s : string) : list string :=
  match s with
  | EmptyString => if decide (cur = EmptyString) then [] else [cur]
  | String c s' =>
      if is_space c then
        ((if decide (cur = EmptyString) then [] else [cur])
           ++ split_from EmptyString s')%list
      else split_from (cur +:+ String c EmptyString) s'
  end.

Definition split (s : string) : list string := split_from EmptyString s.

Fixpoint startswith (p s : string) : bool :=
  match p, s with
  | EmptyString, _ => true
  | String a p', String b s' => Ascii.eqb a b && startswith p' s'
  | String _ _, EmptyString => false
  end.

(** [needle in hay] for strings: substring test. *)
Fixpoint contains (needle hay : string) : bool :=
  startswith needle hay ||
  match hay with
  | EmptyString => false
  | String _ hay' => contains needle hay'
  end.

(** [posixpath.basename]: what follows the last slash. *)
Fixpoint basename_from (cur s : string) : string :=
  match s with
  | EmptyString => cur
  | String c s' =>
      if Ascii.eqb c "/"%char then basename_from EmptyString s'
      else basename_from (cur +:+ String c EmptyString) s'
  end.

Definition basename (p : string) : string := basename_from EmptyString p.

(** [int(s)] on a non-empty string of decimal digits. *)
Fixpoint int_from (acc : Z) (s : string) : Z :=
  match s with
  | EmptyString => acc
  | String c s' => int_from (10 * acc + (Z.of_nat (nat_of_ascii c) - 48)) s'
  end.

Definition int (s : string) : Z := int_from 0 s.

(** [s[:n]] for [0 <= n]. *)
Fixpoint take (n : nat) (s : string) : string :=
  match n, s with
  | S n', String c s' => String c (take n' s')
  | _, _ => EmptyString
  end.

(** [s.lstrip()], [s.rstrip()] and [s.strip()]: white space removed at
    the ends. *)
Fixpoint lstrip (s : string) : string :=
  match s with
  | String c s' => if is_space c then lstrip s' else s
  | EmptyString => EmptyString
  end.

Fixpoint rstrip (s : string) : string :=
  match s with
  | EmptyString => EmptyString
  | String c s' =>
      match rstrip s' with
      | EmptyString => if is_space c then EmptyString else String c EmptyString
      | r => String c r
      end
  end.

Definition strip (s : string) : string := rstrip (lstrip s).

(** [s[n:]] for [0 <= n]. *)
Fixpoint drop (n : nat) (s : string) : string :=
  match n, s with
  | S n', String _ s' => drop n' s'
  | _, _ => s
  end.

(** [s.split(sep, 1)] for a non-empty [sep]: the text before and after
    the first occurrence of [sep]; [None] stands for the one-element list
    returned when [sep] does not occur.  [cur] accumulates what has been
    passed. *)
Fixpoint split_once_from (sep cur s : string) : option (string * string) :=
  if startswith sep s then Some (cur, drop (String.length sep) s)
  else
    match s with
    | EmptyString => None
    | String c s' => split_once_from sep (cur +:+ String c EmptyString) s'
    end.

Definition split_once (sep s : string) : option (string * string) :=
  split_once_from sep EmptyString s.

(** [s.lower()] on bytes, in the C locale: the letters A to Z. *)
Definition lower_char (c : ascii) : ascii :=
  let n := nat_of_ascii c in
  if (Nat.leb 65 n && Nat.leb n 90)%bool then ascii_of_nat (n + 32) else c.

Fixpoint lower (s : string) : string :=
  match s with
  | EmptyString => EmptyString
  | String c s' => String (lower_char c) (lower s')
  end.

End PyStr.

(** ** The regular expressions of the source

    A small backtracking matcher for the fragment the source uses: greedy
    [c+] over a character class, named groups, a greedy optional
    non-capturing group, sequencing and the anchor [$].  [re.match]
    anchors the pattern at the start of the subject. *)

Module Re.

Inductive cls := NonSpace | Blank | Digit | Dot | Alpha_ | AlNum_.

Definition in_cls (k : cls) (c : ascii) : bool :=
  match k with
  | NonSpace => negb (PyStr.is_space c)
  | Blank => Ascii.eqb c " "%char
  | Digit => PyStr.is_digit c
  | Dot => negb (Ascii.eqb c PyStr.LF)
  | Alpha_ => PyStr.is_alpha_ c
  | AlNum_ => PyStr.is_alpha_ c || PyStr.is_digit c
  end.

Inductive regex :=
| One (k : cls)
| Plus (k : cls)
| Star (k : cls)
| Group (name : string) (r : regex)
| Opt (r : regex)
| Seq (r1 r2 : regex)
| End_.

(** A match binds group names to the text they captured; a group that did
    not take part in the match is unbound ([m.group(name)] is [None]). *)
Definition groups := list (string * string).

Fixpoint group (name : string) (g : groups) : option string :=
  match g with
  | [] => None
  | (n, v) :: g' => if String.eqb n name then Some v else group name g'
  end.

Section Matcher.
Context {R : Type}.

(** Greedy [k*]: the longest run first, shorter ones on failure of the
    continuation. *)
Fixpoint star (k : cls) (s : string) (cont : string -> option R)
  : option R :=
  match s with
  | String c s' =>
      if in_cls k c then
        match star k s' cont with
        | Some r => Some r
        | None => cont s
        end
      else cont s
  | EmptyString => cont s
  end.

Definition plus (k : cls) (s : string) (cont : string -> option R)
  : option R :=
  match s with
  | String c s' => if in_cls k c then star k s' cont else None
  | EmptyString => None
  end.
End Matcher.

Fixpoint run (r : regex) (s : string) (g : groups)
    (cont : string -> groups -> option groups) : option groups :=
  match r with
  | One k =>
      match s with
      | String c s' => if in_cls k c then cont s' g else None
      | EmptyString => None
      end
  | Plus k => plus k s (fun rest => cont rest g)
  | Star k => star k s (fun rest => cont rest g)
  | Group name r' =>
      run r' s g (fun rest g' =>
        cont rest
          ((name, PyStr.take (String.length s - String.length rest) s) :: g'))
  | Opt r' =>
      match run r' s g cont with
      | Some res => Some res
      | None => cont s g
      end
  | Seq r1 r2 => run r1 s g (fun rest g' => run r2 rest g' cont)
  | End_ =>
      if decide (s = EmptyString \/ s = String PyStr.LF EmptyString)
      then cont s g else None
  end.

(** [pattern.match(s)] *)
Definition match_ (r : regex) (s : string) : option groups :=
  run r s [] (fun _ g => Some g).

End Re.

(** ** Exceptions and results *)

(** The exceptions the methods raise or let through.  In [device_errors]
    [AdbCommandFailedError] is a subclass of [CommandFailedError]; it
    carries the output the command had produced.  [CommandFailedError]
    carries its message and the values formatted into it. *)
Inductive error :=
| AdbCommandFailedError (output : string)
| CommandFailedError (msg : string) (args : list string)
| CommandTimeoutError
| DeviceUnreachableError
| KeyError (msg key : string)
| TypeError
| IndexError
| OtherError (what : string).

(** [except device_errors.CommandFailedError] *)
Definition is_CommandFailedError (e : error) : bool :=
  match e with
  | AdbCommandFailedError _ | CommandFailedError _ _ => true
  | _ => false
  end.

(** [except base_error.BaseError]: the errors of [device_errors]. *)
Definition is_BaseError (e : error) : bool :=
  match e with
  | AdbCommandFailedError _ | CommandFailedError _ _
  | CommandTimeoutError | DeviceUnreachableError => true
  | _ => false
  end.

Inductive result (A : Type) :=
| Ok (a : A)
| Raise (e : error).
Arguments Ok {A} a.
Arguments Raise {A} e.

(** ** The DeviceUtils object *)

(** Values stored in [self._cache]: booleans ([needs_su]) and strings
    (properties, paths). *)
Inductive cache_value :=
| VBool (b : bool)
| VStr (s : string).

#[global] Instance cache_value_eq_dec : EqDecision cache_value.
Proof. solve_decision. Defined.

(** Python truthiness of a cached value. *)
Definition truthy (v : cache_value) : bool :=
  match v with
  | VBool b => b
  | VStr s => negb (String.eqb s EmptyString)
  end.

(** What [adb.Push] sends: a host temp file with known contents, or a path
    of the host file system. *)
Inductive host_file :=
| HostTempFile (contents : string)
| HostPath (path : string).

(** The calls made to the collaborators, in order.  The log is
    bookkeeping of the model: no method reads it. *)
Inductive call :=
| CallShell (cmd : string)
| CallPush (src : host_file) (device_path : string)
| CallPull (device_path : string)
| CallRoot
| CallWaitForDevice
| CallGetState
| CallTempFile (suffix : string)
| CallTempFileClose (name : string)
| CallDeviceMd5Sums (paths : list string)
| CallInstalled
| CallInstallCommands
| CallCreateDeviceZip (zip_path : string) (files : list (string * string)).

Record DeviceUtils (W : Type) := mkDeviceUtils {
  _cache : gmap string cache_value;
  _commands_installed : option bool;
  adb : W;
  calls : list call
}.
Arguments mkDeviceUtils {W} _ _ _ _.
Arguments _cache {W} _.
Arguments _commands_installed {W} _.
Arguments adb {W} _.
Arguments calls {W} _.

(** [device_temp_file.DeviceTempFile]: the attributes the source reads. *)
Record DeviceTempFile := mkDeviceTempFile {
  name : string;
  name_quoted : string
}.

(** [md5sum.HashAndPath] *)
Record HashAndPath := mkHashAndPath { hash : string; path : string }.

(** A method body: it runs on the object, returns or raises, and leaves
    the object in a new state either way. *)
Definition M (W A : Type) : Type := DeviceUtils W -> result A * DeviceUtils W.

(** The collaborators of device_utils.py on the device side.
    - [Shell], [Push], [Pull], [Root], [WaitForDevice], [GetState]:
      adb_wrapper.AdbWrapper; [Shell] raises [AdbCommandFailedError] on a
      non-zero exit status; [Pull] yields what the pulled host file then
      contains;
    - [SingleQuote], [DoubleQuote]: cmd_helper;
    - [TempFile_init], [TempFile_close]: entering and leaving
      [device_temp_file.DeviceTempFile]; the former yields the name;
    - [CalculateDeviceMd5Sums]: md5sum, which receives the DeviceUtils
      object itself;
    - [Installed], [InstallCommands], [BIN_DIR]: install_commands;
    - [WriteToZipFile]: what [_CreateDeviceZip], run in a child process,
      leaves in the world, namely the archive at [zip_path] holding the
      given (host path, device path) pairs. *)
Record Collaborators (W : Type) := {
  Shell : string -> W -> result string * W;
  Push : host_file -> string -> W -> result unit * W;
  Pull : string -> W -> result string * W;
  Root : W -> result unit * W;
  WaitForDevice : W -> result unit * W;
  GetState : W -> result string * W;
  SingleQuote : string -> string;
  DoubleQuote : string -> string;
  TempFile_init : string -> W -> result DeviceTempFile * W;
  TempFile_close : DeviceTempFile -> W -> result unit * W;
  CalculateDeviceMd5Sums : list string -> M W (list HashAndPath);
  Installed : M W bool;
  InstallCommands : M W unit;
  BIN_DIR : string;
  WriteToZipFile : string -> list (string * string) -> W -> W
}.
Arguments Shell {W} _ _ _.
Arguments Push {W} _ _ _ _.
Arguments Pull {W} _ _ _.
Arguments Root {W} _ _.
Arguments WaitForDevice {W} _ _.
Arguments GetState {W} _ _.
Arguments SingleQuote {W} _ _.
Arguments DoubleQuote {W} _ _.
Arguments TempFile_init {W} _ _ _.
Arguments TempFile_close {W} _ _ _.
Arguments CalculateDeviceMd5Sums {W} _ _ _.
Arguments Installed {W} _ _.
Arguments InstallCommands {W} _ _.
Arguments BIN_DIR {W} _.
Arguments WriteToZipFile {W} _ _ _ _.

(** The host side: [os.path], [os.walk], [host_utils], the host md5sum and
    the zip file produced for [_PushChangedFilesZipped]. *)
Record Host := {
  realpath : string -> string;
  isfile : string -> bool;
  isdir : string -> bool;
  relpath : string -> string -> string;
  CalculateHostMd5Sums : list string -> list HashAndPath;
  GetRecursiveDiskUsage : string -> Z;
  walk_file_count : string -> Z;
  zip_file_name : string
}.

(** ** The state-and-exception monad *)

Module Monad.
Section Ops.
Context {W : Type}.

Definition ret {A} (a : A) : M W A := fun s => (Ok a, s).

Definition raise {A} (e : error) : M W A := fun s => (Raise e, s).

Definition bind {A B} (m : M W A) (k : A -> M W B) : M W B :=
  fun s =>
    match m s with
    | (Ok a, s') => k a s'
    | (Raise e, s') => (Raise e, s')
    end.

(** [try: m except ...]: the outcome of [m] as a value. *)
Definition try {A} (m : M W A) : M W (result A) :=
  fun s => let '(r, s') := m s in (Ok r, s').

Definition lift {A} (r : result A) : M W A := fun s => (r, s).

(** [try: body finally: cleanup]; an exception of [cleanup] replaces
    the outcome of [body]. *)
Definition finally {A} (body : M W A) (cleanup : M W unit) : M W A :=
  fun s =>
    let '(r, s1) := body s in
    match cleanup s1 with
    | (Ok _, s2) => (r, s2)
    | (Raise e, s2) => (Raise e, s2)
    end.

Definition get_cache : M W (gmap string cache_value) :=
  fun s => (Ok (_cache s), s).

Definition set_cache (c : gmap string cache_value) : M W unit :=
  fun s => (Ok tt, mkDeviceUtils c (_commands_installed s) (adb s) (calls s)).

Definition get_commands_installed : M W (option bool) :=
  fun s => (Ok (_commands_installed s), s).

Definition set_commands_installed (b : option bool) : M W unit :=
  fun s => (Ok tt, mkDeviceUtils (_cache s) b (adb s) (calls s)).

(** A call of an adb primitive: it is logged, then it acts on the
    device. *)
Definition prim {A} (c : call) (f : W -> result A * W) : M W A :=
  fun s =>
    let '(r, w) := f (adb s) in
    (r, mkDeviceUtils (_cache s) (_commands_installed s) w (calls s ++ [c])%list).

(** A call of a collaborator that receives the object. *)
Definition collab {A} (c : call) (f : M W A) : M W A :=
  fun s =>
    f (mkDeviceUtils (_cache s) (_commands_installed s) (adb s)
         (calls s ++ [c])%list).

(** [for x in l: body x] *)
Fixpoint for_each {A} (l : list A) (body : A -> M W unit) : M W unit :=
  match l with
  | [] => ret tt
  | x :: l' => bind (body x) (fun _ => for_each l' body)
  end.

(** [[f x for x in l]] with an [f] that may raise. *)
Fixpoint map_result {A B} (f : A -> result B) (l : list A)
  : result (list B) :=
  match l with
  | [] => Ok []
  | x :: l' =>
      match f x with
      | Raise e => Raise e
      | Ok y =>
          match map_result f l' with
          | Raise e => Raise e
          | Ok ys => Ok (y :: ys)
          end
      end
  end.
End Ops.
End Monad.
Import Monad.

Declare Scope py_scope.
Delimit Scope py_scope with py.
Notation "x <- c1 ;; c2" := (bind c1 (fun x => c2))
  (at level 100, c1 at next level, right associativity) : py_scope.
Notation "c1 ;;; c2" := (bind c1 (fun _ => c2))
  (at level 100, right associativity) : py_scope.
Open Scope py_scope.

(** ** The methods of DeviceUtils *)

Definition _MAX_ADB_COMMAND_LENGTH : Z := 512.
Definition _MAX_ADB_OUTPUT_LENGTH : Z := 32768.

(** [re.compile('^[a-zA-Z_][a-zA-Z0-9_]*$')] *)
Definition _VALID_SHELL_VARIABLE : Re.regex :=
  Re.Seq (Re.One Re.Alpha_) (Re.Seq (Re.Star Re.AlNum_) Re.End_).

(** The pattern of a line of [ls -l]: perms, owner, group, an optional
    size, date, time and name, separated by runs of blanks. *)
Definition _LS_RE : Re.regex :=
  Re.Seq (Re.Group "perms" (Re.Plus Re.NonSpace)) (Re.Seq (Re.Plus Re.Blank)
  (Re.Seq (Re.Group "owner" (Re.Plus Re.NonSpace)) (Re.Seq (Re.Plus Re.Blank)
  (Re.Seq (Re.Group "group" (Re.Plus Re.NonSpace)) (Re.Seq (Re.Plus Re.Blank)
  (Re.Seq (Re.Opt (Re.Seq (Re.Group "size" (Re.Plus Re.Digit))
                          (Re.Plus Re.Blank)))
  (Re.Seq (Re.Group "date" (Re.Plus Re.NonSpace)) (Re.Seq (Re.Plus Re.Blank)
  (Re.Seq (Re.Group "time" (Re.Plus Re.NonSpace)) (Re.Seq (Re.Plus Re.Blank)
  (Re.Seq (Re.Group "name" (Re.Plus Re.Dot)) Re.End_))))))))))).

Definition _JoinLines (lines : list string) : string :=
  foldr (fun line acc => line +:+ String PyStr.LF acc) EmptyString lines.

(** [cmd] of [RunShellCommand]: a string for the device's shell, or a
    sequence of program arguments. *)
Inductive command :=
| CmdString (s : string)
| CmdArgs (argv : list string).

Definition DQ : string := String "034"%char EmptyString.

(** [sum(...)] over integers. *)
Definition sum (l : list Z) : Z := foldl Z.add 0 l.

(** What converting an integer too large for a float raises. *)
Definition OverflowError : error := OtherError "OverflowError".

(** The conversion of an [int] operand in float arithmetic: the float
    nearest to the integer, ties going to the even mantissa;
    [OverflowError] when that lies beyond the largest float. *)
Definition float_of_int (n : Z) : result float :=
  match SpecFloat.binary_normalize FloatOps.prec FloatOps.emax n 0 false with
  | SpecFloat.S754_infinity _ => Raise OverflowError
  | sf => Ok (FloatOps.SF2Prim sf)
  end.

(** The integer arguments are converted where the float arithmetic first
    uses them, in the order of the source; [zip_time = 0] adds the float
    zero. *)
Definition _ApproximateDuration (adb_calls file_count byte_count : Z)
    (is_zipping : bool) : result float :=
  let ADB_CALL_PENALTY := 0.1%float in
  let ADB_PUSH_PENALTY := 0.01%float in
  let ZIP_PENALTY := 2.0%float in
  let ZIP_RATE := 10000000.0%float in
  let TRANSFER_RATE := 2000000.0%float in
  let COMPRESSION_RATIO := 2.0%float in
  match float_of_int adb_calls with
  | Raise e => Raise e
  | Ok adb_calls =>
      let adb_call_time := (ADB_CALL_PENALTY * adb_calls)%float in
      match float_of_int file_count with
      | Raise e => Raise e
      | Ok file_count =>
          let adb_push_setup_time := (ADB_PUSH_PENALTY * file_count)%float in
          match float_of_int byte_count with
          | Raise e => Raise e
          | Ok byte_count =>
              let zip_time :=
                if is_zipping then (ZIP_PENALTY + byte_count / ZIP_RATE)%float
                else 0%float in
              let transfer_time :=
                if is_zipping
                then (byte_count / (TRANSFER_RATE * COMPRESSION_RATIO))%float
                else (byte_count / TRANSFER_RATE)%float in
              Ok (adb_call_time + adb_push_setup_time + zip_time
                  + transfer_time)%float
          end
      end
  end.

(** The body of the [for] loop of [ReadFile]: the size field of the first
    line of [ls -l] whose name is the base name of the path; [None] when
    the loop ends without [break].  [int(None)] raises [TypeError] when
    the matching line has no size field. *)
Fixpoint ls_size (ls_out : list string) (device_path : string)
  : result (option Z) :=
  match ls_out with
  | [] => Ok None
  | line :: rest =>
      match Re.match_ _LS_RE line with
      | Some m =>
          if decide (Re.group "name" m = Some (PyStr.basename device_path))
          then match Re.group "size" m with
               | Some sz => Ok (Some (PyStr.int sz))
               | None => Raise TypeError
               end
          else ls_size rest device_path
      | None => ls_size rest device_path
      end
  end.

(** The loop body of [_GetPidsImpl]; an [IndexError] leaves the dict as
    it is. *)
Definition add_pid (process_name : string) (procs_pids : gmap string string)
    (line : string) : gmap string string :=
  let ps_data := PyStr.split line in
  match last ps_data with
  | None => procs_pids
  | Some pname =>
      if PyStr.contains process_name pname then
        match ps_data !! 1%nat with
        | Some pid => <[pname := pid]> procs_pids
        | None => procs_pids
        end
      else procs_pids
  end.

(** [dict.values()]; Python 2 fixes no order, and none is relied on. *)
Definition values (d : gmap string string) : list string :=
  (map_to_list d).*2.

(** [str(v)] of a cached value, as [%s] formats it. *)
Definition str_of (v : cache_value) : string :=
  match v with
  | VStr s => s
  | VBool true => "True"
  | VBool false => "False"
  end.

Section Methods.
Context {W : Type} (C : Collaborators W) (H : Host).

Definition adb_Shell (cmd : string) : M W string :=
  prim (CallShell cmd) (Shell C cmd).
Definition adb_Push (src : host_file) (device_path : string) : M W unit :=
  prim (CallPush src device_path) (Push C src device_path).
Definition adb_Pull (device_path : string) : M W string :=
  prim (CallPull device_path) (Pull C device_path).
Definition adb_Root : M W unit := prim CallRoot (Root C).
Definition adb_WaitForDevice : M W unit :=
  prim CallWaitForDevice (WaitForDevice C).
Definition adb_GetState : M W string := prim CallGetState (GetState C).

(** [with device_temp_file.DeviceTempFile(self.adb, suffix=...) as f] *)
Definition with_DeviceTempFile {A} (suffix : string)
    (body : DeviceTempFile -> M W A) : M W A :=
  f <- prim (CallTempFile suffix) (TempFile_init C suffix) ;;
  finally (body f) (prim (CallTempFileClose (name f)) (TempFile_close C f)).

Definition _WriteFileWithPush (device_path contents : string) : M W unit :=
  adb_Push (HostTempFile contents) device_path.

Definition env_quote (kv : string * string) : result string :=
  match Re.match_ _VALID_SHELL_VARIABLE kv.1 with
  | None => Raise (KeyError "Invalid shell variable name %r" kv.1)
  | Some _ => Ok (kv.1 +:+ "=" +:+ DoubleQuote C kv.2)
  end.

Definition do_run (check_return : bool) (cmd : string) : M W string :=
  r <- try (adb_Shell cmd) ;;
  match r with
  | Ok out => ret out
  | Raise (AdbCommandFailedError out) =>
      if check_return then raise (AdbCommandFailedError out) else ret out
  | Raise e => raise e
  end.

(** [RunShellCommand] in three stages, with the [NeedsSU] method it
    calls when [as_root] is set passed in: [NeedsSU] itself runs a shell
    command without [as_root].

    Stage one assembles the command string: quoting of an argument
    vector, the environment prefix, the [cd] wrapper and the [su]
    wrapper. *)
Definition build_command (NeedsSU : M W cache_value) (cmd : command)
    (cwd : option string) (env : option (list (string * string)))
    (as_root : bool) : M W string :=
  let cmd :=
    match cmd with
    | CmdString s => s
    | CmdArgs argv => PyStr.join " " (map (SingleQuote C) argv)
    end in
  cmd <- match env with
         | None | Some [] => ret cmd
         | Some kvs =>
             env <- lift (map_result env_quote kvs) ;;
             ret (PyStr.join " " env +:+ " " +:+ cmd)
         end ;;
  let cmd :=
    match cwd with
    | None => cmd
    | Some d =>
        if String.eqb d EmptyString then cmd
        else "cd " +:+ SingleQuote C d +:+ " && " +:+ cmd
    end in
  if as_root then
    su <- NeedsSU ;;
    ret (if truthy su then "su -c sh -c " +:+ SingleQuote C cmd else cmd)
  else ret cmd.

(** Stage two sends the command: inline, or from a script file on the
    device. *)
Definition run_command (check_return : bool) (cmd : string) : M W string :=
  if (PyStr.len cmd <? _MAX_ADB_COMMAND_LENGTH)%Z then
    do_run check_return cmd
  else
    with_DeviceTempFile ".sh" (fun script =>
      _WriteFileWithPush (name script) cmd ;;;
      do_run check_return ("sh " +:+ name_quoted script)).

(** Stage three splits the output and enforces the single-line
    contract. *)
Definition split_output (single_line : bool) (output : string)
  : M W (if single_line then string else list string) :=
  let output := PyStr.splitlines output in
  match single_line
    return M W (if single_line then string else list string) with
  | true =>
      match output with
      | [] => ret EmptyString
      | [line] => ret line
      | _ => raise (CommandFailedError
                      "one line of output was expected, but got: %s" output)
      end
  | false => ret output
  end.

Definition RunShellCommand_with (NeedsSU : M W cache_value)
    (cmd : command) (check_return : bool) (cwd : option string)
    (env : option (list (string * string))) (as_root single_line : bool)
  : M W (if single_line then string else list string) :=
  cmd <- build_command NeedsSU cmd cwd env as_root ;;
  output <- run_command check_return cmd ;;
  split_output single_line output.

Definition NeedsSU : M W cache_value :=
  c <- get_cache ;;
  (match c !! "needs_su" with
   | Some _ => ret tt
   | None =>
       r <- try (RunShellCommand_with (ret (VBool false))
                   (CmdString "su -c ls /root && ! ls /root")
                   true None None false false) ;;
       match r with
       | Ok _ =>
           c <- get_cache ;; set_cache (<["needs_su" := VBool true]> c)
       | Raise (AdbCommandFailedError _) =>
           c <- get_cache ;; set_cache (<["needs_su" := VBool false]> c)
       | Raise e => raise e
       end
   end) ;;;
  c <- get_cache ;;
  match c !! "needs_su" with
  | Some v => ret v
  | None => raise (KeyError "needs_su" "needs_su")
  end.

Definition RunShellCommand := RunShellCommand_with NeedsSU.

Definition GetProp (property_name : string) (cache : bool)
  : M W cache_value :=
  let cache_key := "_prop:" +:+ property_name in
  c <- get_cache ;;
  match (if cache then c !! cache_key else None) with
  | Some v => ret v
  | None =>
      value <- RunShellCommand (CmdArgs ["getprop"; property_name])
                 true None None false true ;;
      c <- get_cache ;;
      (if cache || bool_decide (is_Some (c !! cache_key))
       then set_cache (<[cache_key := VStr value]> c)
       else ret tt) ;;;
      ret (VStr value)
  end.

Definition SetProp (property_name value : string) (check : bool)
  : M W unit :=
  RunShellCommand (CmdArgs ["setprop"; property_name; value])
    true None None false false ;;;
  c <- get_cache ;;
  (if bool_decide (is_Some (c !! property_name))
   then set_cache (delete property_name c)
   else ret tt) ;;;
  if check then
    v <- GetProp property_name false ;;
    if decide (VStr value = v) then ret tt
    else raise (CommandFailedError
                  "Unable to set property %r on the device to %r"
                  [property_name; value])
  else ret tt.

Definition build_type : M W cache_value := GetProp "ro.build.type" true.

Definition IsUserBuild : M W bool :=
  v <- build_type ;; ret (bool_decide (v = VStr "user")).

Definition EnableRoot : M W unit :=
  user <- IsUserBuild ;;
  if user then
    raise (CommandFailedError "Cannot enable root in user builds." [])
  else
    c <- get_cache ;;
    (if bool_decide (is_Some (c !! "needs_su"))
     then set_cache (delete "needs_su" c)
     else ret tt) ;;;
    adb_Root ;;;
    adb_WaitForDevice.

Definition IsOnline : M W bool :=
  r <- try adb_GetState ;;
  match r with
  | Ok st => ret (String.eqb st "device")
  | Raise e => if is_BaseError e then ret false else raise e
  end.

Definition GetExternalStoragePath : M W cache_value :=
  c <- get_cache ;;
  match c !! "external_storage" with
  | Some v => ret v
  | None =>
      value <- RunShellCommand (CmdString "echo $EXTERNAL_STORAGE")
                 true None None false true ;;
      if String.eqb value EmptyString then
        raise (CommandFailedError "$EXTERNAL_STORAGE is not set" [])
      else
        c <- get_cache ;;
        set_cache (<["external_storage" := VStr value]> c) ;;;
        ret (VStr value)
  end.

Definition _GetPidsImpl (process_name : string) : M W (gmap string string) :=
  lines <- RunShellCommand (CmdString "ps") true None None false false ;;
  ret (foldl (add_pid process_name) ∅ lines).

(** The [while] loop of a blocking [KillAll]; [polls] bounds the number
    of polls, after which the enclosing timeout fires. *)
Fixpoint wait_until_dead (polls : nat) (process_name : string) : M W unit :=
  match polls with
  | O => raise CommandTimeoutError
  | S n =>
      pids <- _GetPidsImpl process_name ;;
      if decide (pids = ∅) then ret tt else wait_until_dead n process_name
  end.

Definition KillAll (process_name : string) (signum : Z)
    (as_root blocking : bool) (polls : nat) : M W Z :=
  pids <- _GetPidsImpl process_name ;;
  if decide (pids = ∅) then
    raise (CommandFailedError ("No process " +:+ DQ +:+ "%s" +:+ DQ)
             [process_name])
  else
    RunShellCommand (CmdArgs (["kill"; "-" +:+ pretty signum] ++ values pids)%list)
      true None None as_root false ;;;
    (if blocking then wait_until_dead polls process_name else ret tt) ;;;
    ret (Z.of_nat (size pids)).

Definition _ReadFileWithPull (device_path : string) : M W string :=
  adb_Pull device_path.

Definition ReadFile (device_path : string) (as_root : bool) : M W string :=
  ls_out <- RunShellCommand (CmdArgs ["ls"; "-l"; device_path])
              true None None as_root false ;;
  size <- lift (ls_size ls_out device_path) ;;
  if match size with
     | None => true
     | Some n => (n <=? _MAX_ADB_OUTPUT_LENGTH)%Z
     end
  then
    lines <- RunShellCommand (CmdArgs ["cat"; device_path])
               true None None as_root false ;;
    ret (_JoinLines lines)
  else
    su <- (if as_root then v <- NeedsSU ;; ret (truthy v) else ret false) ;;
    if su then
      with_DeviceTempFile EmptyString (fun device_temp =>
        RunShellCommand (CmdArgs ["cp"; device_path; name device_temp])
          true None None true false ;;;
        _ReadFileWithPull (name device_temp))
    else _ReadFileWithPull device_path.

Definition WriteFile (device_path contents : string)
    (as_root force_push : bool) : M W unit :=
  if negb force_push && (PyStr.len contents <? _MAX_ADB_COMMAND_LENGTH)%Z
  then
    RunShellCommand
      (CmdString ("echo -n " +:+ SingleQuote C contents +:+ " > "
                  +:+ SingleQuote C device_path))
      true None None as_root false ;;;
    ret tt
  else
    su <- (if as_root then v <- NeedsSU ;; ret (truthy v) else ret false) ;;
    if su then
      with_DeviceTempFile EmptyString (fun device_temp =>
        _WriteFileWithPush (name device_temp) contents ;;;
        RunShellCommand (CmdArgs ["cp"; name device_temp; device_path])
          true None None true false ;;;
        ret tt)
    else _WriteFileWithPush device_path contents.

(** [dict((d.path, d.hash) for d in device_hash_tuples)]: a later record
    replaces an earlier one with the same path. *)
Definition device_tuple_dict (device_hash_tuples : list HashAndPath)
  : gmap string string :=
  foldl (fun m d => <[path d := hash d]> m) ∅ device_hash_tuples.

Definition device_abs_path (real_device_path real_host_path : string)
    (host_abs_path : string) : string :=
  real_device_path +:+ "/" +:+ relpath H host_abs_path real_host_path.

Definition _GetChangedFilesImpl (host_path device_path : string)
  : M W (list (string * string)) :=
  let real_host_path := realpath H host_path in
  r <- try (RunShellCommand (CmdArgs ["realpath"; device_path])
              true None None false true) ;;
  real_device_path <-
    match r with
    | Ok p => ret (Some p)
    | Raise e => if is_CommandFailedError e then ret None else raise e
    end ;;
  match real_device_path with
  | None => ret [(host_path, device_path)]
  | Some real_device_path =>
      if String.eqb real_device_path EmptyString
      then ret [(host_path, device_path)]
      else
        let host_hash_tuples :=
          CalculateHostMd5Sums H [real_host_path] in
        let device_paths_to_md5 :=
          if isfile H real_host_path then [real_device_path]
          else map (fun t => device_abs_path real_device_path
                               real_host_path (path t))
                 host_hash_tuples in
        device_hash_tuples <-
          collab (CallDeviceMd5Sums device_paths_to_md5)
            (CalculateDeviceMd5Sums C device_paths_to_md5) ;;
        if isfile H host_path then
          match device_hash_tuples with
          | [] => ret [(host_path, device_path)]
          | d :: _ =>
              match host_hash_tuples with
              | [] => raise IndexError
              | h :: _ =>
                  if decide (hash d = hash h) then ret []
                  else ret [(host_path, device_path)]
              end
          end
        else
          let dict := device_tuple_dict device_hash_tuples in
          ret (omap (fun h =>
                 let d := device_abs_path real_device_path real_host_path
                            (path h) in
                 if decide (dict !! d = Some (hash h)) then None
                 else Some (path h, d))
               host_hash_tuples)
  end.

Definition _InstallCommands : M W unit :=
  installed <- get_commands_installed ;;
  match installed with
  | Some _ => ret tt
  | None =>
      r <- try (present <- collab CallInstalled (Installed C) ;;
                if present then ret tt
                else collab CallInstallCommands (InstallCommands C)) ;;
      match r with
      | Ok _ => set_commands_installed (Some true)
      | Raise _ => set_commands_installed (Some false)
      end
  end.

Definition _PushChangedFilesIndividually (files : list (string * string))
  : M W unit :=
  for_each files (fun hd => adb_Push (HostPath hd.1) hd.2).

(** [_CreateDeviceZip] runs in a child process that the parent joins; the
    parent does not look at its exit status. *)
Definition _CreateDeviceZip (zip_path : string)
    (host_device_tuples : list (string * string)) : M W unit :=
  prim (CallCreateDeviceZip zip_path host_device_tuples)
    (fun w => (Ok tt, WriteToZipFile C zip_path host_device_tuples w)).

Definition _PushChangedFilesZipped (files : list (string * string))
  : M W unit :=
  match files with
  | [] => ret tt
  | _ =>
      _CreateDeviceZip (zip_file_name H) files ;;;
      storage <- GetExternalStoragePath ;;
      let zip_on_device := str_of storage +:+ "/tmp.zip" in
      finally
        (adb_Push (HostPath (zip_file_name H)) zip_on_device ;;;
         RunShellCommand (CmdArgs ["unzip"; zip_on_device]) true None
           (Some [("PATH", BIN_DIR C +:+ ":$PATH")]) true false ;;;
         ret tt)
        (online <- IsOnline ;;
         if online then
           RunShellCommand (CmdArgs ["rm"; zip_on_device])
             true None None false false ;;;
           ret tt
         else ret tt)
  end.

(** The first loop of [PushChangedFiles]. *)
Fixpoint changed_files (host_device_tuples : list (string * string))
  : M W (list (string * string)) :=
  match host_device_tuples with
  | [] => ret []
  | (h, d) :: rest =>
      (if isdir H h then
         RunShellCommand (CmdArgs ["mkdir"; "-p"; d])
           true None None false false ;;;
         ret tt
       else ret tt) ;;;
      changed <- _GetChangedFilesImpl h d ;;
      more <- changed_files rest ;;
      ret (changed ++ more)%list
  end.

(** [bool(self._commands_installed)] *)
Definition commands_installed : M W bool :=
  installed <- get_commands_installed ;;
  ret (match installed with Some true => true | _ => false end).

Definition PushChangedFiles (host_device_tuples : list (string * string))
  : M W unit :=
  files <- changed_files host_device_tuples ;;
  match files with
  | [] => ret tt
  | _ =>
      let size := sum (map (fun hd => GetRecursiveDiskUsage H hd.1) files) in
      let file_count := Z.of_nat (length files) in
      let dir_size :=
        sum (map (fun hd => GetRecursiveDiskUsage H hd.1)
               host_device_tuples) in
      let dir_file_count :=
        sum (map (fun hd => if isdir H hd.1 then walk_file_count H hd.1
                            else 1%Z)
               host_device_tuples) in
      push_duration <-
        lift (_ApproximateDuration file_count file_count size false) ;;
      dir_push_duration <-
        lift (_ApproximateDuration (Z.of_nat (length host_device_tuples))
                dir_file_count dir_size false) ;;
      zip_duration <- lift (_ApproximateDuration 1 1 size true) ;;
      _InstallCommands ;;;
      installed <- commands_installed ;;
      if PrimFloat.ltb dir_push_duration push_duration
         && (PrimFloat.ltb dir_push_duration zip_duration || negb installed)
      then _PushChangedFilesIndividually host_device_tuples
      else if PrimFloat.ltb push_duration zip_duration || negb installed
      then _PushChangedFilesIndividually files
      else
        _PushChangedFilesZipped files ;;;
        RunShellCommand
          (CmdArgs (["chmod"; "-R"; "777"] ++ map snd host_device_tuples)%list)
          true None None true false ;;;
        ret tt
  end.
End Methods.

(** ** Further methods

    [ValueError] is what unpacking [key, value = ...] raises when the
    split has produced one element only; [AssertionError] is what a
    failing [assert] raises. *)
Definition ValueError : error := OtherError "ValueError".
Definition AssertionError : error := OtherError "AssertionError".

Definition JAVA_ASSERT_PROPERTY : string := "dalvik.vm.enableassertions".

(** The local function [find_property] of [SetJavaAsserts]; [index]
    counts the lines passed. *)
Fixpoint find_property_from (index : nat) (lines : list string)
    (property_name : string) : result (option nat * string) :=
  match lines with
  | [] => Ok (None, EmptyString)
  | line :: rest =>
      if String.eqb (PyStr.strip line) EmptyString then
        find_property_from (S index) rest property_name
      else
        match PyStr.split_once "=" line with
        | None => Raise ValueError
        | Some (key, value) =>
            if String.eqb (PyStr.strip key) property_name
            then Ok (Some index, PyStr.strip value)
            else find_property_from (S index) rest property_name
        end
  end.

Definition find_property (lines : list string) (property_name : string)
  : result (option nat * string) :=
  find_property_from 0 lines property_name.

(** The loop of [GetBatteryInfo] over the lines after the header. *)
Fixpoint battery_info (info : gmap string string) (lines : list string)
  : result (gmap string string) :=
  match lines with
  | [] => Ok info
  | line :: rest =>
      match PyStr.split_once ": " line with
      | None => Raise ValueError
      | Some (k, v) =>
          battery_info (<[PyStr.strip k := PyStr.strip v]> info) rest
      end
  end.

Section FurtherMethods.
Context {W : Type} (C : Collaborators W).

(** [constants.DEVICE_LOCAL_PROPERTIES_PATH] comes from a module outside
    device_utils.py, as do the [am_args] of the intent that
    [StartActivity] receives. *)
Context (DEVICE_LOCAL_PROPERTIES_PATH : string).

(** The first half of [SetJavaAsserts]: the desired value is written to
    the local properties file unless the file has it already. *)
Definition persist_java_asserts (new_value : string) : M W unit :=
  r <- try (ReadFile C DEVICE_LOCAL_PROPERTIES_PATH false) ;;
  properties <-
    match r with
    | Ok contents => ret (PyStr.splitlines contents)
    | Raise e => if is_CommandFailedError e then ret [] else raise e
    end ;;
  found <- lift (find_property properties JAVA_ASSERT_PROPERTY) ;;
  let '(index, value) := found in
  if negb (String.eqb new_value value) then
    properties <-
      (if negb (String.eqb new_value EmptyString) then
         let new_line := JAVA_ASSERT_PROPERTY +:+ "=" +:+ new_value in
         match index with
         | None => ret (properties ++ [new_line])%list
         | Some i => ret (<[i := new_line]> properties)
         end
       else
         match index with
         | None => raise AssertionError
         | Some i => ret (delete i properties)
         end) ;;
    WriteFile C DEVICE_LOCAL_PROPERTIES_PATH (_JoinLines properties)
      false false
  else ret tt.

Definition SetJavaAsserts (enabled : bool) : M W bool :=
  let new_value := if enabled then "all" else EmptyString in
  persist_java_asserts new_value ;;;
  value <- GetProp C JAVA_ASSERT_PROPERTY false ;;
  if negb (bool_decide (VStr new_value = value)) then
    SetProp C JAVA_ASSERT_PROPERTY new_value false ;;;
    ret true
  else ret false.

Definition GetBatteryInfo : M W (gmap string string) :=
  lines <- RunShellCommand C (CmdArgs ["dumpsys"; "battery"])
             true None None false false ;;
  lift (battery_info ∅ (tail lines)).

Definition GetCharging : M W bool :=
  info <- GetBatteryInfo ;;
  ret (existsb
         (fun k =>
            match info !! k with
            | Some v => bool_decide (PyStr.lower v ∈ ["true"; "1"; "yes"])
            | None => false
            end)
         ["AC powered"; "USB powered"; "Wireless powered"]).

(** The argument vector of [StartActivity]; an empty [trace_file_name]
    counts as none. *)
Definition am_start (am_args : list string) (blocking : bool)
    (trace_file_name : option string) (force_stop : bool) : list string :=
  (["am"; "start"]
   ++ (if blocking then ["-W"] else [])
   ++ match trace_file_name with
      | Some t =>
          if String.eqb t EmptyString then []
          else ["--start-profiler"; t]
      | None => []
      end
   ++ (if force_stop then ["-S"] else [])
   ++ am_args)%list.

Definition StartActivity (am_args : list string) (blocking : bool)
    (trace_file_name : option string) (force_stop : bool) : M W unit :=
  lines <- RunShellCommand C
             (CmdArgs (am_start am_args blocking trace_file_name force_stop))
             true None None false false ;;
  for_each lines (fun line =>
    if PyStr.startswith "Error:" line
    then raise (CommandFailedError line [])
    else ret tt).

End FurtherMethods.

(** ** A simulated device

    Modelled from the spec: the adb wrapper, [cmd_helper], the device temp
    file, the device md5sum and [install_commands] are not part of
    device_utils.py; the specification lists them as external primitives
    (shell execution failing with partial output on a non-zero exit, push
    and pull, a scoped temp file, content hashes per path).  This module
    is a concrete instance of them, on which the methods can be
    evaluated: a device with a property store, a flat file store, a
    process listing and a counter for temp-file names, together with the
    host files and archives a push can send.  Its shell splits the
    command at white space and knows no quoting, no redirection other
    than [echo -n c > p], and no [su]; a command it does not know exits
    with a non-zero status.  The shell comes in two versions: with
    [link_column] set its [ls -l] prints a link count after the
    permissions, as the ls of later Android releases does. *)

Module Sim.

Record device := mkDevice {
  props : gmap string string;
  files : gmap string string;
  ps_lines : list string;
  next_temp : Z;
  has_unzip : bool;
  host_files : gmap string string;
  archives : gmap string (list (string * string))
}.

Definition set_props (p : gmap string string) (w : device) : device :=
  mkDevice p (files w) (ps_lines w) (next_temp w) (has_unzip w) (host_files w)
    (archives w).
Definition set_files (f : gmap string string) (w : device) : device :=
  mkDevice (props w) f (ps_lines w) (next_temp w) (has_unzip w) (host_files w)
    (archives w).
Definition set_archives (a : gmap string (list (string * string)))
    (w : device) : device :=
  mkDevice (props w) (files w) (ps_lines w) (next_temp w) (has_unzip w)
    (host_files w) a.
Definition set_ps_lines (l : list string) (w : device) : device :=
  mkDevice (props w) (files w) l (next_temp w) (has_unzip w) (host_files w)
    (archives w).

Definition NL : string := String PyStr.LF EmptyString.

Definition fail {A} (output : string) (w : device) : result A * device :=
  (Raise (AdbCommandFailedError output), w).

Definition is_dir (store : gmap string string) (p : string) : bool :=
  existsb (fun kv => PyStr.startswith (p +:+ "/") kv.1) (map_to_list store).

Definition no_such_file {A} (p : string) (w : device) : result A * device :=
  fail (p +:+ ": No such file or directory" +:+ NL) w.

Definition not_found {A} (w : device) : result A * device :=
  fail ("sh: not found" +:+ NL) w.

Definition alive (pids : list string) (line : string) : bool :=
  match PyStr.split line !! 1%nat with
  | Some pid => negb (bool_decide (pid ∈ pids))
  | None => true
  end.

(** A command that is not [sh script]. *)
Definition exec (link_column : bool) (argv : list string) (w : device)
  : result string * device :=
  match argv with
  | [] => (Ok EmptyString, w)
  | prog :: args =>
      if String.eqb prog "getprop" then
        match args with
        | [n] => (Ok (default EmptyString (props w !! n) +:+ NL), w)
        | _ => not_found w
        end
      else if String.eqb prog "setprop" then
        match args with
        | [n; v] => (Ok EmptyString, set_props (<[n := v]> (props w)) w)
        | _ => not_found w
        end
      else if String.eqb prog "ps" then
        match args with
        | [] => (Ok (_JoinLines (ps_lines w)), w)
        | _ => not_found w
        end
      else if String.eqb prog "kill" then
        match args with
        | _ :: pids =>
            (Ok EmptyString,
             set_ps_lines (List.filter (alive pids) (ps_lines w)) w)
        | _ => not_found w
        end
      else if String.eqb prog "ls" then
        match args with
        | [opt; p] =>
            if String.eqb opt "-l" then
              match files w !! p with
              | Some c =>
                  (Ok ("-rw-rw-rw- "
                       +:+ (if link_column then "1 " else EmptyString)
                       +:+ "root root " +:+ pretty (PyStr.len c)
                       +:+ " 2015-01-01 00:00 " +:+ PyStr.basename p +:+ NL),
                   w)
              | None => no_such_file p w
              end
            else not_found w
        | _ => not_found w
        end
      else if String.eqb prog "cat" then
        match args with
        | [p] =>
            match files w !! p with
            | Some c => (Ok c, w)
            | None => no_such_file p w
            end
        | _ => not_found w
        end
      else if String.eqb prog "echo" then
        match args with
        | [var] =>
            if String.eqb var "$EXTERNAL_STORAGE" then (Ok ("/sdcard" +:+ NL), w)
            else not_found w
        | [opt; c; gt; p] =>
            if String.eqb opt "-n" && String.eqb gt ">" then
              (Ok EmptyString, set_files (<[p := c]> (files w)) w)
            else not_found w
        | _ => not_found w
        end
      else if String.eqb prog "realpath" then
        match args with
        | [p] =>
            if bool_decide (is_Some (files w !! p)) || is_dir (files w) p
            then (Ok (p +:+ NL), w)
            else no_such_file p w
        | _ => not_found w
        end
      else if String.eqb prog "mkdir" then (Ok EmptyString, w)
      else if String.eqb prog "chmod" then (Ok EmptyString, w)
      else if String.eqb prog "unzip" then
        match args with
        | [z] =>
            if has_unzip w then
              match archives w !! z with
              | Some entries =>
                  (Ok EmptyString,
                   set_files (foldl (fun f e => <[e.1 := e.2]> f) (files w)
                                entries) w)
              | None => no_such_file z w
              end
            else not_found w
        | _ => not_found w
        end
      else if String.eqb prog "rm" then
        match args with
        | [p] => (Ok EmptyString, set_files (delete p (files w)) w)
        | _ => not_found w
        end
      else not_found w
  end.

(** Leading [NAME=value] words set the environment of the command. *)
Fixpoint drop_assignments (argv : list string) : list string :=
  match argv with
  | word :: rest =>
      if PyStr.contains "=" word then drop_assignments rest else argv
  | [] => []
  end.

Definition shell (link_column : bool) (cmd : string) (w : device)
  : result string * device :=
  match drop_assignments (PyStr.split cmd) with
  | [prog; script] =>
      if String.eqb prog "sh" then
        match files w !! script with
        | Some body => exec link_column (PyStr.split body) w
        | None => no_such_file script w
        end
      else exec link_column [prog; script] w
  | argv => exec link_column argv w
  end.

(** The files of a store at or below a path. *)
Definition under (store : gmap string string) (p : string)
  : list (string * string) :=
  List.filter
    (fun kv => String.eqb kv.1 p || PyStr.startswith (p +:+ "/") kv.1)
    (map_to_list store).

Definition strip_prefix (base p : string) : string :=
  if PyStr.startswith (base +:+ "/") p
  then String.substring (String.length base + 1)
         (String.length p - (String.length base + 1)) p
  else p.

(** [adb push]: a host file, a host directory with all its files, or an
    archive written by [_CreateDeviceZip]. *)
Definition push (src : host_file) (p : string) (w : device)
  : result unit * device :=
  match src with
  | HostTempFile c => (Ok tt, set_files (<[p := c]> (files w)) w)
  | HostPath h =>
      match archives w !! h, host_files w !! h with
      | Some entries, _ =>
          (Ok tt, set_archives (<[p := entries]> (archives w))
                    (set_files (<[p := "PK"]> (files w)) w))
      | None, Some c => (Ok tt, set_files (<[p := c]> (files w)) w)
      | None, None =>
          match under (host_files w) h with
          | [] => (Raise (CommandFailedError "cannot stat %s" [h]), w)
          | entries =>
              (Ok tt,
               set_files
                 (foldl (fun f kv => <[p +:+ "/" +:+ strip_prefix h kv.1
                                        := kv.2]> f) (files w) entries) w)
          end
      end
  end.

(** The archive of [_CreateDeviceZip]: the content of each host file
    under its device path. *)
Definition write_zip (zip_path : string) (pairs : list (string * string))
    (w : device) : device :=
  set_archives
    (<[zip_path := omap (fun hd => (fun c => (hd.2, c)) <$> host_files w !! hd.1)
                     pairs]> (archives w)) w.

Definition pull (p : string) (w : device) : result string * device :=
  match files w !! p with
  | Some c => (Ok c, w)
  | None => (Raise (CommandFailedError "remote object %s does not exist" [p]), w)
  end.

Definition safe_char (c : ascii) : bool :=
  PyStr.is_alpha_ c || PyStr.is_digit c
  || bool_decide (c ∈ list_ascii_of_string "@%-+=:,./").

Fixpoint all_safe (s : string) : bool :=
  match s with
  | EmptyString => true
  | String c s' => safe_char c && all_safe s'
  end.

Fixpoint escape (q : ascii) (by_ : string) (s : string) : string :=
  match s with
  | EmptyString => EmptyString
  | String c s' =>
      if Ascii.eqb c q then by_ +:+ escape q by_ s'
      else String c (escape q by_ s')
  end.

(** Quoting as [pipes.quote] does it. *)
Definition single_quote (s : string) : string :=
  if all_safe s then (if String.eqb s EmptyString then "''" else s)
  else "'" +:+ escape "'"%char ("'" +:+ DQ +:+ "'" +:+ DQ +:+ "'") s +:+ "'".

Definition double_quote (s : string) : string :=
  if all_safe s then (if String.eqb s EmptyString then DQ +:+ DQ else s)
  else DQ +:+ escape "034"%char ("\" +:+ DQ) s +:+ DQ.

Definition temp_init (suffix : string) (w : device)
  : result DeviceTempFile * device :=
  let n := "/data/local/tmp/temp_file-" +:+ pretty (next_temp w) +:+ suffix in
  (Ok (mkDeviceTempFile n (single_quote n)),
   mkDevice (props w) (<[n := EmptyString]> (files w)) (ps_lines w)
     (next_temp w + 1) (has_unzip w) (host_files w) (archives w)).

Definition temp_close (f : DeviceTempFile) (w : device)
  : result unit * device :=
  (Ok tt, set_files (delete (name f) (files w)) w).

(** The simulated md5sum reports the content of a file as its digest. *)
Definition device_md5sums (paths : list string)
  : M device (list HashAndPath) :=
  fun s =>
    (Ok (omap (fun p => (fun c => mkHashAndPath c p) <$> files (adb s) !! p)
           paths), s).

Definition installed : M device bool :=
  fun s => (Ok (has_unzip (adb s)), s).

Definition install_commands : M device unit :=
  fun s => (Raise (OtherError "no unzip binary to install"), s).

Definition collaborators_with (link_column : bool)
  : Collaborators device := {|
  Shell := shell link_column;
  Push := push;
  Pull := pull;
  Root := fun w => (Ok tt, w);
  WaitForDevice := fun w => (Ok tt, w);
  GetState := fun w => (Ok "device", w);
  SingleQuote := single_quote;
  DoubleQuote := double_quote;
  TempFile_init := temp_init;
  TempFile_close := temp_close;
  CalculateDeviceMd5Sums := device_md5sums;
  Installed := installed;
  InstallCommands := install_commands;
  BIN_DIR := "/data/local/tmp/bin";
  WriteToZipFile := write_zip
|}.

Definition collaborators : Collaborators device := collaborators_with false.


(** A host file system given by a flat store of files. *)
Definition host (store : gmap string string) : Host := {|
  realpath := fun p => p;
  isfile := fun p => bool_decide (is_Some (store !! p));
  isdir := is_dir store;
  relpath := fun p base => strip_prefix base p;
  CalculateHostMd5Sums := fun ps =>
    flat_map (fun p => map (fun kv => mkHashAndPath kv.2 kv.1) (under store p))
      ps;
  GetRecursiveDiskUsage := fun p =>
    sum (map (fun kv => PyStr.len kv.2) (under store p));
  walk_file_count := fun p => Z.of_nat (length (under store p));
  zip_file_name := "/tmp/tmp.zip"
|}.

(** A fresh DeviceUtils object on a device. *)
Definition fresh (w : device) : DeviceUtils device :=
  mkDeviceUtils ∅ None w [].

Definition blank : device := mkDevice ∅ ∅ [] 0 false ∅ ∅.

(** A debug build with one file and two processes of the same name. *)
Definition ps_listing : list string :=
  ["USER PID PPID NAME";
   "u0_a1 101 1 com.example.app";
   "u0_a1 102 1 com.example.app";
   "root 103 1 /system/bin/sh"].

Definition phone : device :=
  mkDevice (<["debug.x" := "old"]> {["ro.build.type" := "userdebug"]})
    {["/data/f" := "abc"]} ps_listing 0 false ∅ ∅.

(** The same device with a user build. *)
Definition user_phone : device :=
  set_props {["ro.build.type" := "user"]} phone.

(** A host directory [/h/A] with [a.txt] and [b.txt], and a device whose
    [/sdcard/A] holds the same [a.txt] and a file [c.txt]. *)
Definition host_store : gmap string string :=
  <["/h/A/b.txt" := "H2"]> {["/h/A/a.txt" := "H1"]}.

Definition device_store : gmap string string :=
  <["/sdcard/A/c.txt" := "H3"]> {["/sdcard/A/a.txt" := "H1"]}.

Definition tablet : device :=
  mkDevice ∅ device_store [] 0 false host_store ∅.

(** A device whose [/sdcard/A] holds [c.txt] only: both host files are to
    be transferred. *)
Definition shelf : device :=
  mkDevice ∅ {["/sdcard/A/c.txt" := "H3"]} [] 0 false host_store ∅.

(** Twenty host files, pushed one pair each to a device with [unzip]. *)
Definition twenty_names : list string :=
  map (fun i : Z => "f" +:+ pretty i) (seqZ 0 20).

Definition twenty_files : gmap string string :=
  list_to_map (map (fun n => ("/h/" +:+ n, "x")) twenty_names).

Definition twenty_pairs : list (string * string) :=
  map (fun n => ("/h/" +:+ n, "/sdcard/" +:+ n)) twenty_names.

Definition device_with_unzip : device :=
  mkDevice ∅ ∅ [] 0 true twenty_files ∅.

(** A device with an empty file, a file of one line and a file of two. *)
Definition notebook : device :=
  mkDevice ∅
    (<["/data/two" := "a" +:+ NL +:+ "b" +:+ NL]>
       (<["/data/one" := "abc" +:+ NL]> {["/data/none" := EmptyString]}))
    [] 0 false ∅ ∅.

(** A word of [n] letters. *)
Definition word (n : Z) : string :=
  string_of_list_ascii (replicate (Z.to_nat n) "a"%char).

(** The same device holding a file of 33000 bytes. *)
Definition phone_with_large_file : device :=
  set_files (<["/data/big" := word 33000]> (files phone)) phone.

End Sim.

(** ** A scripted device

    Modelled from the spec: a second instance of the external primitives,
    for commands the simulated device does not know.  Its shell answers
    each command line from a script; a command line the script does not
    list exits with a non-zero status and no output.  Pushes succeed,
    pulls fail, and quoting is that of the simulated device. *)

Module Script.

Definition reply (script : list (string * result string)) (cmd : string)
  : result string :=
  match List.find (fun e => String.eqb e.1 cmd) script with
  | Some e => e.2
  | None => Raise (AdbCommandFailedError EmptyString)
  end.

Definition collaborators (script : list (string * result string))
  : Collaborators unit := {|
  Shell := fun cmd w => (reply script cmd, w);
  Push := fun _ _ w => (Ok tt, w);
  Pull := fun p w =>
    (Raise (CommandFailedError "remote object %s does not exist" [p]), w);
  Root := fun w => (Ok tt, w);
  WaitForDevice := fun w => (Ok tt, w);
  GetState := fun w => (Ok "device", w);
  SingleQuote := Sim.single_quote;
  DoubleQuote := Sim.double_quote;
  TempFile_init := fun suffix w =>
    (Ok (mkDeviceTempFile ("/data/local/tmp/temp_file" +:+ suffix)
           (Sim.single_quote ("/data/local/tmp/temp_file" +:+ suffix))), w);
  TempFile_close := fun _ w => (Ok tt, w);
  CalculateDeviceMd5Sums := fun _ s => (Ok [], s);
  Installed := fun s => (Ok false, s);
  InstallCommands := fun s => (Ok tt, s);
  BIN_DIR := "/data/local/tmp/bin";
  WriteToZipFile := fun _ _ w => w
|}.

Definition fresh : DeviceUtils unit := mkDeviceUtils ∅ None tt [].

(** The output of [dumpsys battery] on a device charging over USB. *)
Definition battery_report : string :=
  _JoinLines
    ["Current Battery Service state:";
     "  AC powered: false";
     "  USB powered: true";
     "  level: 87";
     "  technology: Li-ion"].

End Script.

(** ** Vocabulary of the statements *)

(** The calls a shell command can make: the [Shell] call itself and, for
    a long command, the script file and its push.  [Root] and [Pull] are
    not among them. *)
Definition shell_side (c : call) : Prop :=
  match c with
  | CallShell _ | CallPush _ _ | CallTempFile _ | CallTempFileClose _ => True
  | _ => False
  end.

(** [s'] is reached from [s] by such calls only. *)
Definition only_shell_calls {W : Type} (s s' : DeviceUtils W) : Prop :=
  exists new, calls s' = (calls s ++ new)%list /\ Forall shell_side new.



(** The float nearest to an integer, ties going to the even mantissa,
    which is what an [int] operand of float arithmetic stands for; none
    when it lies beyond the largest float. *)
Definition binary64 (n : Z) : option float :=
  match SpecFloat.binary_normalize 53 1024 n 0 false with
  | SpecFloat.S754_infinity _ => None
  | sf => Some (FloatOps.SF2Prim sf)
  end.

(** A device keeps the file [p] with content [c] and hands it back, where
    [content w q] stands for the content of the file [q] on the device in
    state [w]: the [echo] command line of [WriteFile] and a push of [c]
    to [p] leave [c] in [p]; [ls -l] leaves the file alone and reports
    its size; [cat] prints the content and a pull yields it.  Command
    lines are taken as [run_command] delivers them, inline or from a
    script. *)
Record keeps_file {W : Type} (C : Collaborators W)
    (content : W -> string -> option string) (p c : string) : Prop := {
  echo_stores : forall s out s',
    run_command C true
      ("echo -n " +:+ SingleQuote C c +:+ " > " +:+ SingleQuote C p) s
      = (Ok out, s') ->
    content (adb s') p = Some c;
  push_stores : forall w w',
    Push C (HostTempFile c) p w = (Ok tt, w') -> content w' p = Some c;
  ls_reports : forall s out s',
    content (adb s) p = Some c ->
    run_command C true (PyStr.join " " (map (SingleQuote C) ["ls"; "-l"; p])) s
      = (Ok out, s') ->
    content (adb s') p = Some c
    /\ ls_size (PyStr.splitlines out) p = Ok (Some (PyStr.len c));
  cat_prints : forall s out s',
    content (adb s) p = Some c ->
    run_command C true (PyStr.join " " (map (SingleQuote C) ["cat"; p])) s
      = (Ok out, s') ->
    out = c;
  pull_yields : forall w out w',
    content w p = Some c -> Pull C p w = (Ok out, w') -> out = c
}.

(** Contents without carriage returns, and contents whose last byte is a
    newline. *)
Fixpoint no_CR (c : string) : bool :=
  match c with
  | EmptyString => true
  | String ch c' => negb (Ascii.eqb ch PyStr.CR) && no_CR c'
  end.

Fixpoint ends_with_LF (c : string) : bool :=
  match c with
  | EmptyString => false
  | String ch EmptyString => Ascii.eqb ch PyStr.LF
  | String _ c' => ends_with_LF c'
  end.

(** A line free of line breaks: neither a newline nor a carriage return
    occurs in it. *)
Fixpoint no_linebreak (line : string) : bool :=
  match line with
  | EmptyString => true
  | String ch line' =>
      negb (Ascii.eqb ch PyStr.LF) && negb (Ascii.eqb ch PyStr.CR)
      && no_linebreak line'
  end.

(** The cache of [s'] is that of [s] except, at most, at [key]. *)
Definition cache_same_except {W : Type} (key : string)
    (s s' : DeviceUtils W) : Prop :=
  forall k, k <> key -> _cache s' !! k = _cache s !! k.

(** The PID that a line of the process listing records for the process
    name [pname], when [process_name] is looked for: the second field of
    a line whose last field is [pname], provided [pname] contains
    [process_name]. *)
Definition recorded_pid (process_name pname line : string) : option string :=
  let ps_data := PyStr.split line in
  if decide (last ps_data = Some pname) then
    if PyStr.contains process_name pname then ps_data !! 1%nat else None
  else None.

(** The value that a line of the local properties file gives to
    [property_name]: the line is not blank, and what precedes its first
    [=] is, up to surrounding white space, the name. *)
Definition property_line (property_name line : string) : option string :=
  if String.eqb (PyStr.strip line) EmptyString then None
  else
    match PyStr.split_once "=" line with
    | Some (key, value) =>
        if String.eqb (PyStr.strip key) property_name
        then Some (PyStr.strip value) else None
    | None => None
    end.

(** A line of the local properties file that is not blank and holds no
    [=]. *)
Definition malformed (line : string) : bool :=
  negb (String.eqb (PyStr.strip line) EmptyString)
  && negb (PyStr.contains "=" line).

(** A line that [find_property] passes over when it looks for
    [property_name]. *)
Definition passed_over (property_name line : string) : Prop :=
  property_line property_name line = None /\ malformed line = false.

(** The value that a line of the battery report gives to the key [k]. *)
Definition battery_line (k line : string) : option string :=
  match PyStr.split_once ": " line with
  | Some (key, value) =>
      if String.eqb (PyStr.strip key) k then Some (PyStr.strip value) else None
  | None => None
  end.

(** An identifier: a letter or underscore followed by letters, digits and
    underscores. *)
Fixpoint all_alnum_ (s : string) : bool :=
  match s with
  | EmptyString => true
  | String c s' => (PyStr.is_alpha_ c || PyStr.is_digit c) && all_alnum_ s'
  end.

Definition is_identifier (s : string) : bool :=
  match s with
  | EmptyString => false
  | String c s' => PyStr.is_alpha_ c && all_alnum_ s'
  end.

(** * Properties of the methods *)

(** The methods are unfolded by name only. *)
Arguments build_command : simpl never.
Arguments run_command : simpl never.
Arguments do_run : simpl never.
Arguments split_output : simpl never.
Arguments RunShellCommand_with : simpl never.
Arguments RunShellCommand : simpl never.
Arguments NeedsSU : simpl never.
Arguments GetProp : simpl never.
Arguments SetProp : simpl never.
Arguments build_type : simpl never.
Arguments _GetPidsImpl : simpl never.
Arguments _GetChangedFilesImpl : simpl never.
Arguments changed_files : simpl never.
Arguments _InstallCommands : simpl never.
Arguments _PushChangedFilesIndividually : simpl never.
Arguments _PushChangedFilesZipped : simpl never.
Arguments with_DeviceTempFile : simpl never.
Arguments ReadFile : simpl never.
Arguments WriteFile : simpl never.
Arguments ls_size : simpl never.

(** ** Strings *)

Lemma length_append (s1 s2 : string) :
  String.length (s1 +:+ s2) = (String.length s1 + String.length s2)%nat.
Proof.
  induction s1 as [|a s1 IH]; [reflexivity|].
  change (S (String.length (s1 +:+ s2))
          = S (String.length s1 + String.length s2)).
  now rewrite IH.
Qed.

(** ** The monad *)

Section MonadFacts.
Context {W : Type}.

Lemma bind_Ok {A B} (m : M W A) (k : A -> M W B) s a s' :
  m s = (Ok a, s') -> bind m k s = k a s'.
Proof. intros Hm. unfold bind. now rewrite Hm. Qed.

Lemma bind_Raise {A B} (m : M W A) (k : A -> M W B) s e s' :
  m s = (Raise e, s') -> bind m k s = (Raise e, s').
Proof. intros Hm. unfold bind. now rewrite Hm. Qed.

Lemma bind_inv_Ok {A B} (m : M W A) (k : A -> M W B) s b s' :
  bind m k s = (Ok b, s') ->
  exists a s1, m s = (Ok a, s1) /\ k a s1 = (Ok b, s').
Proof.
  unfold bind. destruct (m s) as [[a|e] s1]; intros Hk.
  - now exists a, s1.
  - discriminate.
Qed.

Lemma prim_calls {A} (c : call) (f : W -> result A * W) s :
  calls (prim c f s).2 = (calls s ++ [c])%list.
Proof. unfold prim. now destruct (f (adb s)). Qed.

End MonadFacts.

(** ** RunShellCommand *)

Section RunShellCommandFacts.
Context {W : Type} (C : Collaborators W).

Lemma do_run_calls check_return cmd (s : DeviceUtils W) :
  calls (do_run C check_return cmd s).2 = (calls s ++ [CallShell cmd])%list.
Proof.
  unfold do_run, bind, try, adb_Shell, prim.
  destruct (Shell C cmd (adb s)) as [[out|e] w]; cbn; [reflexivity|].
  destruct e; cbn; try reflexivity. now destruct check_return.
Qed.

Lemma split_output_state single_line output (s : DeviceUtils W) :
  (split_output single_line output s).2 = s.
Proof.
  unfold split_output. destruct single_line; [|reflexivity].
  destruct (PyStr.splitlines output) as [|l [|l' ls]]; reflexivity.
Qed.

(** The calls [run_command] makes: one [Shell] call with the command
    itself below the limit; from the limit on, a temp script is created,
    the command is pushed into it, [sh] runs it and the script is
    removed. *)
Lemma run_command_calls check_return cmd (s : DeviceUtils W) :
  calls (run_command C check_return cmd s).2 =
    if (PyStr.len cmd <? _MAX_ADB_COMMAND_LENGTH)%Z then
      (calls s ++ [CallShell cmd])%list
    else
      (calls s ++ CallTempFile ".sh" ::
         match TempFile_init C ".sh" (adb s) with
         | (Ok script, w) =>
             CallPush (HostTempFile cmd) (name script) ::
               match Push C (HostTempFile cmd) (name script) w with
               | (Ok _, _) => [CallShell ("sh " +:+ name_quoted script)]
               | (Raise _, _) => []
               end ++ [CallTempFileClose (name script)]
         | (Raise _, _) => []
         end)%list.
Proof.
  unfold run_command.
  destruct (PyStr.len cmd <? _MAX_ADB_COMMAND_LENGTH)%Z.
  { apply do_run_calls. }
  unfold with_DeviceTempFile, bind, finally, _WriteFileWithPush, adb_Push.
  unfold prim; cbn.
  destruct (TempFile_init C ".sh" (adb s)) as [[script|e] w]; cbn; [|reflexivity].
  destruct (Push C (HostTempFile cmd) (name script) w) as [[[]|e] w1]; cbn.
  - match goal with
    | |- context [do_run C check_return ?c ?st] =>
        pose proof (do_run_calls check_return c st) as Hrun;
        destruct (do_run C check_return c st) as [r s2]
    end.
    cbn in Hrun.
    destruct (TempFile_close C script (adb s2)) as [[[]|e] w2]; cbn;
      rewrite Hrun; cbn; now rewrite <- !app_assoc.
  - destruct (TempFile_close C script w1) as [[[]|e'] w2]; cbn;
      now rewrite <- !app_assoc.
Qed.

End RunShellCommandFacts.

(** Single-line mode on the simulated device. *)
Example RunShellCommand_single_line_cases :
  let run p := (RunShellCommand Sim.collaborators (CmdArgs ["cat"; p])
                  true None None false true (Sim.fresh Sim.notebook)).1 in
  run "/data/none" = Ok EmptyString /\
  run "/data/one" = Ok "abc" /\
  run "/data/two" =
    Raise (CommandFailedError "one line of output was expected, but got: %s"
             ["a"; "b"]).
Proof. vm_compute. repeat split; reflexivity. Qed.

(** C7 (as the code has it): the assembled command string is sent inline,
    as one [Shell] call, when its length is below 512; when its length is
    512 or more it is pushed into a temporary script file on the device
    and run as [sh <script>], after which the script is removed. *)
Theorem RunShellCommand_command_length {W : Type} (C : Collaborators W)
    (cmd : command) (check_return : bool) (cwd : option string)
    (env : option (list (string * string))) (as_root single_line : bool)
    (s : DeviceUtils W) (c : string) (s1 : DeviceUtils W) :
  build_command C (NeedsSU C) cmd cwd env as_root s = (Ok c, s1) ->
  calls (RunShellCommand C cmd check_return cwd env as_root single_line s).2 =
    if (PyStr.len c <? 512)%Z then
      (calls s1 ++ [CallShell c])%list
    else
      (calls s1 ++ CallTempFile ".sh" ::
         match TempFile_init C ".sh" (adb s1) with
         | (Ok script, w) =>
             CallPush (HostTempFile c) (name script) ::
               match Push C (HostTempFile c) (name script) w with
               | (Ok _, _) => [CallShell ("sh " +:+ name_quoted script)]
               | (Raise _, _) => []
               end ++ [CallTempFileClose (name script)]
         | (Raise _, _) => []
         end)%list.
Proof.
  intros Hbuild.
  unfold RunShellCommand, RunShellCommand_with.
  rewrite (bind_Ok _ _ _ _ _ Hbuild).
  pose proof (run_command_calls C check_return c s1) as Hrun.
  unfold bind.
  destruct (run_command C check_return c s1) as [[out|e] s2].
  - rewrite split_output_state. exact Hrun.
  - exact Hrun.
Qed.

(** The theorem at the command [ps], which is sent inline. *)
Lemma RunShellCommand_command_length_witness :
  calls (RunShellCommand Sim.collaborators (CmdString "ps")
           true None None false false (Sim.fresh Sim.blank)).2
  = [CallShell "ps"].
Proof.
  exact (RunShellCommand_command_length Sim.collaborators (CmdString "ps")
           true None None false false (Sim.fresh Sim.blank) "ps"
           (Sim.fresh Sim.blank) eq_refl).
Defined.

(** C7 as stated fails at length 512: a command of exactly 512
    characters does not exceed 512, and yet it is not sent inline but run
    from a script. *)
Lemma RunShellCommand_length_512_uses_script :
  PyStr.len (Sim.word 512) = 512 /\
  calls (RunShellCommand Sim.collaborators (CmdString (Sim.word 512))
           false None None false false (Sim.fresh Sim.blank)).2
  = [CallTempFile ".sh";
     CallPush (HostTempFile (Sim.word 512)) "/data/local/tmp/temp_file-0.sh";
     CallShell "sh /data/local/tmp/temp_file-0.sh";
     CallTempFileClose "/data/local/tmp/temp_file-0.sh"].
Proof. split; vm_compute; reflexivity. Qed.

(** ** Calls on the shell side *)

Lemma only_shell_calls_refl {W : Type} (s : DeviceUtils W) : only_shell_calls s s.
Proof. exists []. split; [now rewrite app_nil_r | constructor]. Qed.

Lemma only_shell_calls_trans {W : Type} (s1 s2 s3 : DeviceUtils W) :
  only_shell_calls s1 s2 -> only_shell_calls s2 s3 -> only_shell_calls s1 s3.
Proof.
  intros (n1 & H1 & F1) (n2 & H2 & F2). exists (n1 ++ n2)%list. split.
  - now rewrite H2, H1, app_assoc.
  - now apply Forall_app.
Qed.

Lemma only_shell_calls_same {W : Type} (s s' : DeviceUtils W) :
  calls s' = calls s -> only_shell_calls s s'.
Proof.
  intros Heq. exists []. split; [now rewrite app_nil_r | constructor].
Qed.

Lemma only_shell_calls_bind {W A B} (m : M W A) (k : A -> M W B) s :
  only_shell_calls s (m s).2 ->
  (forall a s1, only_shell_calls s1 (k a s1).2) ->
  only_shell_calls s (bind m k s).2.
Proof.
  intros Hm Hk. unfold bind.
  destruct (m s) as [[a|e] s1]; cbn in *; [|exact Hm].
  exact (only_shell_calls_trans _ _ _ Hm (Hk a s1)).
Qed.

Ltac shell_calls_leaf :=
  first [ apply only_shell_calls_refl
        | apply only_shell_calls_same; reflexivity ].

(** ** The state a shell command leaves behind *)

Section ObjectState.
Context {W : Type} (C : Collaborators W).

Lemma do_run_cache check_return cmd (s : DeviceUtils W) :
  _cache (do_run C check_return cmd s).2 = _cache s.
Proof.
  unfold do_run, bind, try, adb_Shell, prim.
  destruct (Shell C cmd (adb s)) as [[out|e] w]; cbn; [reflexivity|].
  destruct e; cbn; try reflexivity. now destruct check_return.
Qed.

Lemma run_command_cache check_return cmd (s : DeviceUtils W) :
  _cache (run_command C check_return cmd s).2 = _cache s.
Proof.
  unfold run_command.
  destruct (PyStr.len cmd <? _MAX_ADB_COMMAND_LENGTH)%Z.
  { apply do_run_cache. }
  unfold with_DeviceTempFile, bind, finally, _WriteFileWithPush, adb_Push.
  unfold prim; cbn.
  destruct (TempFile_init C ".sh" (adb s)) as [[script|e] w]; cbn; [|reflexivity].
  destruct (Push C (HostTempFile cmd) (name script) w) as [[[]|e] w1]; cbn.
  - match goal with
    | |- context [do_run C check_return ?c ?st] =>
        pose proof (do_run_cache check_return c st) as Hrun;
        destruct (do_run C check_return c st) as [r s2]
    end.
    cbn in Hrun.
    now destruct (TempFile_close C script (adb s2)) as [[[]|e] w2].
  - now destruct (TempFile_close C script w1) as [[[]|e'] w2].
Qed.

(** Without [as_root] the command is assembled without touching the
    object. *)
Lemma build_command_state N cmd cwd env r (s s1 : DeviceUtils W) :
  build_command C N cmd cwd env false s = (r, s1) -> s1 = s.
Proof.
  unfold build_command, bind, lift, ret.
  destruct env as [[|kv kvs]|]; try (now intros [= _ <-]).
  destruct (map_result (env_quote C) (kv :: kvs)); now intros [= _ <-].
Qed.

Lemma RunShellCommand_cache N cmd check_return cwd env single_line
    (s : DeviceUtils W) :
  _cache (RunShellCommand_with C N cmd check_return cwd env false
            single_line s).2 = _cache s.
Proof.
  unfold RunShellCommand_with, bind.
  destruct (build_command C N cmd cwd env false s) as [[c|e] s1] eqn:Hb;
    apply build_command_state in Hb; subst s1; [|reflexivity].
  pose proof (run_command_cache check_return c s) as Hrun.
  destruct (run_command C check_return c s) as [[out|e] s2]; [|exact Hrun].
  now rewrite split_output_state.
Qed.

Lemma run_command_shell_side check_return cmd (s : DeviceUtils W) :
  only_shell_calls s (run_command C check_return cmd s).2.
Proof.
  unfold only_shell_calls. rewrite run_command_calls.
  destruct (PyStr.len cmd <? _MAX_ADB_COMMAND_LENGTH)%Z.
  { eexists; split; [reflexivity|]. repeat constructor. }
  eexists; split; [reflexivity|].
  destruct (TempFile_init C ".sh" (adb s)) as [[script|e] w];
    [|repeat constructor].
  destruct (Push C (HostTempFile cmd) (name script) w) as [[[]|e] w1];
    repeat constructor.
Qed.

Lemma split_output_shell_side single_line out (s : DeviceUtils W) :
  only_shell_calls s (split_output single_line out s).2.
Proof. rewrite split_output_state. apply only_shell_calls_refl. Qed.

Lemma RunShellCommand_shell_side N cmd check_return cwd env single_line
    (s : DeviceUtils W) :
  only_shell_calls s
    (RunShellCommand_with C N cmd check_return cwd env false single_line s).2.
Proof.
  unfold RunShellCommand_with.
  apply only_shell_calls_bind.
  - destruct (build_command C N cmd cwd env false s) as [r s1] eqn:Hb.
    apply build_command_state in Hb. subst s1. apply only_shell_calls_refl.
  - intros c s1. apply only_shell_calls_bind.
    + apply run_command_shell_side.
    + intros out s2. apply split_output_shell_side.
Qed.

Lemma NeedsSU_shell_side (s : DeviceUtils W) :
  only_shell_calls s (NeedsSU C s).2.
Proof.
  unfold NeedsSU.
  apply only_shell_calls_bind; [apply only_shell_calls_refl|].
  intros c s1. apply only_shell_calls_bind.
  - destruct (c !! "needs_su"); [apply only_shell_calls_refl|].
    apply only_shell_calls_bind.
    + unfold try.
      pose proof (RunShellCommand_shell_side (ret (VBool false))
                    (CmdString "su -c ls /root && ! ls /root")
                    true None None false s1) as Hrun.
      now destruct (RunShellCommand_with _ _ _ _ _ _ _ _ s1).
    + intros [out|e] s2.
      * apply only_shell_calls_bind; intros; shell_calls_leaf.
      * destruct e; shell_calls_leaf.
  - intros _ s2. apply only_shell_calls_bind; [apply only_shell_calls_refl|].
    intros c2 s3. destruct (c2 !! "needs_su"); apply only_shell_calls_refl.
Qed.

Lemma build_command_shell_side cmd cwd env as_root (s : DeviceUtils W) :
  only_shell_calls s (build_command C (NeedsSU C) cmd cwd env as_root s).2.
Proof.
  unfold build_command.
  apply only_shell_calls_bind.
  - destruct env as [[|kv kvs]|]; try apply only_shell_calls_refl.
    apply only_shell_calls_bind.
    + unfold lift. apply only_shell_calls_refl.
    + intros; apply only_shell_calls_refl.
  - intros c s1. destruct as_root; [|apply only_shell_calls_refl].
    apply only_shell_calls_bind; [apply NeedsSU_shell_side|].
    intros; apply only_shell_calls_refl.
Qed.

(** Whatever its arguments, [RunShellCommand] makes shell-side calls
    only. *)
Lemma RunShellCommand_only_shell_calls cmd check_return cwd env as_root
    single_line (s : DeviceUtils W) :
  only_shell_calls s
    (RunShellCommand C cmd check_return cwd env as_root single_line s).2.
Proof.
  unfold RunShellCommand, RunShellCommand_with.
  apply only_shell_calls_bind; [apply build_command_shell_side|].
  intros c s1. apply only_shell_calls_bind.
  - apply run_command_shell_side.
  - intros out s2. apply split_output_shell_side.
Qed.

End ObjectState.

(** ** The property cache *)

Section PropertyCache.
Context {W : Type} (C : Collaborators W).

Lemma prop_key_ne (property_name : string) :
  "_prop:" +:+ property_name <> property_name.
Proof.
  intros Heq. apply (f_equal String.length) in Heq.
  rewrite length_append in Heq. cbn in Heq. lia.
Qed.

(** A cached property is served from the cache: no call reaches the
    device and the object is left as it was. *)
Lemma GetProp_cached property_name v (s : DeviceUtils W) :
  _cache s !! ("_prop:" +:+ property_name) = Some v ->
  GetProp C property_name true s = (Ok v, s).
Proof.
  intros Hv. unfold GetProp, bind, get_cache. cbn. now rewrite Hv.
Qed.

(** [GetProp] writes the cache at the key of its property only. *)
Lemma GetProp_cache_other property_name cache k (s : DeviceUtils W) :
  k <> "_prop:" +:+ property_name ->
  _cache (GetProp C property_name cache s).2 !! k = _cache s !! k.
Proof.
  intros Hk. unfold GetProp, bind, get_cache at 1. cbn.
  destruct (if cache then _cache s !! ("_prop:" +:+ property_name) else None)
    as [v|]; [reflexivity|].
  pose proof (RunShellCommand_cache C (NeedsSU C)
                (CmdArgs ["getprop"; property_name]) true None None true s)
    as Hc.
  unfold RunShellCommand in *.
  destruct (RunShellCommand_with C (NeedsSU C)
              (CmdArgs ["getprop"; property_name]) true None None false true s)
    as [[value|e] s1]; cbn in *; [|now rewrite Hc].
  destruct (cache || bool_decide (is_Some (_cache s1 !! _))); cbn.
  - rewrite lookup_insert_ne by congruence. now rewrite Hc.
  - now rewrite Hc.
Qed.

Lemma GetProp_shell_side property_name cache (s : DeviceUtils W) :
  only_shell_calls s (GetProp C property_name cache s).2.
Proof.
  unfold GetProp.
  apply only_shell_calls_bind; [apply only_shell_calls_refl|].
  intros c s1.
  destruct (if cache then c !! ("_prop:" +:+ property_name) else None);
    [apply only_shell_calls_refl|].
  apply only_shell_calls_bind;
    [apply (RunShellCommand_only_shell_calls C
              (CmdArgs ["getprop"; property_name]) true None None false true)|].
  intros value s2.
  apply only_shell_calls_bind; [apply only_shell_calls_refl|].
  intros c2 s3. apply only_shell_calls_bind.
  - destruct (cache || _); shell_calls_leaf.
  - intros; shell_calls_leaf.
Qed.

(** [SetProp] without [check] leaves the cached value of the property
    where it is: it deletes the key [property_name], while [GetProp]
    caches under ["_prop:" + property_name]. *)
Lemma SetProp_keeps_cached_value property_name value (s : DeviceUtils W) :
  _cache (SetProp C property_name value false s).2
    !! ("_prop:" +:+ property_name)
  = _cache s !! ("_prop:" +:+ property_name).
Proof.
  unfold SetProp, bind.
  pose proof (RunShellCommand_cache C (NeedsSU C)
                (CmdArgs ["setprop"; property_name; value]) true None None
                false s) as Hc.
  unfold RunShellCommand in *. cbn.
  destruct (RunShellCommand_with C (NeedsSU C)
              (CmdArgs ["setprop"; property_name; value]) true None None
              false false s) as [[out|e] s1]; cbn in *; [|now rewrite Hc].
  destruct (bool_decide (is_Some (_cache s1 !! property_name))); cbn.
  - rewrite lookup_delete_ne by (intros Heq; symmetry in Heq;
                                  exact (prop_key_ne _ Heq)).
    now rewrite Hc.
  - now rewrite Hc.
Qed.

(** After a value of the property has been cached, a [SetProp] on the
    property does not make the next cached [GetProp] query the device:
    the stale value is returned. *)
Lemma GetProp_after_SetProp_is_stale property_name value v
    (s : DeviceUtils W) :
  _cache s !! ("_prop:" +:+ property_name) = Some v ->
  let s1 := (SetProp C property_name value false s).2 in
  GetProp C property_name true s1 = (Ok v, s1).
Proof.
  intros Hv s1. apply GetProp_cached.
  subst s1. now rewrite SetProp_keeps_cached_value.
Qed.

End PropertyCache.

(** C1, evaluated on the simulated device: the property is read and
    cached, then set to a new value, then read again through the cache.
    The second read returns the old value and issues no query, although
    the device holds the new value: [SetProp] has not invalidated the
    cached entry. *)
Theorem SetProp_does_not_invalidate :
  let r := (GetProp Sim.collaborators "debug.x" true ;;;
            SetProp Sim.collaborators "debug.x" "new" false ;;;
            GetProp Sim.collaborators "debug.x" true)
             (Sim.fresh Sim.phone) in
  r.1 = Ok (VStr "old") /\
  calls r.2 = [CallShell "getprop debug.x"; CallShell "setprop debug.x new"] /\
  Sim.props (adb r.2) !! "debug.x" = Some "new".
Proof. vm_compute. repeat split; reflexivity. Qed.

(** ** EnableRoot *)

(** C10 (as the code has it): [EnableRoot] first reads the build type
    through the caching [GetProp].  On a build other than a user build it
    then removes [needs_su] from the cache and only afterwards calls the
    root-restart primitive, so the entry is gone whatever [Root] and
    [WaitForDevice] do.  On a user build it raises [CommandFailedError]
    right after the read: [Root] is not called, [needs_su] is left as it
    was, and the only cache key that may have been written is that of the
    build type. *)
Theorem EnableRoot_needs_su {W : Type} (C : Collaborators W)
    (s : DeviceUtils W) :
  match build_type C s with
  | (Ok v, s1) =>
      if decide (v = VStr "user") then
        EnableRoot C s =
          (Raise (CommandFailedError "Cannot enable root in user builds." []),
           s1)
        /\ (forall k, k <> "_prop:ro.build.type" ->
                      _cache s1 !! k = _cache s !! k)
        /\ exists new, calls s1 = (calls s ++ new)%list
                       /\ Forall shell_side new
      else
        let s2 := mkDeviceUtils (delete "needs_su" (_cache s1))
                    (_commands_installed s1) (adb s1) (calls s1) in
        EnableRoot C s = (adb_Root C ;;; adb_WaitForDevice C) s2
        /\ _cache (EnableRoot C s).2 !! "needs_su" = None
  | (Raise e, s1) => EnableRoot C s = (Raise e, s1)
  end.
Proof.
  pose proof (fun k Hk => GetProp_cache_other C "ro.build.type" true k s Hk)
    as Hframe.
  pose proof (GetProp_shell_side C "ro.build.type" true s) as Hcalls.
  change (GetProp C "ro.build.type" true) with (build_type C) in Hcalls.
  change (GetProp C "ro.build.type" true) with (build_type C) in Hframe.
  unfold EnableRoot, IsUserBuild.
  destruct (build_type C s) as [[v|e] s1] eqn:Hbt; cbn in Hframe, Hcalls.
  2: { apply bind_Raise. now apply bind_Raise. }
  assert ((v <- build_type C ;; ret (bool_decide (v = VStr "user"))) s
          = (Ok (bool_decide (v = VStr "user")), s1)) as Hub.
  { now rewrite (bind_Ok _ _ _ _ _ Hbt). }
  rewrite (bind_Ok _ _ _ _ _ Hub).
  destruct (decide (v = VStr "user")) as [->|Hv].
  - rewrite bool_decide_eq_true_2 by reflexivity.
    split; [reflexivity|]. split; [exact Hframe | exact Hcalls].
  - rewrite bool_decide_eq_false_2 by exact Hv.
    assert (forall c' : gmap string cache_value,
               (if bool_decide (is_Some (c' !! "needs_su"))
                then delete "needs_su" c' else c') = delete "needs_su" c')
      as Hdel.
    { intros c'. destruct (bool_decide (is_Some (c' !! "needs_su"))) eqn:Hb;
        [reflexivity|].
      apply bool_decide_eq_false in Hb.
      symmetry. apply delete_id. now apply eq_None_not_Some. }
    assert ((c <- get_cache ;;
             (if bool_decide (is_Some (c !! "needs_su"))
              then set_cache (delete "needs_su" c) else ret tt) ;;;
             adb_Root C ;;; adb_WaitForDevice C) s1
            = (adb_Root C ;;; adb_WaitForDevice C)
                (mkDeviceUtils (delete "needs_su" (_cache s1))
                   (_commands_installed s1) (adb s1) (calls s1))) as Heq.
    { unfold bind at 1 2, get_cache. cbn.
      specialize (Hdel (_cache s1)).
      destruct (bool_decide (is_Some (_cache s1 !! "needs_su"))); cbn.
      - reflexivity.
      - rewrite <- Hdel. now destruct s1. }
    split; [exact Heq|].
    rewrite Heq. unfold bind, adb_Root, adb_WaitForDevice, prim. cbn.
    destruct (Root C (adb s1)) as [[[]|e] w1]; cbn.
    + destruct (WaitForDevice C w1) as [[[]|e] w2]; cbn;
        apply lookup_delete_eq.
    + apply lookup_delete_eq.
Qed.

(** C10 as stated fails on a user build whose type is not cached yet:
    [EnableRoot] raises, and the cache, empty before the call, holds the
    build type after it. *)
Lemma EnableRoot_user_build_writes_cache :
  let s := Sim.fresh Sim.user_phone in
  let r := EnableRoot Sim.collaborators s in
  r.1 = Raise (CommandFailedError "Cannot enable root in user builds." []) /\
  _cache s !! "_prop:ro.build.type" = None /\
  _cache r.2 !! "_prop:ro.build.type" = Some (VStr "user").
Proof. vm_compute. repeat split; reflexivity. Qed.

(** ** KillAll *)

Lemma add_pid_no_match process_name procs_pids line :
  (forall pname, last (PyStr.split line) = Some pname ->
                 PyStr.contains process_name pname = false) ->
  add_pid process_name procs_pids line = procs_pids.
Proof.
  intros Hno. unfold add_pid.
  destruct (last (PyStr.split line)) as [pname|]; [|reflexivity].
  now rewrite (Hno pname eq_refl).
Qed.

Lemma foldl_add_pid_no_match process_name lines procs_pids :
  (forall line pname, line ∈ lines ->
     last (PyStr.split line) = Some pname ->
     PyStr.contains process_name pname = false) ->
  foldl (add_pid process_name) procs_pids lines = procs_pids.
Proof.
  revert procs_pids.
  induction lines as [|line lines IH]; intros procs_pids Hno; [reflexivity|].
  cbn. rewrite add_pid_no_match.
  - apply IH. intros l pname Hl. apply Hno. now right.
  - intros pname. apply Hno. now left.
Qed.

(** A later line with the same process name replaces the PID recorded
    for that name. *)
Lemma add_pid_same_name process_name procs_pids line pname pid pid' :
  last (PyStr.split line) = Some pname ->
  PyStr.split line !! 1%nat = Some pid' ->
  PyStr.contains process_name pname = true ->
  add_pid process_name (<[pname := pid]> procs_pids) line
  = <[pname := pid']> procs_pids.
Proof.
  intros Hlast Hpid Hin. unfold add_pid.
  rewrite Hlast, Hin, Hpid. apply insert_insert_eq.
Qed.

(** C9: when no line of the process listing has a last field containing
    [process_name], [KillAll] raises [CommandFailedError]; the object is
    left in the state reached after the listing, so no kill command has
    been issued. *)
Theorem KillAll_no_match {W : Type} (C : Collaborators W)
    (process_name : string) (signum : Z) (as_root blocking : bool)
    (polls : nat) (s : DeviceUtils W) (lines : list string)
    (s1 : DeviceUtils W) :
  RunShellCommand C (CmdString "ps") true None None false false s
    = (Ok lines, s1) ->
  (forall line pname, line ∈ lines ->
     last (PyStr.split line) = Some pname ->
     PyStr.contains process_name pname = false) ->
  KillAll C process_name signum as_root blocking polls s
    = (Raise (CommandFailedError ("No process " +:+ DQ +:+ "%s" +:+ DQ)
                [process_name]), s1).
Proof.
  intros Hps Hno. unfold KillAll.
  assert (_GetPidsImpl C process_name s = (Ok ∅, s1)) as Hpids.
  { unfold _GetPidsImpl. rewrite (bind_Ok _ _ _ _ _ Hps).
    now rewrite foldl_add_pid_no_match. }
  rewrite (bind_Ok _ _ _ _ _ Hpids).
  destruct (decide ((∅ : gmap string string) = ∅)); [reflexivity|congruence].
Qed.

(** A successful [KillAll] has signalled at least one process. *)
Lemma KillAll_never_zero {W : Type} (C : Collaborators W)
    (process_name : string) (signum : Z) (as_root blocking : bool)
    (polls : nat) (s : DeviceUtils W) (n : Z) (s' : DeviceUtils W) :
  KillAll C process_name signum as_root blocking polls s = (Ok n, s') ->
  (0 < n)%Z.
Proof.
  unfold KillAll. intros Hrun.
  apply bind_inv_Ok in Hrun as (pids & s1 & _ & Hrun).
  destruct (decide (pids = ∅)) as [Heq|Hne]; [discriminate|].
  apply bind_inv_Ok in Hrun as (out & s2 & _ & Hrun).
  apply bind_inv_Ok in Hrun as ([] & s3 & _ & Hrun).
  injection Hrun as <- _.
  assert (size pids <> 0%nat) by (intros Hz; apply Hne, map_size_empty_inv, Hz).
  lia.
Qed.

(** The theorem on the simulated device, for a name no process has. *)
Lemma KillAll_no_match_witness :
  let s := Sim.fresh Sim.phone in
  KillAll Sim.collaborators "org.absent" 9 false false 0 s
  = (Raise (CommandFailedError ("No process " +:+ DQ +:+ "%s" +:+ DQ)
              ["org.absent"]),
     (RunShellCommand Sim.collaborators (CmdString "ps") true None None
        false false s).2).
Proof.
  intros s.
  apply (KillAll_no_match Sim.collaborators "org.absent" 9 false false 0 s
           Sim.ps_listing).
  - vm_compute. reflexivity.
  - intros line pname Hin Hlast.
    unfold Sim.ps_listing in Hin.
    repeat (apply elem_of_cons in Hin as [->|Hin]);
      try (vm_compute in Hlast; injection Hlast as <-; vm_compute; reflexivity).
    now apply elem_of_nil in Hin.
Defined.

(** C4, evaluated on the simulated device: processes 101 and 102 both
    have the name [com.example.app], and [KillAll] signals 102 only; 101
    is still listed afterwards.  [_GetPidsImpl] keeps one PID per process
    name. *)
Theorem KillAll_same_name_signals_one_pid :
  let r := KillAll Sim.collaborators "com.example.app" 9 false false 0
             (Sim.fresh Sim.phone) in
  r.1 = Ok 1 /\
  calls r.2 = [CallShell "ps"; CallShell "kill -9 102"] /\
  Sim.ps_lines (adb r.2) =
    ["USER PID PPID NAME"; "u0_a1 101 1 com.example.app";
     "root 103 1 /system/bin/sh"].
Proof. vm_compute. repeat split; reflexivity. Qed.

(** ** ReadFile *)

Section ReadFileFacts.
Context {W : Type} (C : Collaborators W).


Lemma adb_Pull_inv device_path (s : DeviceUtils W) content s' :
  adb_Pull C device_path s = (Ok content, s') ->
  calls s' = (calls s ++ [CallPull device_path])%list
  /\ exists w', Pull C device_path (adb s) = (Ok content, w').
Proof.
  unfold adb_Pull, prim.
  destruct (Pull C device_path (adb s)) as [r w'] eqn:Hpull.
  intros [= -> <-]. split; [reflexivity|]. now exists w'.
Qed.

Lemma pull_through_temp_file device_path (s : DeviceUtils W) content s' :
  with_DeviceTempFile C EmptyString (fun device_temp =>
    RunShellCommand C (CmdArgs ["cp"; device_path; name device_temp])
      true None None true false ;;;
    _ReadFileWithPull C (name device_temp)) s = (Ok content, s') ->
  exists before q after w w',
    calls s' = (calls s ++ before ++ CallPull q :: after)%list
    /\ Forall shell_side before /\ Forall shell_side after
    /\ Pull C q w = (Ok content, w')
    /\ CallTempFile EmptyString ∈ before /\ CallTempFileClose q ∈ after.
Proof.
  unfold with_DeviceTempFile, bind at 1, prim at 1.
  destruct (TempFile_init C EmptyString (adb s)) as [[f|e] w0];
    [|discriminate].
  set (s0 := mkDeviceUtils _ _ _ _).
  unfold finally.
  destruct ((RunShellCommand C (CmdArgs ["cp"; device_path; name f])
               true None None true false ;;;
             _ReadFileWithPull C (name f)) s0) as [r s3] eqn:Hbody.
  unfold prim.
  destruct (TempFile_close C f (adb s3)) as [[[]|e] w4]; [|discriminate].
  intros [= -> <-]. cbn.
  apply bind_inv_Ok in Hbody as (out & s2 & Hcp & Hpull).
  pose proof (RunShellCommand_only_shell_calls C
                (CmdArgs ["cp"; device_path; name f]) true None None true
                false s0) as (new & Hnew & Hside).
  rewrite Hcp in Hnew. cbn in Hnew.
  apply adb_Pull_inv in Hpull as (Hcalls & w' & Hpull).
  exists (CallTempFile EmptyString :: new), (name f),
         [CallTempFileClose (name f)], (adb s2), w'.
  split.
  { rewrite Hcalls, Hnew. cbn. now rewrite <- !app_assoc. }
  split; [constructor; [exact I | exact Hside]|].
  split; [repeat constructor|]. split; [exact Hpull|].
  split; now left.
Qed.

End ReadFileFacts.




(** A directory is listed without a size: reading it fails with
    [TypeError] after the listing, and nothing is read. *)
Example ReadFile_without_size_field :
  let C :=
    Script.collaborators
      [("ls -l /data/dir",
        Ok ("drwxrwx--x root root 2015-01-01 00:00 dir" +:+ Sim.NL))] in
  ReadFile C "/data/dir" false Script.fresh
  = (Raise TypeError, mkDeviceUtils ∅ None tt [CallShell "ls -l /data/dir"]).
Proof. vm_compute. reflexivity. Qed.

(** A large file read as root on a device that needs [su]: it is copied
    to a temp file, which is pulled and removed. *)
Example ReadFile_large_file_as_root :
  let C :=
    Script.collaborators
      [("su -c sh -c 'ls -l /data/big'",
        Ok ("-rw------- root root 40000 2015-01-01 00:00 big" +:+ Sim.NL));
       ("su -c ls /root && ! ls /root", Ok EmptyString);
       ("su -c sh -c 'cp /data/big /data/local/tmp/temp_file'",
        Ok EmptyString)] in
  calls (ReadFile C "/data/big" true Script.fresh).2
  = [CallShell "su -c ls /root && ! ls /root";
     CallShell "su -c sh -c 'ls -l /data/big'";
     CallTempFile EmptyString;
     CallShell "su -c sh -c 'cp /data/big /data/local/tmp/temp_file'";
     CallPull "/data/local/tmp/temp_file";
     CallTempFileClose "/data/local/tmp/temp_file"].
Proof. vm_compute. reflexivity. Qed.

(** A file above the limit whose size the listing gives is pulled. *)
Example ReadFile_large_file_is_pulled :
  let r := ReadFile Sim.collaborators "/data/big" false
             (Sim.fresh Sim.phone_with_large_file) in
  match r.1 with
  | Ok content => String.eqb content (Sim.word 33000) = true
  | Raise _ => False
  end /\
  calls r.2 = [CallShell "ls -l /data/big"; CallPull "/data/big"].
Proof. vm_compute. split; reflexivity. Qed.


(** ** _GetChangedFilesImpl *)

Section ChangedFiles.
Context {W : Type} (C : Collaborators W) (H : Host).

(** A path has an entry in the dict exactly when some record carries it,
    and the entry is the hash of such a record. *)
Lemma foldl_dict_lookup (records : list HashAndPath)
    (m : gmap string string) (p x : string) :
  foldl (fun m d => <[path d := hash d]> m) m records !! p = Some x ->
  (exists d, d ∈ records /\ path d = p /\ hash d = x) \/ m !! p = Some x.
Proof.
  revert m. induction records as [|d records IH]; intros m; cbn.
  - now right.
  - intros Hl. apply IH in Hl as [(d' & Hin & Hp & Hx)|Hm].
    + left. exists d'. split; [now right | easy].
    + destruct (decide (path d = p)) as [Heq|Hne].
      * rewrite <- Heq, lookup_insert_eq in Hm. injection Hm as <-.
        left. exists d. split; [now left | easy].
      * rewrite lookup_insert_ne in Hm by exact Hne. now right.
Qed.

Lemma foldl_dict_is_Some (records : list HashAndPath)
    (m : gmap string string) (p : string) :
  (exists d, d ∈ records /\ path d = p) \/ is_Some (m !! p) ->
  is_Some (foldl (fun m d => <[path d := hash d]> m) m records !! p).
Proof.
  revert m. induction records as [|d records IH]; intros m; cbn.
  - intros [(d & Hin & _)|Hm]; [now apply elem_of_nil in Hin | exact Hm].
  - intros [(d' & Hin & Hp)|Hm]; apply IH.
    + apply elem_of_cons in Hin as [->|Hin].
      * right. rewrite <- Hp, lookup_insert_eq. now eexists.
      * left. now exists d'.
    + right. destruct (decide (path d = p)) as [Heq|Hne].
      * rewrite <- Heq, lookup_insert_eq. now eexists.
      * now rewrite lookup_insert_ne.
Qed.

(** When the records are the hashes a device holds for the requested
    paths, the dict built from them agrees with the device at every
    requested path. *)
Lemma device_tuple_dict_agrees (records : list HashAndPath)
    (requested : list string) (device_hashes : gmap string string) p :
  (forall d, d ∈ records <->
             path d ∈ requested /\ device_hashes !! path d = Some (hash d)) ->
  p ∈ requested ->
  device_tuple_dict records !! p = device_hashes !! p.
Proof.
  intros Hrec Hp. unfold device_tuple_dict.
  destruct (device_hashes !! p) as [x|] eqn:Hdev.
  - destruct (foldl_dict_is_Some records ∅ p) as [y Hy].
    { left. exists (mkHashAndPath x p). split; [|reflexivity].
      apply Hrec. now split. }
    rewrite Hy. f_equal.
    apply foldl_dict_lookup in Hy as [(d & Hin & Hpd & Hx)|Hy];
      [|now rewrite lookup_empty in Hy].
    apply Hrec in Hin as [_ Hd]. rewrite Hpd, Hdev in Hd. congruence.
  - destruct (foldl _ _ records !! p) as [y|] eqn:Hy; [|reflexivity].
    apply foldl_dict_lookup in Hy as [(d & Hin & Hpd & Hx)|Hy];
      [|now rewrite lookup_empty in Hy].
    apply Hrec in Hin as [_ Hd]. rewrite Hpd, Hdev in Hd. discriminate.
Qed.

Lemma omap_ext_in {A B} (f g : A -> option B) (l : list A) :
  (forall x, x ∈ l -> f x = g x) -> omap f l = omap g l.
Proof.
  induction l as [|x l IH]; intros Hfg; [reflexivity|]. cbn.
  rewrite (Hfg x) by now left.
  rewrite IH; [reflexivity|]. intros y Hy. apply Hfg. now right.
Qed.

End ChangedFiles.

(** C5: with the device path resolved and the device-side md5sum
    reporting the hashes [device_hashes] the device holds at the
    requested paths, [_GetChangedFilesImpl] returns, for a host directory,
    one transfer unit for each host file whose hash is not the hash the
    device holds at the corresponding relative device path, in the order
    of the host files, and nothing else; for a single host file it returns
    the one unit when the device holds no hash or another hash for it,
    and no unit otherwise. *)
Theorem GetChangedFilesImpl_exact {W : Type} (C : Collaborators W) (H : Host)
    (host_path device_path : string) (s : DeviceUtils W)
    (real_device_path : string) (s1 : DeviceUtils W)
    (device_hash_tuples : list HashAndPath) (s2 : DeviceUtils W)
    (device_hashes : gmap string string) :
  let real_host_path := realpath H host_path in
  let host_hash_tuples := CalculateHostMd5Sums H [real_host_path] in
  let device_path_of h :=
    device_abs_path H real_device_path real_host_path (path h) in
  let requested :=
    if isfile H host_path then [real_device_path]
    else map device_path_of host_hash_tuples in
  RunShellCommand C (CmdArgs ["realpath"; device_path]) true None None
    false true s = (Ok real_device_path, s1) ->
  real_device_path <> EmptyString ->
  isfile H real_host_path = isfile H host_path ->
  (isfile H host_path = true -> host_hash_tuples <> []) ->
  collab (CallDeviceMd5Sums requested) (CalculateDeviceMd5Sums C requested) s1
    = (Ok device_hash_tuples, s2) ->
  (forall d, d ∈ device_hash_tuples <->
             path d ∈ requested /\ device_hashes !! path d = Some (hash d)) ->
  _GetChangedFilesImpl C H host_path device_path s =
    (Ok (if isfile H host_path then
           match host_hash_tuples with
           | h :: _ =>
               if decide (device_hashes !! real_device_path = Some (hash h))
               then [] else [(host_path, device_path)]
           | [] => []
           end
         else
           omap (fun h =>
                   if decide (device_hashes !! device_path_of h
                              = Some (hash h))
                   then None else Some (path h, device_path_of h))
             host_hash_tuples), s2).
Proof.
  intros real_host_path host_hash_tuples device_path_of requested
    Hreal Hne Hfile Hhost Hmd5 Hrec.
  unfold _GetChangedFilesImpl.
  assert (try (RunShellCommand C (CmdArgs ["realpath"; device_path])
                 true None None false true) s
          = (Ok (Ok real_device_path), s1)) as Htry.
  { unfold try.
    change (RunShellCommand_with C (NeedsSU C)
              (CmdArgs ["realpath"; device_path]) true None None false true s)
      with (RunShellCommand C (CmdArgs ["realpath"; device_path])
              true None None false true s).
    now rewrite Hreal. }
  rewrite (bind_Ok _ _ _ _ _ Htry).
  unfold bind at 1, ret at 1.
  rewrite (proj2 (String.eqb_neq _ _) Hne).
  fold real_host_path. fold host_hash_tuples. rewrite Hfile.
  change (fun t : HashAndPath =>
            device_abs_path H real_device_path real_host_path (path t))
    with device_path_of.
  fold requested. rewrite (bind_Ok _ _ _ _ _ Hmd5).
  subst requested.
  destruct (isfile H host_path) eqn:Hisfile.
  - destruct host_hash_tuples as [|h hs] eqn:Hhs; [now destruct Hhost|].
    destruct device_hash_tuples as [|d ds].
    + destruct (decide (device_hashes !! real_device_path = Some (hash h)))
        as [Hd|Hd]; [|reflexivity].
      exfalso.
      assert (mkHashAndPath (hash h) real_device_path ∈ []) as Hin.
      { apply Hrec. cbn. split; [now left | exact Hd]. }
      now apply elem_of_nil in Hin.
    + assert (path d = real_device_path
              /\ device_hashes !! real_device_path = Some (hash d))
        as [Hp Hd].
      { destruct (proj1 (Hrec d)) as [Hin Hd]; [now left|].
        apply list_elem_of_singleton in Hin. rewrite Hin in Hd. easy. }
      rewrite Hd.
      destruct (decide (hash d = hash h)) as [Heq|Hneq].
      * rewrite decide_True by congruence. reflexivity.
      * rewrite decide_False by congruence. reflexivity.
  - unfold ret. f_equal. f_equal.
    apply omap_ext_in. intros h Hh.
    rewrite (device_tuple_dict_agrees device_hash_tuples
               (map device_path_of host_hash_tuples) device_hashes).
    + reflexivity.
    + exact Hrec.
    + apply list_elem_of_fmap. now exists h.
Qed.

(** The scenario of the specification: the host directory holds [a.txt]
    and [b.txt], the device holds the same [a.txt] and a file [c.txt];
    the only transfer unit is the one for [b.txt]. *)
Lemma GetChangedFilesImpl_exact_witness :
  let s := Sim.fresh Sim.tablet in
  (_GetChangedFilesImpl Sim.collaborators (Sim.host Sim.host_store)
     "/h/A" "/sdcard/A" s).1
  = Ok [("/h/A/b.txt", "/sdcard/A/b.txt")].
Proof.
  intros s.
  pose (s1 := (RunShellCommand Sim.collaborators
                 (CmdArgs ["realpath"; "/sdcard/A"]) true None None
                 false true s).2).
  pose (requested := ["/sdcard/A/a.txt"; "/sdcard/A/b.txt"]).
  pose (s2 := (collab (CallDeviceMd5Sums requested)
                 (CalculateDeviceMd5Sums Sim.collaborators requested) s1).2).
  rewrite (GetChangedFilesImpl_exact Sim.collaborators
             (Sim.host Sim.host_store) "/h/A" "/sdcard/A" s "/sdcard/A" s1
             [mkHashAndPath "H1" "/sdcard/A/a.txt"] s2 Sim.device_store).
  - vm_compute. reflexivity.
  - vm_compute. reflexivity.
  - discriminate.
  - reflexivity.
  - vm_compute. discriminate.
  - vm_compute. reflexivity.
  - intros [h p]. cbn [path hash]. split.
    + intros Hin. apply list_elem_of_singleton in Hin.
      injection Hin as -> ->. vm_compute. split; [|reflexivity].
      apply elem_of_cons. now left.
    + intros [Hin Hd].
      change (p ∈ ["/sdcard/A/a.txt"; "/sdcard/A/b.txt"]) in Hin.
      apply elem_of_cons in Hin as [->|Hin].
      * vm_compute in Hd. injection Hd as <-. now left.
      * apply list_elem_of_singleton in Hin. subst p.
        vm_compute in Hd. discriminate.
Defined.

(** A single host file: no unit when the device holds the same hash, the
    unit when the device holds another. *)
Example GetChangedFilesImpl_single_file :
  let s := Sim.fresh Sim.tablet in
  (_GetChangedFilesImpl Sim.collaborators (Sim.host Sim.host_store)
     "/h/A/a.txt" "/sdcard/A/a.txt" s).1 = Ok []
  /\ (_GetChangedFilesImpl Sim.collaborators (Sim.host Sim.host_store)
        "/h/A/b.txt" "/sdcard/A/c.txt" s).1
     = Ok [("/h/A/b.txt", "/sdcard/A/c.txt")].
Proof. vm_compute. split; reflexivity. Qed.

(** ** PushChangedFiles *)

Section PushFacts.
Context {W : Type} (C : Collaborators W) (H : Host).

(** Probing for the zip tooling never raises: a failure is recorded in
    [_commands_installed]. *)
Lemma InstallCommands_returns (s : DeviceUtils W) :
  (_InstallCommands C s).1 = Ok tt.
Proof.
  unfold _InstallCommands, bind, get_commands_installed, try. cbn.
  destruct (_commands_installed s); [reflexivity|].
  unfold collab.
  destruct (Installed C _) as [[present|e] s1]; [|reflexivity].
  destruct present; [reflexivity|].
  now destruct (InstallCommands C _) as [[[]|e] s2].
Qed.

(** After the probe the flag is set. *)
Lemma InstallCommands_decides (s : DeviceUtils W) :
  is_Some (_commands_installed (_InstallCommands C s).2).
Proof.
  unfold _InstallCommands, bind, get_commands_installed, try. cbn.
  destruct (_commands_installed s) eqn:Hs; [cbn; rewrite Hs; now eexists|].
  unfold collab.
  destruct (Installed C _) as [[present|e] s1]; [|now eexists].
  destruct present; [now eexists|].
  destruct (InstallCommands C _) as [[[]|e] s2]; now eexists.
Qed.

(** Pushing pairs one by one makes one [Push] per pair, in order, as far
    as the pushes succeed. *)
Lemma PushChangedFilesIndividually_calls (files : list (string * string))
    (s s' : DeviceUtils W) :
  _PushChangedFilesIndividually C files s = (Ok tt, s') ->
  calls s' =
    (calls s ++ map (fun hd => CallPush (HostPath hd.1) hd.2) files)%list.
Proof.
  unfold _PushChangedFilesIndividually. revert s.
  induction files as [|hd files IH]; intros s; cbn.
  - intros [= <-]. now rewrite app_nil_r.
  - intros Hrun. apply bind_inv_Ok in Hrun as ([] & s1 & Hpush & Hrest).
    apply IH in Hrest. rewrite Hrest.
    unfold adb_Push in Hpush.
    pose proof (prim_calls (CallPush (HostPath hd.1) hd.2)
                  (Push C (HostPath hd.1) hd.2) s) as Hc.
    rewrite Hpush in Hc. cbn in Hc. rewrite Hc. now rewrite <- app_assoc.
Qed.

End PushFacts.

Lemma float_of_int_binary64 (n : Z) :
  float_of_int n
  = match binary64 n with
    | Some x => Ok x
    | None => Raise OverflowError
    end.
Proof.
  unfold float_of_int, binary64.
  change FloatOps.prec with 53%Z. change FloatOps.emax with 1024%Z.
  now destruct (SpecFloat.binary_normalize 53 1024 n 0 false).
Qed.

Lemma ApproximateDuration_binary64 (adb_calls file_count byte_count : Z)
    (is_zipping : bool) :
  _ApproximateDuration adb_calls file_count byte_count is_zipping
  = match binary64 adb_calls, binary64 file_count, binary64 byte_count with
    | Some a, Some f, Some b =>
        Ok (if is_zipping
            then (0.1 * a + 0.01 * f + (2 + b / 10000000) + b / (2000000 * 2))
            else (0.1 * a + 0.01 * f + 0 + b / 2000000))%float
    | _, _, _ => Raise OverflowError
    end.
Proof.
  unfold _ApproximateDuration. rewrite !float_of_int_binary64.
  destruct (binary64 adb_calls); [|reflexivity].
  destruct (binary64 file_count); [|reflexivity].
  destruct (binary64 byte_count); [|reflexivity].
  now destruct is_zipping.
Qed.

Lemma InstallCommands_run {W : Type} (C : Collaborators W)
    (s1 : DeviceUtils W) :
  let logged c (st : DeviceUtils W) :=
    mkDeviceUtils (_cache st) (_commands_installed st) (adb st)
      (calls st ++ [c])%list in
  let flagged b (st : DeviceUtils W) :=
    mkDeviceUtils (_cache st) (Some b) (adb st) (calls st) in
  _InstallCommands C s1
  = (Ok tt,
     match _commands_installed s1 with
     | Some _ => s1
     | None =>
         match Installed C (logged CallInstalled s1) with
         | (Ok true, s') => flagged true s'
         | (Ok false, s') =>
             match InstallCommands C (logged CallInstallCommands s') with
             | (Ok _, s'') => flagged true s''
             | (Raise _, s'') => flagged false s''
             end
         | (Raise _, s') => flagged false s'
         end
     end).
Proof.
  intros logged flagged. subst logged flagged.
  unfold _InstallCommands, bind, get_commands_installed, try, collab,
    set_commands_installed, ret. cbv beta iota.
  destruct s1 as [cache [b|] w log]; [reflexivity|]. cbn.
  match goal with
  | |- context [Installed C ?st] =>
      destruct (Installed C st) as [[[|]|e] s']; try reflexivity
  end.
  cbv beta.
  match goal with
  | |- context [InstallCommands C ?st] =>
      now destruct (InstallCommands C st) as [[[]|e] s'']
  end.
Qed.

(** C8: with a non-empty list of changed files, [PushChangedFiles]
    estimates three durations from the number of pairs and files and
    their sizes, the integers being converted to floats: the per-file
    push at 0.1 s and 0.01 s per changed file plus its bytes at 2 MB/s;
    the per-directory push at 0.1 s per pair of the call and 0.01 s per
    file under it plus all its bytes at 2 MB/s; the zipped push at
    0.1 s + 0.01 s + 2 s plus the changed bytes at 10 MB/s and again at
    4 MB/s.  It raises [OverflowError] when an integer is beyond the
    floats.  Otherwise it probes for the zip tooling, unless an earlier
    call has decided on it, and the tooling counts as unavailable when
    the probe or the installation has failed.  Then each pair of the call
    is pushed, in order, when the per-directory estimate is below the
    per-file one and also below the zip one or the tooling is
    unavailable; otherwise each changed file is pushed, in order, when
    the per-file estimate is below the zip one or the tooling is
    unavailable; otherwise the changed files are archived, the archive is
    pushed to the external storage, unpacked there as root with the
    directory of the tooling first in [PATH], and removed if the device
    is still online, after which [chmod -R 777] is run as root on every
    destination of the call. *)
Theorem PushChangedFiles_strategy {W : Type} (C : Collaborators W) (H : Host)
    (host_device_tuples : list (string * string)) (s : DeviceUtils W)
    (files : list (string * string)) (s1 : DeviceUtils W) :
  changed_files C H host_device_tuples s = (Ok files, s1) ->
  files <> [] ->
  let size := sum (map (fun hd => GetRecursiveDiskUsage H hd.1) files) in
  let file_count := Z.of_nat (length files) in
  let dir_count := Z.of_nat (length host_device_tuples) in
  let dir_size :=
    sum (map (fun hd => GetRecursiveDiskUsage H hd.1) host_device_tuples) in
  let dir_file_count :=
    sum (map (fun hd => if isdir H hd.1 then walk_file_count H hd.1 else 1%Z)
           host_device_tuples) in
  let logged c (st : DeviceUtils W) :=
    mkDeviceUtils (_cache st) (_commands_installed st) (adb st)
      (calls st ++ [c])%list in
  let flagged b (st : DeviceUtils W) :=
    mkDeviceUtils (_cache st) (Some b) (adb st) (calls st) in
  let s2 :=
    match _commands_installed s1 with
    | Some _ => s1
    | None =>
        match Installed C (logged CallInstalled s1) with
        | (Ok true, s') => flagged true s'
        | (Ok false, s') =>
            match InstallCommands C (logged CallInstallCommands s') with
            | (Ok _, s'') => flagged true s''
            | (Raise _, s'') => flagged false s''
            end
        | (Raise _, s') => flagged false s'
        end
    end in
  let unavailable :=
    negb (bool_decide (_commands_installed s2 = Some true)) in
  let push_each (pairs : list (string * string)) : M W unit :=
    for_each pairs (fun hd =>
      prim (CallPush (HostPath hd.1) hd.2) (Push C (HostPath hd.1) hd.2)) in
  let zip_and_unzip : M W unit :=
    prim (CallCreateDeviceZip (zip_file_name H) files)
      (fun w => (Ok tt, WriteToZipFile C (zip_file_name H) files w)) ;;;
    storage <- GetExternalStoragePath C ;;
    let zip_on_device := str_of storage +:+ "/tmp.zip" in
    finally
      (prim (CallPush (HostPath (zip_file_name H)) zip_on_device)
         (Push C (HostPath (zip_file_name H)) zip_on_device) ;;;
       RunShellCommand C (CmdArgs ["unzip"; zip_on_device]) true None
         (Some [("PATH", BIN_DIR C +:+ ":$PATH")]) true false ;;;
       ret tt)
      (online <- IsOnline C ;;
       if online then
         RunShellCommand C (CmdArgs ["rm"; zip_on_device])
           true None None false false ;;;
         ret tt
       else ret tt) in
  let chmod : M W unit :=
    RunShellCommand C
      (CmdArgs (["chmod"; "-R"; "777"] ++ map snd host_device_tuples)%list)
      true None None true false ;;;
    ret tt in
  match binary64 file_count, binary64 size, binary64 dir_count,
        binary64 dir_file_count, binary64 dir_size with
  | Some n, Some b, Some dn, Some df, Some db =>
      let push_duration := (0.1 * n + 0.01 * n + 0 + b / 2000000)%float in
      let dir_push_duration :=
        (0.1 * dn + 0.01 * df + 0 + db / 2000000)%float in
      let zip_duration :=
        (0.1 * 1 + 0.01 * 1 + (2 + b / 10000000) + b / (2000000 * 2))%float in
      PushChangedFiles C H host_device_tuples s =
        (if PrimFloat.ltb dir_push_duration push_duration
            && (PrimFloat.ltb dir_push_duration zip_duration || unavailable)
         then push_each host_device_tuples
         else if PrimFloat.ltb push_duration zip_duration || unavailable
         then push_each files
         else zip_and_unzip ;;; chmod) s2
  | _, _, _, _, _ =>
      PushChangedFiles C H host_device_tuples s = (Raise OverflowError, s1)
  end.
Proof.
  intros Hfiles Hne size file_count dir_count dir_size dir_file_count
    logged flagged s2 unavailable push_each zip_and_unzip chmod.
  assert (binary64 1 = Some 1%float) as Hone by (vm_compute; reflexivity).
  assert (PushChangedFiles C H host_device_tuples s =
            (push_duration <-
               lift (_ApproximateDuration file_count file_count size false) ;;
             dir_push_duration <-
               lift (_ApproximateDuration dir_count dir_file_count dir_size
                       false) ;;
             zip_duration <- lift (_ApproximateDuration 1 1 size true) ;;
             _InstallCommands C ;;;
             installed <- commands_installed ;;
             if PrimFloat.ltb dir_push_duration push_duration
                && (PrimFloat.ltb dir_push_duration zip_duration
                    || negb installed)
             then push_each host_device_tuples
             else if PrimFloat.ltb push_duration zip_duration || negb installed
             then push_each files
             else zip_and_unzip ;;; chmod) s1) as ->.
  { unfold PushChangedFiles. rewrite (bind_Ok _ _ _ _ _ Hfiles).
    destruct files as [|f files']; [congruence|]. reflexivity. }
  rewrite !ApproximateDuration_binary64, Hone.
  destruct (binary64 file_count) as [n|]; [|reflexivity].
  destruct (binary64 size) as [b|]; [|reflexivity].
  destruct (binary64 dir_count) as [dn|]; [|reflexivity].
  destruct (binary64 dir_file_count) as [df|]; [|reflexivity].
  destruct (binary64 dir_size) as [db|]; [|reflexivity].
  cbv zeta. unfold bind at 1, lift at 1. unfold bind at 1, lift at 1.
  unfold bind at 1, lift at 1.
  pose proof (InstallCommands_run C s1) as Hrun. cbv zeta in Hrun.
  fold s2 in Hrun. rewrite (bind_Ok _ _ _ _ _ Hrun).
  assert (commands_installed s2 = (Ok (negb unavailable), s2)) as Hci.
  { subst unavailable. unfold commands_installed, bind, get_commands_installed.
    cbn. destruct (_commands_installed s2) as [[|]|]; reflexivity. }
  rewrite (bind_Ok _ _ _ _ _ Hci). rewrite negb_involutive. reflexivity.
Qed.

(** The theorem on the simulated device, where one file of the host
    directory has changed: the per-file push is chosen. *)
Lemma PushChangedFiles_strategy_witness :
  let C := Sim.collaborators in
  let H := Sim.host Sim.host_store in
  let s := Sim.fresh Sim.tablet in
  let s1 := (changed_files C H [("/h/A", "/sdcard/A")] s).2 in
  PushChangedFiles C H [("/h/A", "/sdcard/A")] s =
    for_each [("/h/A/b.txt", "/sdcard/A/b.txt")]
      (fun hd =>
         prim (CallPush (HostPath hd.1) hd.2) (Push C (HostPath hd.1) hd.2))
      (_InstallCommands C s1).2.
Proof.
  intros C H s s1.
  assert (changed_files C H [("/h/A", "/sdcard/A")] s
          = (Ok [("/h/A/b.txt", "/sdcard/A/b.txt")], s1)) as Hfiles
    by (vm_compute; reflexivity).
  pose proof (PushChangedFiles_strategy C H [("/h/A", "/sdcard/A")] s
                [("/h/A/b.txt", "/sdcard/A/b.txt")] s1 Hfiles) as Hrun.
  vm_compute in Hrun. vm_compute. apply Hrun. discriminate.
Defined.

(** The three strategies on the simulated device.  One changed file in a
    directory of two: the file is pushed by itself. *)
Example PushChangedFiles_per_file :
  let r := PushChangedFiles Sim.collaborators (Sim.host Sim.host_store)
             [("/h/A", "/sdcard/A")] (Sim.fresh Sim.tablet) in
  r.1 = Ok tt /\
  calls r.2 =
    [CallShell "mkdir -p /sdcard/A"; CallShell "realpath /sdcard/A";
     CallDeviceMd5Sums ["/sdcard/A/a.txt"; "/sdcard/A/b.txt"];
     CallInstalled; CallInstallCommands;
     CallPush (HostPath "/h/A/b.txt") "/sdcard/A/b.txt"].
Proof. vm_compute. split; reflexivity. Qed.

(** Both files of the directory changed: the directory is pushed. *)
Example PushChangedFiles_per_directory :
  let r := PushChangedFiles Sim.collaborators (Sim.host Sim.host_store)
             [("/h/A", "/sdcard/A")] (Sim.fresh Sim.shelf) in
  r.1 = Ok tt /\
  calls r.2 =
    [CallShell "mkdir -p /sdcard/A"; CallShell "realpath /sdcard/A";
     CallDeviceMd5Sums ["/sdcard/A/a.txt"; "/sdcard/A/b.txt"];
     CallInstalled; CallInstallCommands;
     CallPush (HostPath "/h/A") "/sdcard/A"].
Proof. vm_compute. split; reflexivity. Qed.

(** Twenty single files on a device with [unzip]: one archive is pushed
    and unpacked, and the destinations are made accessible. *)
Example PushChangedFiles_zipped :
  let r := PushChangedFiles Sim.collaborators (Sim.host Sim.twenty_files)
             Sim.twenty_pairs (Sim.fresh Sim.device_with_unzip) in
  r.1 = Ok tt /\
  calls r.2 =
    (map (fun n => CallShell ("realpath /sdcard/" +:+ n)) Sim.twenty_names
     ++ [CallInstalled;
         CallCreateDeviceZip "/tmp/tmp.zip" Sim.twenty_pairs;
         CallShell "echo $EXTERNAL_STORAGE";
         CallPush (HostPath "/tmp/tmp.zip") "/sdcard/tmp.zip";
         CallShell "su -c ls /root && ! ls /root";
         CallShell ("PATH=" +:+ DQ +:+ "/data/local/tmp/bin:$PATH" +:+ DQ
                    +:+ " unzip /sdcard/tmp.zip");
         CallGetState;
         CallShell "rm /sdcard/tmp.zip";
         CallShell ("chmod -R 777 "
                    +:+ PyStr.join " " (map snd Sim.twenty_pairs))])%list /\
  Sim.files (adb r.2) !! "/sdcard/f7" = Some "x".
Proof. vm_compute. repeat split; reflexivity. Qed.

(** ** WriteFile followed by ReadFile *)

Section RoundTrip.
Context {W : Type} (C : Collaborators W).

(** A plain shell command (no environment, no directory, no root) with
    [check_return] is its command line run by [run_command], with the
    output split into lines. *)
Lemma RunShellCommand_plain cmd (s : DeviceUtils W) lines s' :
  RunShellCommand C cmd true None None false false s = (Ok lines, s') ->
  exists out,
    run_command C true
      match cmd with
      | CmdString q => q
      | CmdArgs argv => PyStr.join " " (map (SingleQuote C) argv)
      end s = (Ok out, s')
    /\ lines = PyStr.splitlines out.
Proof.
  unfold RunShellCommand, RunShellCommand_with. intros Hrun.
  apply bind_inv_Ok in Hrun as (c & s1 & Hbuild & Hrun).
  assert (s1 = s) by (eapply build_command_state; exact Hbuild). subst s1.
  unfold build_command, bind, ret in Hbuild. injection Hbuild as <-.
  apply bind_inv_Ok in Hrun as (out & s2 & Hrun & Hsplit).
  unfold split_output, ret in Hsplit. injection Hsplit as <- <-.
  now exists out.
Qed.

Variables (content : W -> string -> option string) (p c : string).
Hypothesis device : keeps_file C content p c.

Lemma WriteFile_stores force_push (s s1 : DeviceUtils W) :
  WriteFile C p c false force_push s = (Ok tt, s1) ->
  content (adb s1) p = Some c.
Proof.
  unfold WriteFile.
  destruct (negb force_push && (PyStr.len c <? _MAX_ADB_COMMAND_LENGTH)%Z).
  - intros Hrun. apply bind_inv_Ok in Hrun as (lines & s2 & Hrun & Hret).
    injection Hret as <-.
    apply RunShellCommand_plain in Hrun as (out & Hrun & _).
    exact (echo_stores C content p c device _ _ _ Hrun).
  - intros Hrun. apply bind_inv_Ok in Hrun as (su & s2 & Hsu & Hrun).
    injection Hsu as <- <-.
    unfold _WriteFileWithPush, adb_Push, prim in Hrun.
    destruct (Push C (HostTempFile c) p (adb s)) as [[[]|e] w'] eqn:Hpush;
      [|discriminate].
    injection Hrun as <-. cbn.
    exact (push_stores C content p c device _ _ Hpush).
Qed.

Lemma ReadFile_returns (s1 : DeviceUtils W) r s' :
  content (adb s1) p = Some c ->
  ReadFile C p false s1 = (Ok r, s') ->
  r = if (PyStr.len c <=? 32768)%Z
      then _JoinLines (PyStr.splitlines c) else c.
Proof.
  intros Hc Hread. unfold ReadFile in Hread.
  apply bind_inv_Ok in Hread as (ls_out & s2 & Hls & Hread).
  apply RunShellCommand_plain in Hls as (out & Hls & ->).
  destruct (ls_reports C content p c device _ _ _ Hc Hls) as [Hc2 Hsize].
  unfold bind at 1, lift at 1 in Hread. rewrite Hsize in Hread.
  unfold _MAX_ADB_OUTPUT_LENGTH in Hread.
  destruct (PyStr.len c <=? 32768)%Z.
  - apply bind_inv_Ok in Hread as (lines & s3 & Hcat & Hret).
    injection Hret as <- <-.
    apply RunShellCommand_plain in Hcat as (out' & Hcat & ->).
    now rewrite (cat_prints C content p c device _ _ _ Hc2 Hcat).
  - apply bind_inv_Ok in Hread as (su & s3 & Hsu & Hread).
    injection Hsu as <- <-.
    apply adb_Pull_inv in Hread as (_ & w' & Hpull).
    exact (pull_yields C content p c device _ _ _ Hc2 Hpull).
Qed.

End RoundTrip.

(** C2 (as the code has it): on a device that keeps the file and hands
    it back, [WriteFile] followed by [ReadFile] of the same path, not as
    root, returns the contents with every line terminated by a newline,
    [_JoinLines (splitlines c)], when the contents are at most 32768 bytes
    long, and the contents themselves when they are longer; whether the
    write went through [echo] or through a push makes no difference. *)
Theorem WriteFile_ReadFile {W : Type} (C : Collaborators W)
    (content : W -> string -> option string) (p c : string)
    (force_push : bool) (s : DeviceUtils W) (r : string)
    (s' : DeviceUtils W) :
  keeps_file C content p c ->
  (WriteFile C p c false force_push ;;; ReadFile C p false) s = (Ok r, s') ->
  r = if (PyStr.len c <=? 32768)%Z
      then _JoinLines (PyStr.splitlines c) else c.
Proof.
  intros Hdevice Hrun.
  apply bind_inv_Ok in Hrun as ([] & s1 & Hwrite & Hread).
  eapply ReadFile_returns; [exact Hdevice | | exact Hread].
  eapply WriteFile_stores; [exact Hdevice | exact Hwrite].
Qed.

(** The simulated device keeps the file [/data/g] with content [hello]. *)
Lemma Sim_keeps_file :
  keeps_file Sim.collaborators (fun w q => Sim.files w !! q) "/data/g" "hello".
Proof.
  assert (forall cmd (s : DeviceUtils Sim.device) out s',
            (PyStr.len cmd <? _MAX_ADB_COMMAND_LENGTH)%Z = true ->
            run_command Sim.collaborators true cmd s = (Ok out, s') ->
            Sim.shell false cmd (adb s) = (Ok out, adb s')) as Hchecked.
  { intros cmd s out s' Hshort. unfold run_command.
    rewrite Hshort. unfold do_run, bind, try, adb_Shell, prim. cbn.
    destruct (Sim.shell false cmd (adb s)) as [[o|e] w] eqn:Hsh; cbn.
    - now intros [= <- <-].
    - destruct e; discriminate. }
  split.
  - intros s out s' Hrun. apply Hchecked in Hrun; [|reflexivity].
    change (Sim.shell false "echo -n hello > /data/g" (adb s)
            = (Ok out, adb s')) in Hrun.
    change (Sim.shell false "echo -n hello > /data/g" (adb s))
      with (Ok EmptyString,
            Sim.set_files (<["/data/g" := "hello"]> (Sim.files (adb s)))
              (adb s)) in Hrun.
    injection Hrun as _ <-. apply lookup_insert_eq.
  - intros w w' Hpush. injection Hpush as <-. apply lookup_insert_eq.
  - intros s out s' Hc Hrun. apply Hchecked in Hrun; [|reflexivity].
    change (match Sim.files (adb s) !! "/data/g" with
            | Some c =>
                (Ok ("-rw-rw-rw- " +:+ EmptyString
                     +:+ "root root " +:+ pretty (PyStr.len c)
                     +:+ " 2015-01-01 00:00 " +:+ "g" +:+ Sim.NL), adb s)
            | None => Sim.no_such_file "/data/g" (adb s)
            end = (Ok out, adb s')) in Hrun.
    rewrite Hc in Hrun. injection Hrun as <- <-.
    split; [exact Hc|]. vm_compute. reflexivity.
  - intros s out s' Hc Hrun. apply Hchecked in Hrun; [|reflexivity].
    change (match Sim.files (adb s) !! "/data/g" with
            | Some c => (Ok c, adb s)
            | None => Sim.no_such_file "/data/g" (adb s)
            end = (Ok out, adb s')) in Hrun.
    rewrite Hc in Hrun. now injection Hrun as <- _.
  - intros w out w' Hc Hpull.
    change (match Sim.files w !! "/data/g" with
            | Some c => (Ok c, w)
            | None =>
                (Raise (CommandFailedError "remote object %s does not exist"
                          ["/data/g"]), w)
            end = (Ok out, w')) in Hpull.
    rewrite Hc in Hpull. now injection Hpull as <- _.
Qed.

(** The theorem on the simulated device, for the contents [hello]. *)
Lemma WriteFile_ReadFile_witness :
  let run := (WriteFile Sim.collaborators "/data/g" "hello" false false ;;;
              ReadFile Sim.collaborators "/data/g" false)
               (Sim.fresh Sim.phone) in
  run.1 = Ok ("hello" +:+ Sim.NL) /\
  "hello" +:+ Sim.NL =
    if (PyStr.len "hello" <=? 32768)%Z
    then _JoinLines (PyStr.splitlines "hello") else "hello".
Proof.
  intros run. split; [vm_compute; reflexivity|].
  apply (WriteFile_ReadFile Sim.collaborators (fun w q => Sim.files w !! q)
           "/data/g" "hello" false (Sim.fresh Sim.phone)
           ("hello" +:+ Sim.NL) run.2 Sim_keeps_file).
  vm_compute. reflexivity.
Defined.

(** C2 as stated fails on both write paths: contents written through
    [echo] (5 bytes) and contents written through a push (600 bytes) come
    back with a newline appended, so the string read is not the string
    written. *)
Lemma WriteFile_ReadFile_appends_newline :
  let small := "hello" in
  let large := Sim.word 600 in
  let run c := (WriteFile Sim.collaborators "/data/g" c false false ;;;
                ReadFile Sim.collaborators "/data/g" false)
                 (Sim.fresh Sim.phone) in
  (run small).1 = Ok (small +:+ Sim.NL) /\ small +:+ Sim.NL <> small /\
  calls (run small).2 =
    [CallShell "echo -n hello > /data/g"; CallShell "ls -l /data/g";
     CallShell "cat /data/g"] /\
  (run large).1 = Ok (large +:+ Sim.NL) /\ large +:+ Sim.NL <> large /\
  calls (run large).2 =
    [CallPush (HostTempFile large) "/data/g"; CallShell "ls -l /data/g";
     CallShell "cat /data/g"].
Proof.
  vm_compute. repeat split; try reflexivity; discriminate.
Qed.

(** ** Splitting into lines and joining again *)

Lemma append_assoc (a b c : string) : (a +:+ b) +:+ c = a +:+ (b +:+ c).
Proof.
  induction a as [|ch a IH]; [reflexivity|].
  change (String ch ((a +:+ b) +:+ c) = String ch (a +:+ (b +:+ c))).
  now rewrite IH.
Qed.

Lemma append_snoc_nonempty (a : string) (ch : ascii) :
  a +:+ String ch EmptyString <> EmptyString.
Proof. destruct a; discriminate. Qed.

Lemma JoinLines_splitlines_from (c cur : string) :
  no_CR c = true ->
  _JoinLines (PyStr.splitlines_from cur c) =
    if decide (cur = EmptyString /\ c = EmptyString) then EmptyString
    else if ends_with_LF c then cur +:+ c
    else cur +:+ c +:+ String PyStr.LF EmptyString.
Proof.
  revert cur. induction c as [|ch c IH]; intros cur Hcr.
  - cbn. destruct (decide (cur = EmptyString)) as [->|Hcur].
    + now rewrite decide_True.
    + rewrite decide_False by tauto. reflexivity.
  - rewrite decide_False by (intros [_ Hc]; discriminate).
    cbn in Hcr. apply andb_true_iff in Hcr as [Hch Hcr].
    apply negb_true_iff in Hch.
    cbn [PyStr.splitlines_from]. rewrite Hch.
    destruct (Ascii.eqb ch PyStr.LF) eqn:Hlf.
    + apply Ascii.eqb_eq in Hlf. subst ch.
      cbn [_JoinLines foldr]. fold (_JoinLines (PyStr.splitlines_from EmptyString c)).
      rewrite (IH EmptyString Hcr).
      destruct c as [|ch' c'].
      * rewrite decide_True by tauto. reflexivity.
      * rewrite decide_False by (intros [_ Hc]; discriminate).
        change (ends_with_LF (String PyStr.LF (String ch' c')))
          with (ends_with_LF (String ch' c')).
        now destruct (ends_with_LF (String ch' c')).
    + rewrite (IH _ Hcr).
      rewrite decide_False
        by (intros [Hc _]; exact (append_snoc_nonempty _ _ Hc)).
      assert (ends_with_LF (String ch c) = ends_with_LF c) as Hend.
      { destruct c; [cbn; now rewrite Hlf | reflexivity]. }
      rewrite Hend, !append_assoc. reflexivity.
Qed.

(** Contents without carriage returns come back from a split and a join
    unchanged when they are empty or end in a newline, and with a newline
    appended otherwise. *)
Lemma JoinLines_splitlines (c : string) :
  no_CR c = true ->
  _JoinLines (PyStr.splitlines c) =
    if decide (c = EmptyString) then EmptyString
    else if ends_with_LF c then c
    else c +:+ String PyStr.LF EmptyString.
Proof.
  intros Hcr. unfold PyStr.splitlines.
  rewrite (JoinLines_splitlines_from c EmptyString Hcr).
  destruct (decide (c = EmptyString)) as [->|Hc].
  - now rewrite decide_True.
  - now rewrite decide_False by tauto.
Qed.

(** * Further properties *)

(** ** _JoinLines *)

Lemma splitlines_from_line (line rest cur : string) :
  no_linebreak line = true ->
  PyStr.splitlines_from cur (line +:+ String PyStr.LF rest)
  = (cur +:+ line) :: PyStr.splitlines_from EmptyString rest.
Proof.
  revert cur. induction line as [|ch line IH]; intros cur Hline.
  - change (EmptyString +:+ String PyStr.LF rest) with (String PyStr.LF rest).
    cbn [PyStr.splitlines_from]. rewrite Ascii.eqb_refl.
    f_equal. clear. induction cur as [|c cur IH]; [reflexivity|].
    change (String c cur = String c (cur +:+ EmptyString)). now rewrite <- IH.
  - cbn in Hline. apply andb_true_iff in Hline as [Hch Hline].
    apply andb_true_iff in Hch as [Hlf Hcr].
    apply negb_true_iff in Hlf, Hcr.
    change (String ch line +:+ String PyStr.LF rest)
      with (String ch (line +:+ String PyStr.LF rest)).
    cbn [PyStr.splitlines_from]. rewrite Hlf, Hcr.
    rewrite (IH _ Hline). now rewrite append_assoc.
Qed.

(** Lines joined by [_JoinLines] and split again are the lines one
    started from, provided none of them holds a line break. *)
Theorem splitlines_JoinLines (lines : list string) :
  Forall (fun line => no_linebreak line = true) lines ->
  PyStr.splitlines (_JoinLines lines) = lines.
Proof.
  unfold PyStr.splitlines.
  induction lines as [|line lines IH]; intros Hlines; [reflexivity|].
  inversion Hlines as [|? ? Hline Hrest]; subst.
  cbn [_JoinLines foldr]. fold (_JoinLines lines).
  rewrite (splitlines_from_line line (_JoinLines lines) EmptyString Hline).
  now rewrite (IH Hrest).
Qed.

Lemma splitlines_JoinLines_witness :
  PyStr.splitlines (_JoinLines ["a=1"; EmptyString; "b = 2 "])
  = ["a=1"; EmptyString; "b = 2 "].
Proof.
  apply splitlines_JoinLines. repeat constructor.
Defined.

Lemma ends_with_LF_append (line acc : string) :
  ends_with_LF (line +:+ String PyStr.LF acc)
  = if decide (acc = EmptyString) then true else ends_with_LF acc.
Proof.
  induction line as [|ch line IH].
  - change (EmptyString +:+ String PyStr.LF acc) with (String PyStr.LF acc).
    destruct acc; [reflexivity|]. now rewrite decide_False.
  - change (String ch line +:+ String PyStr.LF acc)
      with (String ch (line +:+ String PyStr.LF acc)).
    destruct (line +:+ String PyStr.LF acc) eqn:Happ.
    + destruct line; discriminate.
    + rewrite <- IH. reflexivity.
Qed.

(** [_JoinLines] terminates every line, the last one too: its result is
    empty for no line and ends in a newline otherwise, and its length is
    the length of the lines plus one per line. *)
Theorem JoinLines_terminated (lines : list string) :
  (_JoinLines lines = EmptyString <-> lines = [])
  /\ (lines <> [] -> ends_with_LF (_JoinLines lines) = true)
  /\ PyStr.len (_JoinLines lines)
     = sum (map (fun line => PyStr.len line + 1) lines).
Proof.
  split; [|split].
  - split; [|now intros ->].
    destruct lines as [|line lines]; [reflexivity|].
    cbn [_JoinLines foldr]. intros Hempty. destruct line; discriminate.
  - induction lines as [|line lines IH]; [congruence|]. intros _.
    cbn [_JoinLines foldr]. fold (_JoinLines lines).
    rewrite ends_with_LF_append.
    destruct (decide (_JoinLines lines = EmptyString)) as [|Hne];
      [reflexivity|].
    apply IH. intros ->. now apply Hne.
  - unfold sum.
    assert (forall l a, foldl Z.add a l = a + foldl Z.add 0 l) as Hfold.
    { induction l as [|x l IHl]; intros a; [cbn; lia|].
      cbn [foldl]. rewrite (IHl (a + x)), (IHl (0 + x)). lia. }
    induction lines as [|line lines IH]; [reflexivity|].
    cbn [_JoinLines foldr map foldl]. fold (_JoinLines lines).
    rewrite Hfold, <- IH. unfold PyStr.len.
    rewrite length_append. cbn [String.length]. lia.
Qed.

(** The characterisation of a split followed by a join, at a text whose
    last line is not terminated. *)
Lemma JoinLines_splitlines_witness :
  _JoinLines (PyStr.splitlines ("a" +:+ Sim.NL +:+ "b"))
  = "a" +:+ Sim.NL +:+ "b" +:+ Sim.NL.
Proof.
  exact (JoinLines_splitlines ("a" +:+ Sim.NL +:+ "b") eq_refl).
Defined.

(** ** RunShellCommand: environment, exit status, cache *)

Section ShellFacts.
Context {W : Type} (C : Collaborators W).

Lemma map_result_env_quote_invalid (kvs : list (string * string)) :
  Exists (fun kv => Re.match_ _VALID_SHELL_VARIABLE kv.1 = None) kvs ->
  exists key,
    map_result (env_quote C) kvs
      = Raise (KeyError "Invalid shell variable name %r" key)
    /\ Re.match_ _VALID_SHELL_VARIABLE key = None
    /\ key ∈ kvs.*1.
Proof.
  induction kvs as [|kv kvs IH]; intros Hbad; [inversion Hbad|].
  cbn [map_result]. unfold env_quote at 1.
  destruct (Re.match_ _VALID_SHELL_VARIABLE kv.1) as [g|] eqn:Hkv.
  - assert (Exists (fun kv => Re.match_ _VALID_SHELL_VARIABLE kv.1 = None) kvs)
      as Hrest.
    { inversion Hbad as [? ? Hhd|? ? Htl]; subst; [congruence | exact Htl]. }
    destruct (IH Hrest) as (key & Hmap & Hkey & Hin).
    exists key. rewrite Hmap. split; [reflexivity|]. split; [exact Hkey|].
    cbn. now right.
  - exists kv.1. split; [reflexivity|]. split; [exact Hkv|]. cbn. now left.
Qed.

Lemma cache_same_except_refl key (s : DeviceUtils W) :
  cache_same_except key s s.
Proof. now intros k _. Qed.

Lemma cache_same_except_eq key (s s' : DeviceUtils W) :
  _cache s' = _cache s -> cache_same_except key s s'.
Proof. intros Heq k _. now rewrite Heq. Qed.

Lemma cache_same_except_trans key (s1 s2 s3 : DeviceUtils W) :
  cache_same_except key s1 s2 -> cache_same_except key s2 s3 ->
  cache_same_except key s1 s3.
Proof. intros H12 H23 k Hk. now rewrite (H23 k Hk), (H12 k Hk). Qed.

Lemma cache_same_except_bind {A B} key (m : M W A) (k : A -> M W B) s :
  cache_same_except key s (m s).2 ->
  (forall a s1, cache_same_except key s1 (k a s1).2) ->
  cache_same_except key s (bind m k s).2.
Proof.
  intros Hm Hk. unfold bind.
  destruct (m s) as [[a|e] s1]; cbn in *; [|exact Hm].
  exact (cache_same_except_trans _ _ _ _ Hm (Hk a s1)).
Qed.

Lemma cache_same_except_insert key v (s : DeviceUtils W) :
  cache_same_except key s (set_cache (<[key := v]> (_cache s)) s).2.
Proof. intros k Hk. cbn. now rewrite lookup_insert_ne. Qed.

Lemma NeedsSU_cache_frame (s : DeviceUtils W) :
  cache_same_except "needs_su" s (NeedsSU C s).2.
Proof.
  unfold NeedsSU.
  apply cache_same_except_bind; [apply cache_same_except_refl|].
  intros c s1. apply cache_same_except_bind.
  - destruct (c !! "needs_su"); [apply cache_same_except_refl|].
    apply cache_same_except_bind.
    + unfold try.
      pose proof (RunShellCommand_cache C (ret (VBool false))
                    (CmdString "su -c ls /root && ! ls /root")
                    true None None false s1) as Hrun.
      destruct (RunShellCommand_with _ _ _ _ _ _ _ _ s1) as [r s2].
      now apply cache_same_except_eq.
    + intros [out|e] s2.
      * apply cache_same_except_insert.
      * destruct e; try apply cache_same_except_refl.
        apply cache_same_except_insert.
  - intros _ s2. apply cache_same_except_bind;
      [apply cache_same_except_refl|].
    intros c2 s3. destruct (c2 !! "needs_su"); apply cache_same_except_refl.
Qed.

Lemma build_command_cache_frame cmd cwd env as_root (s : DeviceUtils W) :
  cache_same_except "needs_su" s
    (build_command C (NeedsSU C) cmd cwd env as_root s).2.
Proof.
  unfold build_command.
  apply cache_same_except_bind.
  - destruct env as [[|kv kvs]|]; try apply cache_same_except_refl.
    apply cache_same_except_bind; intros; apply cache_same_except_refl.
  - intros c s1. destruct as_root; [|apply cache_same_except_refl].
    apply cache_same_except_bind; [apply NeedsSU_cache_frame|].
    intros; apply cache_same_except_refl.
Qed.

End ShellFacts.

(** An environment with an invalid variable name makes [RunShellCommand]
    raise [KeyError] for the first such name before anything is sent to
    the device: the object is left exactly as it was. *)
Theorem RunShellCommand_invalid_env {W : Type} (C : Collaborators W)
    (cmd : command) (check_return : bool) (cwd : option string)
    (kvs : list (string * string)) (as_root single_line : bool)
    (s : DeviceUtils W) :
  Exists (fun kv => Re.match_ _VALID_SHELL_VARIABLE kv.1 = None) kvs ->
  exists key,
    RunShellCommand C cmd check_return cwd (Some kvs) as_root single_line s
      = (Raise (KeyError "Invalid shell variable name %r" key), s)
    /\ Re.match_ _VALID_SHELL_VARIABLE key = None
    /\ key ∈ kvs.*1.
Proof.
  intros Hbad.
  destruct (map_result_env_quote_invalid C kvs Hbad) as (key & Hmap & Hkey & Hin).
  exists key. split; [|split; [exact Hkey | exact Hin]].
  unfold RunShellCommand, RunShellCommand_with.
  apply bind_Raise. unfold build_command.
  apply bind_Raise.
  destruct kvs as [|kv kvs]; [inversion Hbad|].
  apply bind_Raise. unfold lift. now rewrite Hmap.
Qed.

Lemma RunShellCommand_invalid_env_witness :
  exists key,
    RunShellCommand Sim.collaborators (CmdString "ps") true None
      (Some [("PATH", "/bin"); ("2FAST", "1")]) false false
      (Sim.fresh Sim.phone)
      = (Raise (KeyError "Invalid shell variable name %r" key),
         Sim.fresh Sim.phone)
    /\ Re.match_ _VALID_SHELL_VARIABLE key = None
    /\ key ∈ [("PATH", "/bin"); ("2FAST", "1")].*1.
Proof.
  apply (RunShellCommand_invalid_env Sim.collaborators (CmdString "ps") true
           None [("PATH", "/bin"); ("2FAST", "1")] false false
           (Sim.fresh Sim.phone)).
  apply Exists_cons_tl, Exists_cons_hd. vm_compute. reflexivity.
Defined.

(** [RunShellCommand] changes the fact cache at [needs_su] at most, and
    not at all without [as_root]. *)
Theorem RunShellCommand_cache_frame {W : Type} (C : Collaborators W)
    (cmd : command) (check_return : bool) (cwd : option string)
    (env : option (list (string * string))) (as_root single_line : bool)
    (s : DeviceUtils W) :
  let s' := (RunShellCommand C cmd check_return cwd env as_root
               single_line s).2 in
  cache_same_except "needs_su" s s'
  /\ (as_root = false -> _cache s' = _cache s).
Proof.
  split.
  - unfold RunShellCommand, RunShellCommand_with.
    apply cache_same_except_bind; [apply build_command_cache_frame|].
    intros c s1. apply cache_same_except_bind.
    + apply cache_same_except_eq, run_command_cache.
    + intros out s2. rewrite split_output_state.
      apply cache_same_except_refl.
  - intros ->. apply RunShellCommand_cache.
Qed.

(** A non-zero exit status of a command sent inline: without
    [check_return] the output produced so far is returned as lines; with
    [check_return] the [AdbCommandFailedError] carrying it is raised. *)
Theorem RunShellCommand_exit_status {W : Type} (C : Collaborators W)
    (cmd : command) (cwd : option string)
    (env : option (list (string * string))) (as_root : bool)
    (s : DeviceUtils W) (c : string) (s1 : DeviceUtils W)
    (output : string) (w : W) :
  build_command C (NeedsSU C) cmd cwd env as_root s = (Ok c, s1) ->
  (PyStr.len c < 512)%Z ->
  Shell C c (adb s1) = (Raise (AdbCommandFailedError output), w) ->
  let s2 := mkDeviceUtils (_cache s1) (_commands_installed s1) w
              (calls s1 ++ [CallShell c])%list in
  RunShellCommand C cmd false cwd env as_root false s
    = (Ok (PyStr.splitlines output), s2)
  /\ RunShellCommand C cmd true cwd env as_root false s
     = (Raise (AdbCommandFailedError output), s2).
Proof.
  intros Hbuild Hlen Hshell s2.
  assert (forall check_return,
            run_command C check_return c s1
            = (if check_return then Raise (AdbCommandFailedError output)
               else Ok output, s2)) as Hrun.
  { intros check_return. unfold run_command, _MAX_ADB_COMMAND_LENGTH.
    rewrite (proj2 (Z.ltb_lt _ _) Hlen).
    unfold do_run, bind, try, adb_Shell, prim. rewrite Hshell. cbn.
    now destruct check_return. }
  unfold RunShellCommand, RunShellCommand_with.
  rewrite !(bind_Ok _ _ _ _ _ Hbuild). split.
  - now rewrite (bind_Ok _ _ _ _ _ (Hrun false)).
  - now rewrite (bind_Raise _ _ _ _ _ (Hrun true)).
Qed.

Lemma RunShellCommand_exit_status_witness :
  let s := Sim.fresh Sim.phone in
  let out := "/data/absent: No such file or directory" +:+ Sim.NL in
  let s2 := mkDeviceUtils ∅ None Sim.phone [CallShell "cat /data/absent"] in
  RunShellCommand Sim.collaborators (CmdArgs ["cat"; "/data/absent"])
    false None None false false s
    = (Ok ["/data/absent: No such file or directory"], s2)
  /\ RunShellCommand Sim.collaborators (CmdArgs ["cat"; "/data/absent"])
       true None None false false s
     = (Raise (AdbCommandFailedError out), s2).
Proof.
  intros s out s2.
  apply (RunShellCommand_exit_status Sim.collaborators
           (CmdArgs ["cat"; "/data/absent"]) None None false s
           "cat /data/absent" s out Sim.phone).
  - reflexivity.
  - reflexivity.
  - reflexivity.
Defined.

(** ** Cached facts *)

Section CachedFacts.
Context {W : Type} (C : Collaborators W).

Lemma NeedsSU_cached v (s : DeviceUtils W) :
  _cache s !! "needs_su" = Some v -> NeedsSU C s = (Ok v, s).
Proof.
  intros Hv. unfold NeedsSU, bind, get_cache, ret. cbn.
  rewrite Hv. cbn. now rewrite Hv.
Qed.

(** The probe of [NeedsSU] is short enough to be sent inline. *)
Lemma probe_run (s : DeviceUtils W) :
  RunShellCommand_with C (ret (VBool false))
    (CmdString "su -c ls /root && ! ls /root") true None None false false s
  = match Shell C "su -c ls /root && ! ls /root" (adb s) with
    | (Ok out, w) =>
        (Ok (PyStr.splitlines out),
         mkDeviceUtils (_cache s) (_commands_installed s) w
           (calls s ++ [CallShell "su -c ls /root && ! ls /root"])%list)
    | (Raise e, w) =>
        (Raise e,
         mkDeviceUtils (_cache s) (_commands_installed s) w
           (calls s ++ [CallShell "su -c ls /root && ! ls /root"])%list)
    end.
Proof.
  unfold RunShellCommand_with, build_command, bind, ret, run_command.
  change (PyStr.len "su -c ls /root && ! ls /root"
          <? _MAX_ADB_COMMAND_LENGTH)%Z with true.
  cbv iota beta. unfold do_run, bind, try, adb_Shell, prim.
  destruct (Shell C "su -c ls /root && ! ls /root" (adb s)) as [[out|e] w];
    [reflexivity|].
  now destruct e.
Qed.

End CachedFacts.

(** When [needs_su] is not cached, [NeedsSU] sends one probe command,
    inline: it answers True and caches it when the probe succeeds, answers
    False and caches it when the probe exits with a non-zero status, and
    passes any other error on without caching anything. *)
Theorem NeedsSU_probe {W : Type} (C : Collaborators W) (s : DeviceUtils W) :
  _cache s !! "needs_su" = None ->
  let probe := "su -c ls /root && ! ls /root" in
  let after answer w :=
    mkDeviceUtils (<["needs_su" := VBool answer]> (_cache s))
      (_commands_installed s) w (calls s ++ [CallShell probe])%list in
  NeedsSU C s =
    match Shell C probe (adb s) with
    | (Ok _, w) => (Ok (VBool true), after true w)
    | (Raise (AdbCommandFailedError _), w) => (Ok (VBool false), after false w)
    | (Raise e, w) =>
        (Raise e,
         mkDeviceUtils (_cache s) (_commands_installed s) w
           (calls s ++ [CallShell probe])%list)
    end.
Proof.
  intros Hnone probe after. unfold NeedsSU.
  unfold bind at 1, get_cache at 1. rewrite Hnone.
  unfold bind at 1 2, try. rewrite probe_run. fold probe.
  destruct (Shell C probe (adb s)) as [[out|e] w].
  - unfold bind, get_cache, set_cache, ret. cbn.
    rewrite lookup_insert_eq. reflexivity.
  - destruct e; try reflexivity.
    unfold bind, get_cache, set_cache, ret. cbn.
    rewrite lookup_insert_eq. reflexivity.
Qed.

Lemma NeedsSU_probe_witness :
  let s := Sim.fresh Sim.phone in
  NeedsSU Sim.collaborators s =
    (Ok (VBool false),
     mkDeviceUtils {["needs_su" := VBool false]} None Sim.phone
       [CallShell "su -c ls /root && ! ls /root"]).
Proof.
  intros s.
  rewrite (NeedsSU_probe Sim.collaborators s); [|reflexivity].
  vm_compute. reflexivity.
Defined.

(** Once [NeedsSU] has answered, the answer is cached: asking again gives
    the same answer without any call and leaves the object as it is. *)
Theorem NeedsSU_twice {W : Type} (C : Collaborators W)
    (s : DeviceUtils W) (v : cache_value) (s1 : DeviceUtils W) :
  NeedsSU C s = (Ok v, s1) ->
  _cache s1 !! "needs_su" = Some v /\ NeedsSU C s1 = (Ok v, s1).
Proof.
  intros Hrun.
  assert (_cache s1 !! "needs_su" = Some v) as Hv.
  { unfold NeedsSU in Hrun.
    apply bind_inv_Ok in Hrun as (c & s0 & _ & Hrun).
    apply bind_inv_Ok in Hrun as ([] & s2 & _ & Hrun).
    unfold bind, get_cache in Hrun.
    destruct (_cache s2 !! "needs_su") as [v0|] eqn:Hc; [|discriminate].
    injection Hrun as <- <-. exact Hc. }
  split; [exact Hv | now apply NeedsSU_cached].
Qed.

Lemma NeedsSU_twice_witness :
  let s1 := (NeedsSU Sim.collaborators (Sim.fresh Sim.phone)).2 in
  _cache s1 !! "needs_su" = Some (VBool false)
  /\ NeedsSU Sim.collaborators s1 = (Ok (VBool false), s1).
Proof.
  intros s1.
  apply (NeedsSU_twice Sim.collaborators (Sim.fresh Sim.phone)).
  vm_compute. reflexivity.
Defined.

(** A property read through the cache stays cached: reading it again
    through the cache gives the same value without any call. *)
Theorem GetProp_twice {W : Type} (C : Collaborators W)
    (property_name : string) (s : DeviceUtils W) (v : cache_value)
    (s1 : DeviceUtils W) :
  GetProp C property_name true s = (Ok v, s1) ->
  GetProp C property_name true s1 = (Ok v, s1).
Proof.
  intros Hrun. apply GetProp_cached.
  unfold GetProp in Hrun. unfold bind at 1, get_cache at 1 in Hrun.
  destruct (_cache s !! ("_prop:" +:+ property_name)) as [v0|] eqn:Hc.
  - injection Hrun as <- <-. exact Hc.
  - apply bind_inv_Ok in Hrun as (value & s2 & _ & Hrun).
    unfold bind, get_cache, set_cache, ret in Hrun. cbn in Hrun.
    injection Hrun as <- <-. cbn. apply lookup_insert_eq.
Qed.

Lemma GetProp_twice_witness :
  let s1 := (GetProp Sim.collaborators "debug.x" true
               (Sim.fresh Sim.phone)).2 in
  GetProp Sim.collaborators "debug.x" true s1 = (Ok (VStr "old"), s1).
Proof.
  intros s1.
  apply (GetProp_twice Sim.collaborators "debug.x" (Sim.fresh Sim.phone)).
  vm_compute. reflexivity.
Defined.

Lemma GetProp_uncached_state {W : Type} (C : Collaborators W)
    (property_name : string) (s : DeviceUtils W) (v : cache_value)
    (s1 : DeviceUtils W) :
  GetProp C property_name false s = (Ok v, s1) ->
  let cache_key := "_prop:" +:+ property_name in
  (exists value, v = VStr value)
  /\ (is_Some (_cache s !! cache_key) ->
      _cache s1 = <[cache_key := v]> (_cache s))
  /\ (_cache s !! cache_key = None -> _cache s1 = _cache s).
Proof.
  intros Hrun cache_key. unfold GetProp in Hrun.
  unfold bind at 1, get_cache at 1 in Hrun. cbv iota beta in Hrun.
  apply bind_inv_Ok in Hrun as (value & s2 & Hshell & Hrun).
  pose proof (RunShellCommand_cache C (NeedsSU C)
                (CmdArgs ["getprop"; property_name]) true None None true s)
    as Hc.
  unfold RunShellCommand in Hshell. rewrite Hshell in Hc. cbn in Hc.
  unfold bind, get_cache, set_cache, ret in Hrun. cbn in Hrun.
  fold cache_key in Hrun. rewrite Hc in Hrun.
  split; [|split].
  - destruct (bool_decide (is_Some (_cache s !! cache_key)));
      injection Hrun as <- _; now eexists.
  - intros Hsome. rewrite bool_decide_eq_true_2 in Hrun by exact Hsome.
    injection Hrun as <- <-. reflexivity.
  - intros Hnone.
    rewrite bool_decide_eq_false_2 in Hrun
      by (rewrite Hnone; apply is_Some_None).
    injection Hrun as _ <-. exact Hc.
Qed.

(** Reading a property without [cache] queries the device: the value
    returned is the one line that the [getprop] command has printed, and
    the device and the call log are as the command has left them.  The
    value read replaces an entry the cache already holds for the
    property, and no entry is created when there is none. *)
Theorem GetProp_uncached {W : Type} (C : Collaborators W)
    (property_name : string) (s : DeviceUtils W) (v : cache_value)
    (s1 : DeviceUtils W) :
  GetProp C property_name false s = (Ok v, s1) ->
  (exists value s0,
     RunShellCommand C (CmdArgs ["getprop"; property_name])
       true None None false true s = (Ok value, s0)
     /\ v = VStr value
     /\ adb s1 = adb s0 /\ calls s1 = calls s0
     /\ _commands_installed s1 = _commands_installed s0)
  /\ (is_Some (_cache s !! ("_prop:" +:+ property_name)) ->
      _cache s1 = <["_prop:" +:+ property_name := v]> (_cache s))
  /\ (_cache s !! ("_prop:" +:+ property_name) = None ->
      _cache s1 = _cache s).
Proof.
  intros Hrun.
  destruct (GetProp_uncached_state C property_name s v s1 Hrun)
    as (_ & Hsome & Hnone).
  split; [|split; assumption].
  unfold GetProp in Hrun.
  unfold bind at 1, get_cache at 1 in Hrun. cbv iota beta in Hrun.
  apply bind_inv_Ok in Hrun as (value & s0 & Hshell & Hrun).
  exists value, s0. split; [exact Hshell|].
  unfold bind, get_cache, set_cache, ret in Hrun. cbn in Hrun.
  destruct (bool_decide _); injection Hrun as <- <-; now repeat split.
Qed.

Lemma GetProp_uncached_witness :
  let s := Sim.fresh Sim.phone in
  let s1 := (GetProp Sim.collaborators "debug.x" false s).2 in
  (exists value s0,
     RunShellCommand Sim.collaborators (CmdArgs ["getprop"; "debug.x"])
       true None None false true s = (Ok value, s0)
     /\ VStr "old" = VStr value
     /\ adb s1 = adb s0 /\ calls s1 = calls s0
     /\ _commands_installed s1 = _commands_installed s0)
  /\ (is_Some (_cache s !! ("_prop:" +:+ "debug.x")) ->
      _cache s1 = <["_prop:" +:+ "debug.x" := VStr "old"]> (_cache s))
  /\ (_cache s !! ("_prop:" +:+ "debug.x") = None -> _cache s1 = _cache s).
Proof.
  intros s s1.
  apply (GetProp_uncached Sim.collaborators "debug.x" s (VStr "old") s1).
  vm_compute. reflexivity.
Defined.

(** [SetProp] with [check] brings a cached entry up to date: when it
    returns, an entry the cache held for the property holds the value
    that was set. *)
Theorem SetProp_check_refreshes {W : Type} (C : Collaborators W)
    (property_name value : string) (s s' : DeviceUtils W) :
  SetProp C property_name value true s = (Ok tt, s') ->
  is_Some (_cache s !! ("_prop:" +:+ property_name)) ->
  _cache s' !! ("_prop:" +:+ property_name) = Some (VStr value).
Proof.
  intros Hrun Hsome. unfold SetProp in Hrun.
  apply bind_inv_Ok in Hrun as (out & s1 & Hshell & Hrun).
  pose proof (RunShellCommand_cache C (NeedsSU C)
                (CmdArgs ["setprop"; property_name; value]) true None None
                false s) as Hc.
  unfold RunShellCommand in Hshell. rewrite Hshell in Hc. cbn in Hc.
  apply bind_inv_Ok in Hrun as (c & s1' & Hget & Hrun).
  injection Hget as <- <-.
  apply bind_inv_Ok in Hrun as ([] & s2 & Hdel & Hrun).
  assert (_cache s2 !! ("_prop:" +:+ property_name)
          = _cache s !! ("_prop:" +:+ property_name)) as Hkey.
  { destruct (bool_decide (is_Some (_cache s1 !! property_name)));
      injection Hdel as <-; cbn; [|now rewrite Hc].
    rewrite lookup_delete_ne
      by (intros Heq; symmetry in Heq; exact (prop_key_ne _ Heq)).
    now rewrite Hc. }
  apply bind_inv_Ok in Hrun as (v & s3 & Hread & Hrun).
  destruct (decide (VStr value = v)) as [<-|]; [|discriminate].
  injection Hrun as <-.
  destruct (GetProp_uncached_state C property_name s2 (VStr value) s3 Hread)
    as (_ & Hrefresh & _).
  rewrite Hrefresh by (rewrite Hkey; exact Hsome).
  apply lookup_insert_eq.
Qed.

Lemma SetProp_check_refreshes_witness :
  let s := (GetProp Sim.collaborators "debug.x" true (Sim.fresh Sim.phone)).2 in
  let s' := (SetProp Sim.collaborators "debug.x" "new" true s).2 in
  _cache s' !! ("_prop:" +:+ "debug.x") = Some (VStr "new").
Proof.
  intros s s'.
  apply (SetProp_check_refreshes Sim.collaborators "debug.x" "new" s s').
  - vm_compute. reflexivity.
  - vm_compute. now eexists.
Defined.

(** The external storage path is cached once found: a path returned is
    in the cache, is returned again without any call, and, when it came
    from the device, is not empty. *)
Theorem GetExternalStoragePath_cached {W : Type} (C : Collaborators W)
    (s : DeviceUtils W) (v : cache_value) (s1 : DeviceUtils W) :
  GetExternalStoragePath C s = (Ok v, s1) ->
  _cache s1 !! "external_storage" = Some v
  /\ GetExternalStoragePath C s1 = (Ok v, s1)
  /\ (_cache s !! "external_storage" = None -> truthy v = true).
Proof.
  intros Hrun.
  assert (forall s0 v0, _cache s0 !! "external_storage" = Some v0 ->
            GetExternalStoragePath C s0 = (Ok v0, s0)) as Hcached.
  { intros s0 v0 Hv0. unfold GetExternalStoragePath, bind, get_cache.
    cbn. now rewrite Hv0. }
  assert (_cache s1 !! "external_storage" = Some v
          /\ (_cache s !! "external_storage" = None -> truthy v = true))
    as [Hv Hfresh].
  { destruct (_cache s !! "external_storage") as [v0|] eqn:Hc.
    - rewrite (Hcached s v0 Hc) in Hrun. injection Hrun as <- <-.
      split; [exact Hc | discriminate].
    - unfold GetExternalStoragePath in Hrun.
      unfold bind at 1, get_cache at 1 in Hrun. rewrite Hc in Hrun.
      apply bind_inv_Ok in Hrun as (value & s2 & _ & Hrun).
      destruct (String.eqb value EmptyString) eqn:Hval; [discriminate|].
      unfold bind, get_cache, set_cache, ret in Hrun. cbn in Hrun.
      injection Hrun as <- <-. cbn. rewrite Hval.
      split; [apply lookup_insert_eq | reflexivity]. }
  split; [exact Hv|]. split; [now apply Hcached | exact Hfresh].
Qed.

Lemma GetExternalStoragePath_cached_witness :
  let s := Sim.fresh Sim.phone in
  let s1 := (GetExternalStoragePath Sim.collaborators s).2 in
  _cache s1 !! "external_storage" = Some (VStr "/sdcard")
  /\ GetExternalStoragePath Sim.collaborators s1 = (Ok (VStr "/sdcard"), s1)
  /\ (_cache s !! "external_storage" = None -> truthy (VStr "/sdcard") = true).
Proof.
  intros s s1.
  apply (GetExternalStoragePath_cached Sim.collaborators s).
  vm_compute. reflexivity.
Defined.

(** ** Methods that talk to the shell only *)

Section ShellOnly.
Context {W : Type} (C : Collaborators W).

Lemma SetProp_shell_side property_name value check (s : DeviceUtils W) :
  only_shell_calls s (SetProp C property_name value check s).2.
Proof.
  unfold SetProp.
  apply only_shell_calls_bind;
    [apply (RunShellCommand_only_shell_calls C
              (CmdArgs ["setprop"; property_name; value]) true None None
              false false)|].
  intros out s1. apply only_shell_calls_bind; [shell_calls_leaf|].
  intros c s2. apply only_shell_calls_bind.
  - destruct (bool_decide _); shell_calls_leaf.
  - intros [] s3. destruct check; [|shell_calls_leaf].
    apply only_shell_calls_bind; [apply GetProp_shell_side|].
    intros v s4. destruct (decide _); shell_calls_leaf.
Qed.

Lemma GetExternalStoragePath_shell_side (s : DeviceUtils W) :
  only_shell_calls s (GetExternalStoragePath C s).2.
Proof.
  unfold GetExternalStoragePath.
  apply only_shell_calls_bind; [shell_calls_leaf|].
  intros c s1. destruct (c !! "external_storage"); [shell_calls_leaf|].
  apply only_shell_calls_bind;
    [apply (RunShellCommand_only_shell_calls C
              (CmdString "echo $EXTERNAL_STORAGE") true None None false true)|].
  intros value s2. destruct (String.eqb value EmptyString); [shell_calls_leaf|].
  apply only_shell_calls_bind; [shell_calls_leaf|].
  intros c2 s3. apply only_shell_calls_bind; [shell_calls_leaf|].
  intros; shell_calls_leaf.
Qed.

Lemma GetPidsImpl_shell_side process_name (s : DeviceUtils W) :
  only_shell_calls s (_GetPidsImpl C process_name s).2.
Proof.
  unfold _GetPidsImpl.
  apply only_shell_calls_bind;
    [apply (RunShellCommand_only_shell_calls C (CmdString "ps") true None
              None false false)|].
  intros; shell_calls_leaf.
Qed.

Lemma wait_until_dead_shell_side polls process_name (s : DeviceUtils W) :
  only_shell_calls s (wait_until_dead C polls process_name s).2.
Proof.
  revert s. induction polls as [|n IH]; intros s; cbn [wait_until_dead];
    [shell_calls_leaf|].
  apply only_shell_calls_bind; [apply GetPidsImpl_shell_side|].
  intros pids s1. destruct (decide (pids = ∅)); [shell_calls_leaf | apply IH].
Qed.

Lemma KillAll_shell_side process_name signum as_root blocking polls
    (s : DeviceUtils W) :
  only_shell_calls s (KillAll C process_name signum as_root blocking polls s).2.
Proof.
  unfold KillAll.
  apply only_shell_calls_bind; [apply GetPidsImpl_shell_side|].
  intros pids s1. destruct (decide (pids = ∅)); [shell_calls_leaf|].
  apply only_shell_calls_bind;
    [apply (RunShellCommand_only_shell_calls C
              (CmdArgs (["kill"; "-" +:+ pretty signum] ++ values pids)%list)
              true None None as_root false)|].
  intros out s2. apply only_shell_calls_bind.
  - destruct blocking; [apply wait_until_dead_shell_side | shell_calls_leaf].
  - intros; shell_calls_leaf.
Qed.

End ShellOnly.

(** [RunShellCommand], [GetProp], [SetProp], [GetExternalStoragePath] and
    [KillAll] reach the device through shell commands only, whatever
    their arguments and whether they return or raise: every call they
    add is a [Shell] call or belongs to the script file of a long
    command.  None of them calls [Root], [Pull], [GetState],
    [WaitForDevice], the md5sum helper or the installer. *)
Theorem shell_methods_only_shell_calls {W : Type} (C : Collaborators W)
    (s : DeviceUtils W) :
  (forall cmd check_return cwd env as_root single_line,
     only_shell_calls s
       (RunShellCommand C cmd check_return cwd env as_root single_line s).2)
  /\ (forall property_name cache,
        only_shell_calls s (GetProp C property_name cache s).2)
  /\ (forall property_name value check,
        only_shell_calls s (SetProp C property_name value check s).2)
  /\ only_shell_calls s (GetExternalStoragePath C s).2
  /\ (forall process_name signum as_root blocking polls,
        only_shell_calls s
          (KillAll C process_name signum as_root blocking polls s).2).
Proof.
  repeat split; intros.
  - apply RunShellCommand_only_shell_calls.
  - apply GetProp_shell_side.
  - apply SetProp_shell_side.
  - apply GetExternalStoragePath_shell_side.
  - apply KillAll_shell_side.
Qed.

(** ** _GetPidsImpl and KillAll *)

Lemma add_pid_lookup process_name procs_pids line pname :
  add_pid process_name procs_pids line !! pname
  = match recorded_pid process_name pname line with
    | Some pid => Some pid
    | None => procs_pids !! pname
    end.
Proof.
  unfold add_pid, recorded_pid.
  destruct (last (PyStr.split line)) as [q|] eqn:Hlast.
  - destruct (decide (Some q = Some pname)) as [[= ->]|Hne].
    + destruct (PyStr.contains process_name pname); [|reflexivity].
      destruct (PyStr.split line !! 1%nat) as [pid|]; [|reflexivity].
      apply lookup_insert_eq.
    + destruct (PyStr.contains process_name q); [|reflexivity].
      destruct (PyStr.split line !! 1%nat) as [pid|]; [|reflexivity].
      apply lookup_insert_ne. congruence.
  - destruct (decide (None = Some pname)); [discriminate | reflexivity].
Qed.

Lemma foldl_add_pid_lookup process_name lines procs_pids pname :
  foldl (add_pid process_name) procs_pids lines !! pname
  = match last (omap (recorded_pid process_name pname) lines) with
    | Some pid => Some pid
    | None => procs_pids !! pname
    end.
Proof.
  revert procs_pids.
  induction lines as [|line lines IH]; intros procs_pids; [reflexivity|].
  cbn [foldl omap list_omap]. rewrite IH, add_pid_lookup.
  change (omap (recorded_pid process_name pname) (line :: lines))
    with (match recorded_pid process_name pname line with
          | Some pid => pid :: omap (recorded_pid process_name pname) lines
          | None => omap (recorded_pid process_name pname) lines
          end).
  destruct (recorded_pid process_name pname line) as [pid|]; [|reflexivity].
  rewrite last_cons.
  now destruct (last (omap (recorded_pid process_name pname) lines)).
Qed.

Lemma recorded_pid_inv process_name pname line pid :
  recorded_pid process_name pname line = Some pid ->
  PyStr.contains process_name pname = true
  /\ last (PyStr.split line) = Some pname
  /\ PyStr.split line !! 1%nat = Some pid.
Proof.
  unfold recorded_pid.
  destruct (decide (last (PyStr.split line) = Some pname)); [|discriminate].
  destruct (PyStr.contains process_name pname); [|discriminate].
  now intros ->.
Qed.

(** [_GetPidsImpl] on a process listing: the PID it reports for a
    process name is the one recorded by the last line of the listing that
    records one for this name, and a name no line records is absent.  So
    every name reported contains [process_name] and is the last field of
    a line whose second field is the PID reported. *)
Theorem GetPidsImpl_entries {W : Type} (C : Collaborators W)
    (process_name : string) (s : DeviceUtils W) (lines : list string)
    (s1 : DeviceUtils W) :
  RunShellCommand C (CmdString "ps") true None None false false s
    = (Ok lines, s1) ->
  exists pids,
    _GetPidsImpl C process_name s = (Ok pids, s1)
    /\ (forall pname,
          pids !! pname
          = last (omap (recorded_pid process_name pname) lines))
    /\ (forall pname pid, pids !! pname = Some pid ->
          PyStr.contains process_name pname = true
          /\ exists line, line ∈ lines
               /\ last (PyStr.split line) = Some pname
               /\ PyStr.split line !! 1%nat = Some pid).
Proof.
  intros Hps. exists (foldl (add_pid process_name) ∅ lines).
  assert (forall pname,
            foldl (add_pid process_name) ∅ lines !! pname
            = last (omap (recorded_pid process_name pname) lines)) as Hlookup.
  { intros pname. rewrite foldl_add_pid_lookup, lookup_empty.
    now destruct (last _). }
  split; [|split].
  - unfold _GetPidsImpl. now rewrite (bind_Ok _ _ _ _ _ Hps).
  - exact Hlookup.
  - intros pname pid Hpid. rewrite Hlookup in Hpid.
    apply last_Some_elem_of in Hpid.
    apply list_elem_of_omap in Hpid as (line & Hin & Hrec).
    apply recorded_pid_inv in Hrec as (Hc & Hl & Hp).
    split; [exact Hc|]. now exists line.
Qed.

Lemma GetPidsImpl_entries_witness :
  let s := Sim.fresh Sim.phone in
  exists pids,
    _GetPidsImpl Sim.collaborators "example" s
      = (Ok pids, mkDeviceUtils ∅ None Sim.phone [CallShell "ps"])
    /\ (forall pname,
          pids !! pname
          = last (omap (recorded_pid "example" pname) Sim.ps_listing))
    /\ (forall pname pid, pids !! pname = Some pid ->
          PyStr.contains "example" pname = true
          /\ exists line, line ∈ Sim.ps_listing
               /\ last (PyStr.split line) = Some pname
               /\ PyStr.split line !! 1%nat = Some pid).
Proof.
  intros s.
  apply (GetPidsImpl_entries Sim.collaborators "example" s Sim.ps_listing).
  vm_compute. reflexivity.
Defined.

Lemma KillAll_never_zero_witness :
  let r := KillAll Sim.collaborators "com.example.app" 9 false false 0
             (Sim.fresh Sim.phone) in
  (0 < 1)%Z.
Proof.
  intros r.
  apply (KillAll_never_zero Sim.collaborators "com.example.app" 9 false false
           0%nat (Sim.fresh Sim.phone) 1 r.2).
  vm_compute. reflexivity.
Defined.

Lemma wait_until_dead_inv {W : Type} (C : Collaborators W) polls process_name
    (s s' : DeviceUtils W) :
  wait_until_dead C polls process_name s = (Ok tt, s') ->
  polls <> 0%nat
  /\ exists s0, only_shell_calls s s0
       /\ _GetPidsImpl C process_name s0 = (Ok ∅, s').
Proof.
  revert s. induction polls as [|n IH]; intros s; cbn [wait_until_dead];
    [discriminate|].
  intros Hrun. split; [discriminate|].
  apply bind_inv_Ok in Hrun as (pids & s1 & Hpids & Hrun).
  destruct (decide (pids = ∅)) as [->|Hne].
  - injection Hrun as <-. exists s. split; [apply only_shell_calls_refl|].
    exact Hpids.
  - destruct (IH s1 Hrun) as (_ & s0 & Hpre & Hlast).
    exists s0. split; [|exact Hlast].
    apply (only_shell_calls_trans _ s1); [|exact Hpre].
    pose proof (GetPidsImpl_shell_side C process_name s) as Hside.
    now rewrite Hpids in Hside.
Qed.

(** A blocking [KillAll] returns only after a process listing, taken
    after the kill command, has shown no matching process; with no poll
    left before the timeout it does not return. *)
Theorem KillAll_blocking {W : Type} (C : Collaborators W)
    (process_name : string) (signum : Z) (as_root : bool) (polls : nat)
    (s : DeviceUtils W) (n : Z) (s' : DeviceUtils W) :
  KillAll C process_name signum as_root true polls s = (Ok n, s') ->
  polls <> 0%nat
  /\ exists pids out s1 s2 s0,
       _GetPidsImpl C process_name s = (Ok pids, s1)
       /\ RunShellCommand C
            (CmdArgs (["kill"; "-" +:+ pretty signum] ++ values pids)%list)
            true None None as_root false s1 = (Ok out, s2)
       /\ only_shell_calls s2 s0
       /\ _GetPidsImpl C process_name s0 = (Ok ∅, s').
Proof.
  unfold KillAll. intros Hrun.
  apply bind_inv_Ok in Hrun as (pids & s1 & Hpids & Hrun).
  destruct (decide (pids = ∅)) as [Heq|Hne]; [discriminate|].
  apply bind_inv_Ok in Hrun as (out & s2 & Hkill & Hrun).
  apply bind_inv_Ok in Hrun as ([] & s3 & Hwait & Hrun).
  injection Hrun as _ <-.
  apply wait_until_dead_inv in Hwait as (Hpolls & s0 & Hside & Hlast).
  split; [exact Hpolls|]. now exists pids, out, s1, s2, s0.
Qed.

Lemma KillAll_blocking_witness :
  let C := Sim.collaborators in
  let s := Sim.fresh Sim.phone in
  1%nat <> 0%nat
  /\ exists pids out s1 s2 s0,
       _GetPidsImpl C "/system/bin/sh" s = (Ok pids, s1)
       /\ RunShellCommand C
            (CmdArgs (["kill"; "-" +:+ pretty 9] ++ values pids)%list)
            true None None false false s1 = (Ok out, s2)
       /\ only_shell_calls s2 s0
       /\ _GetPidsImpl C "/system/bin/sh" s0
          = (Ok ∅, (KillAll C "/system/bin/sh" 9 false true 1 s).2).
Proof.
  intros C s.
  apply (KillAll_blocking C "/system/bin/sh" 9 false 1 s 1).
  vm_compute. reflexivity.
Defined.

(** ** Finding what to push *)

(** When [realpath] cannot resolve the device path, because the command
    fails or prints nothing, the pair is reported as changed as it was
    given, and the device is not asked for checksums. *)
Theorem GetChangedFilesImpl_no_realpath {W : Type} (C : Collaborators W)
    (H : Host) (host_path device_path : string) (s : DeviceUtils W)
    (r : result string) (s1 : DeviceUtils W) :
  RunShellCommand C (CmdArgs ["realpath"; device_path])
    true None None false true s = (r, s1) ->
  match r with
  | Ok p => p = EmptyString
  | Raise e => is_CommandFailedError e = true
  end ->
  _GetChangedFilesImpl C H host_path device_path s
    = (Ok [(host_path, device_path)], s1).
Proof.
  intros Hrun Hr. unfold _GetChangedFilesImpl.
  unfold bind at 1, try. unfold RunShellCommand in Hrun.
  unfold RunShellCommand. rewrite Hrun.
  destruct r as [p|e].
  - subst p. reflexivity.
  - unfold bind. rewrite Hr. reflexivity.
Qed.

Lemma GetChangedFilesImpl_no_realpath_witness :
  let s := Sim.fresh Sim.tablet in
  _GetChangedFilesImpl Sim.collaborators (Sim.host Sim.host_store)
    "/h/A" "/sdcard/B" s
  = (Ok [("/h/A", "/sdcard/B")],
     mkDeviceUtils ∅ None Sim.tablet [CallShell "realpath /sdcard/B"]).
Proof.
  intros s.
  apply (GetChangedFilesImpl_no_realpath Sim.collaborators
           (Sim.host Sim.host_store) "/h/A" "/sdcard/B" s
           (Raise (AdbCommandFailedError
                     ("/sdcard/B: No such file or directory" +:+ Sim.NL)))).
  - vm_compute. reflexivity.
  - reflexivity.
Defined.

(** [PushChangedFiles] stops after the comparison when it finds nothing
    to push or fails: with no changed file it returns in the state the
    comparison has left, without probing for the zip tooling and without
    any push; an error of the comparison is passed on. *)
Theorem PushChangedFiles_nothing_to_push {W : Type} (C : Collaborators W)
    (H : Host) (host_device_tuples : list (string * string))
    (s : DeviceUtils W) (r : result (list (string * string)))
    (s1 : DeviceUtils W) :
  changed_files C H host_device_tuples s = (r, s1) ->
  match r with
  | Ok [] => PushChangedFiles C H host_device_tuples s = (Ok tt, s1)
  | Ok (_ :: _) => True
  | Raise e => PushChangedFiles C H host_device_tuples s = (Raise e, s1)
  end.
Proof.
  intros Hrun. unfold PushChangedFiles, bind. rewrite Hrun.
  destruct r as [[|f files]|e]; [reflexivity | exact I | reflexivity].
Qed.

Lemma PushChangedFiles_nothing_to_push_witness :
  let C := Sim.collaborators in
  let H := Sim.host Sim.host_store in
  let s := Sim.fresh Sim.tablet in
  PushChangedFiles C H [("/h/A/a.txt", "/sdcard/A/a.txt")] s
  = (Ok tt, (changed_files C H [("/h/A/a.txt", "/sdcard/A/a.txt")] s).2).
Proof.
  intros C H s.
  apply (PushChangedFiles_nothing_to_push C H
           [("/h/A/a.txt", "/sdcard/A/a.txt")] s (Ok [])).
  vm_compute. reflexivity.
Defined.

(** The probe for the zip tooling runs once: [_InstallCommands] never
    raises, leaves [_commands_installed] decided, and a later call
    returns at once, leaving the object as it is. *)
Theorem InstallCommands_once {W : Type} (C : Collaborators W)
    (s : DeviceUtils W) :
  let r := _InstallCommands C s in
  r.1 = Ok tt
  /\ is_Some (_commands_installed r.2)
  /\ _InstallCommands C r.2 = (Ok tt, r.2)
  /\ (is_Some (_commands_installed s) -> r.2 = s).
Proof.
  intros r. subst r.
  assert (forall s0 : DeviceUtils W, is_Some (_commands_installed s0) ->
            _InstallCommands C s0 = (Ok tt, s0)) as Hdone.
  { intros s0 [b Hb]. unfold _InstallCommands, bind, get_commands_installed.
    now rewrite Hb. }
  split; [apply InstallCommands_returns|].
  split; [apply InstallCommands_decides|].
  split; [apply Hdone, InstallCommands_decides|].
  intros Hs. now rewrite (Hdone s Hs).
Qed.

Lemma PushChangedFilesIndividually_calls_witness :
  let s := Sim.fresh Sim.tablet in
  calls (_PushChangedFilesIndividually Sim.collaborators
           [("/h/A/a.txt", "/sdcard/A/a.txt");
            ("/h/A/b.txt", "/sdcard/A/b.txt")] s).2
  = [CallPush (HostPath "/h/A/a.txt") "/sdcard/A/a.txt";
     CallPush (HostPath "/h/A/b.txt") "/sdcard/A/b.txt"].
Proof.
  intros s.
  apply (PushChangedFilesIndividually_calls Sim.collaborators
           [("/h/A/a.txt", "/sdcard/A/a.txt");
            ("/h/A/b.txt", "/sdcard/A/b.txt")] s).
  vm_compute. reflexivity.
Defined.

(** ** The names of shell variables *)

Lemma append_cons (c : ascii) (s t : string) :
  String c s +:+ t = String c (s +:+ t).
Proof. reflexivity. Qed.

Lemma star_AlNum_End (s : string) (g : Re.groups) :
  is_Some (Re.star Re.AlNum_ s
             (fun rest =>
                if decide (rest = EmptyString
                           \/ rest = String PyStr.LF EmptyString)
                then Some g else None))
  <-> all_alnum_ s = true
      \/ exists t, all_alnum_ t = true /\ s = t +:+ String PyStr.LF EmptyString.
Proof.
  induction s as [|c s IH].
  - cbn. split; [now left | intros _; now eexists].
  - cbn [Re.star Re.in_cls all_alnum_].
    destruct (PyStr.is_alpha_ c || PyStr.is_digit c) eqn:Hc.
    + assert (c <> PyStr.LF) as Hlf by (intros ->; discriminate).
      destruct (Re.star Re.AlNum_ s _) as [r|] eqn:Hstar.
      * split; [intros _ | intros _; now eexists].
        destruct (proj1 IH) as [Hall|(t & Ht & ->)]; [now eexists| |].
        -- left. exact Hall.
        -- right. exists (String c t). split; [|reflexivity].
           cbn. now rewrite Hc.
      * destruct (decide _) as [[He|He]|Hn].
        -- discriminate.
        -- injection He as -> ->. congruence.
        -- split; [intros [? ?]; discriminate|].
           intros [Hall|(t & Ht & Heq)].
           ++ apply IH. now left.
           ++ destruct t as [|c' t]; cbn in Heq.
              ** injection Heq as -> ->. congruence.
              ** rewrite append_cons in Heq. injection Heq as <- ->.
                 cbn in Ht. rewrite Hc in Ht. apply IH. right. now exists t.
    + cbn [andb]. destruct (decide _) as [[He|He]|Hn].
      * discriminate.
      * injection He as -> ->. split; [intros _ | intros _; now eexists].
        right. now exists EmptyString.
      * split; [intros [? ?]; discriminate|].
        intros [Hall|(t & Ht & Heq)]; [discriminate|].
        destruct t as [|c' t].
        -- cbn in Heq. injection Heq as -> ->. exfalso. apply Hn. now right.
        -- rewrite append_cons in Heq. injection Heq as <- ->.
           cbn in Ht. now rewrite Hc in Ht.
Qed.

(** The pattern behind the check of the names in [env]: it accepts the
    identifiers and, as [$] also matches before a final newline, an
    identifier followed by one newline; it accepts nothing else. *)
Theorem valid_shell_variable (name : string) :
  is_Some (Re.match_ _VALID_SHELL_VARIABLE name)
  <-> is_identifier name = true
      \/ exists id, is_identifier id = true
           /\ name = id +:+ String PyStr.LF EmptyString.
Proof.
  unfold Re.match_, _VALID_SHELL_VARIABLE.
  destruct name as [|c s].
  - cbn. split; [intros [? ?]; discriminate|].
    intros [Hid|(id & Hid & Heq)]; [discriminate|].
    destruct id; [discriminate|]. rewrite append_cons in Heq. discriminate.
  - cbn [Re.run Re.in_cls is_identifier].
    destruct (PyStr.is_alpha_ c) eqn:Hc.
    + rewrite star_AlNum_End. cbn [andb]. split.
      * intros [Hall|(t & Ht & ->)]; [now left|].
        right. exists (String c t). split; [|reflexivity].
        cbn. now rewrite Hc.
      * intros [Hall|(id & Hid & Heq)]; [now left|].
        destruct id as [|c' t]; [discriminate|].
        rewrite append_cons in Heq. injection Heq as <- ->.
        cbn in Hid. rewrite Hc in Hid. right. now exists t.
    + cbn [andb]. split; [intros [? ?]; discriminate|].
      intros [Hid|(id & Hid & Heq)]; [discriminate|].
      destruct id as [|c' t]; [discriminate|].
      rewrite append_cons in Heq. injection Heq as <- ->.
      cbn in Hid. now rewrite Hc in Hid.
Qed.

(** ** Splitting at a separator *)

Lemma startswith_drop (sep s : string) :
  PyStr.startswith sep s = true ->
  s = sep +:+ PyStr.drop (String.length sep) s.
Proof.
  revert s. induction sep as [|a sep IH]; intros s Hs; [reflexivity|].
  destruct s as [|b s]; [discriminate|].
  cbn in Hs. apply andb_true_iff in Hs as [Hab Hs].
  apply Ascii.eqb_eq in Hab as ->.
  rewrite append_cons. cbn [String.length PyStr.drop]. now rewrite <- IH.
Qed.

Lemma append_snoc_cons (cur : string) (c : ascii) (s : string) :
  (cur +:+ String c EmptyString) +:+ s = cur +:+ String c s.
Proof. now rewrite append_assoc. Qed.

(** The two parts of a split, put together again around the separator,
    are the text that was split. *)
Lemma split_once_from_append (sep cur s a b : string) :
  PyStr.split_once_from sep cur s = Some (a, b) ->
  cur +:+ s = a +:+ sep +:+ b.
Proof.
  revert cur. induction s as [|c s IH]; intros cur; cbn [PyStr.split_once_from].
  - destruct (PyStr.startswith sep EmptyString) eqn:Hs; [|discriminate].
    intros [= <- <-]. f_equal. now apply startswith_drop.
  - destruct (PyStr.startswith sep (String c s)) eqn:Hs.
    + intros [= <- <-]. f_equal. now apply startswith_drop.
    + intros Hrest. apply IH in Hrest. now rewrite <- append_snoc_cons.
Qed.

Lemma split_once_from_None (sep cur s : string) :
  PyStr.split_once_from sep cur s = None <-> PyStr.contains sep s = false.
Proof.
  revert cur. induction s as [|c s IH]; intros cur;
    cbn [PyStr.split_once_from PyStr.contains].
  - destruct (PyStr.startswith sep EmptyString); cbn; split; congruence.
  - destruct (PyStr.startswith sep (String c s)); cbn; [split; congruence|].
    apply IH.
Qed.

Lemma split_once_None (sep s : string) :
  PyStr.split_once sep s = None <-> PyStr.contains sep s = false.
Proof. apply split_once_from_None. Qed.

(** ** SetJavaAsserts *)

Arguments find_property_from : simpl never.
Arguments persist_java_asserts : simpl never.

Lemma find_property_from_found k line rest name v :
  property_line name line = Some v ->
  find_property_from k (line :: rest) name = Ok (Some k, v).
Proof.
  unfold property_line, find_property_from.
  destruct (String.eqb (PyStr.strip line) EmptyString); [discriminate|].
  destruct (PyStr.split_once "=" line) as [[key value]|]; [|discriminate].
  destruct (String.eqb (PyStr.strip key) name); [|discriminate].
  now intros [= <-].
Qed.

Lemma find_property_from_malformed k line rest name :
  malformed line = true ->
  find_property_from k (line :: rest) name = Raise ValueError.
Proof.
  unfold malformed, find_property_from. intros Hm.
  apply andb_true_iff in Hm as [Hblank Heq].
  apply negb_true_iff in Hblank, Heq. rewrite Hblank.
  apply split_once_None in Heq. now rewrite Heq.
Qed.

Lemma find_property_from_passed k line rest name :
  passed_over name line ->
  find_property_from k (line :: rest) name
  = find_property_from (S k) rest name.
Proof.
  unfold passed_over, property_line, malformed. intros [Hp Hm].
  unfold find_property_from at 1. fold find_property_from.
  destruct (String.eqb (PyStr.strip line) EmptyString); [reflexivity|].
  cbn in Hm. apply negb_false_iff in Hm.
  destruct (PyStr.split_once "=" line) as [[key value]|] eqn:Hsplit.
  - destruct (String.eqb (PyStr.strip key) name); [discriminate|reflexivity].
  - apply split_once_None in Hsplit. congruence.
Qed.

Lemma line_cases name line :
  (exists v, property_line name line = Some v)
  \/ malformed line = true
  \/ passed_over name line.
Proof.
  destruct (property_line name line) as [v|] eqn:Hp; [left; now exists v|].
  right. destruct (malformed line) eqn:Hm; [now left | right; now split].
Qed.

Lemma find_property_from_app k before rest name :
  Forall (passed_over name) before ->
  find_property_from k (before ++ rest) name
  = find_property_from (k + length before) rest name.
Proof.
  revert k. induction before as [|line before IH]; intros k Hb.
  - cbn. now rewrite Nat.add_0_r.
  - inversion Hb as [|? ? Hline Hrest]; subst.
    cbn [app length]. rewrite (find_property_from_passed _ _ _ _ Hline).
    rewrite (IH _ Hrest). f_equal. lia.
Qed.

Lemma find_property_from_spec k lines name :
  match find_property_from k lines name with
  | Ok (Some index, v) =>
      exists i line,
        index = (k + i)%nat /\ lines !! i = Some line
        /\ property_line name line = Some v
        /\ Forall (passed_over name) (take i lines)
  | Ok (None, v) => v = EmptyString /\ Forall (passed_over name) lines
  | Raise e =>
      e = ValueError
      /\ exists i line,
           lines !! i = Some line /\ malformed line = true
           /\ Forall (passed_over name) (take i lines)
  end.
Proof.
  revert k. induction lines as [|line lines IH]; intros k.
  - unfold find_property_from. split; [reflexivity | constructor].
  - destruct (line_cases name line) as [[v Hv]|[Hm|Hp]].
    + rewrite (find_property_from_found _ _ _ _ _ Hv).
      exists 0%nat, line. rewrite Nat.add_0_r.
      repeat split; [exact Hv | constructor].
    + rewrite (find_property_from_malformed _ _ _ _ Hm).
      split; [reflexivity|]. exists 0%nat, line. repeat split; [exact Hm|].
      constructor.
    + rewrite (find_property_from_passed _ _ _ _ Hp).
      specialize (IH (S k)).
      destruct (find_property_from (S k) lines name) as [[[index|] v]|e].
      * destruct IH as (i & l & -> & Hl & Hv & Hb).
        exists (S i), l. repeat split; [lia | exact Hl | exact Hv|].
        cbn. now constructor.
      * destruct IH as [-> Hb]. split; [reflexivity | now constructor].
      * destruct IH as (-> & i & l & Hl & Hm & Hb).
        split; [reflexivity|]. exists (S i), l. repeat split; try assumption.
        cbn. now constructor.
Qed.

(** [find_property] returns the index and the value of the first line
    that gives [property_name] a value, every line before it being blank
    or a well-formed line for another name; it returns no index and the
    empty value when all lines are of that kind; and it raises
    [ValueError] when, before any line for the name, it meets a line that
    is not blank and holds no [=]. *)
Theorem find_property_spec (lines : list string) (property_name : string) :
  match find_property lines property_name with
  | Ok (Some i, v) =>
      exists line,
        lines !! i = Some line
        /\ property_line property_name line = Some v
        /\ Forall (passed_over property_name) (take i lines)
  | Ok (None, v) =>
      v = EmptyString /\ Forall (passed_over property_name) lines
  | Raise e =>
      e = ValueError
      /\ exists i line,
           lines !! i = Some line /\ malformed line = true
           /\ Forall (passed_over property_name) (take i lines)
  end.
Proof.
  unfold find_property.
  pose proof (find_property_from_spec 0 lines property_name) as Hspec.
  destruct (find_property_from 0 lines property_name) as [[[i|] v]|e];
    [|exact Hspec..].
  destruct Hspec as (i' & line & -> & Hrest). now exists line.
Qed.

Lemma no_linebreak_snoc (cur : string) (c : ascii) :
  no_linebreak cur = true ->
  Ascii.eqb c PyStr.LF = false -> Ascii.eqb c PyStr.CR = false ->
  no_linebreak (cur +:+ String c EmptyString) = true.
Proof.
  intros Hcur Hlf Hcr. induction cur as [|a cur IH].
  - change (no_linebreak (String c EmptyString) = true).
    cbn. now rewrite Hlf, Hcr.
  - rewrite append_cons. cbn in *.
    apply andb_true_iff in Hcur as [Ha Hcur]. now rewrite Ha, IH.
Qed.

Lemma splitlines_from_no_linebreak (n : nat) (s cur : string) :
  (String.length s <= n)%nat ->
  no_linebreak cur = true ->
  Forall (fun line => no_linebreak line = true) (PyStr.splitlines_from cur s).
Proof.
  revert s cur. induction n as [|n IH]; intros s cur Hn Hcur.
  - destruct s; [|cbn in Hn; lia].
    cbn. destruct (decide (cur = EmptyString)); repeat constructor; exact Hcur.
  - destruct s as [|c s].
    { cbn. destruct (decide (cur = EmptyString)); repeat constructor.
      exact Hcur. }
    cbn [String.length] in Hn. cbn [PyStr.splitlines_from].
    destruct (Ascii.eqb c PyStr.LF) eqn:Hlf.
    { constructor; [exact Hcur|]. apply IH; [lia | reflexivity]. }
    destruct (Ascii.eqb c PyStr.CR) eqn:Hcr.
    + destruct s as [|c' s]; [repeat constructor; exact Hcur|].
      cbn [String.length] in Hn.
      destruct (Ascii.eqb c' PyStr.LF); (constructor; [exact Hcur|]);
        apply IH; cbn [String.length]; try lia; reflexivity.
    + apply IH; [lia|]. now apply no_linebreak_snoc.
Qed.

(** The lines [splitlines] produces hold no line break. *)
Lemma splitlines_no_linebreak (s : string) :
  Forall (fun line => no_linebreak line = true) (PyStr.splitlines s).
Proof.
  now apply (splitlines_from_no_linebreak (String.length s)).
Qed.

Section JavaAsserts.
Context {W : Type} (C : Collaborators W) (local_properties : string).

(** What the first half of [SetJavaAsserts] goes on with once the file
    has been read and searched. *)
Lemma persist_after_read new_value (s : DeviceUtils W) r s1 properties
    index value :
  ReadFile C local_properties false s = (r, s1) ->
  match r with
  | Ok contents => properties = PyStr.splitlines contents
  | Raise e => is_CommandFailedError e = true /\ properties = []
  end ->
  find_property properties JAVA_ASSERT_PROPERTY = Ok (index, value) ->
  persist_java_asserts C local_properties new_value s =
    (if negb (String.eqb new_value value) then
       properties <-
         (if negb (String.eqb new_value EmptyString) then
            match index with
            | None =>
                ret (properties
                     ++ [JAVA_ASSERT_PROPERTY +:+ "=" +:+ new_value])%list
            | Some i =>
                ret (<[i := JAVA_ASSERT_PROPERTY +:+ "=" +:+ new_value]>
                       properties)
            end
          else
            match index with
            | None => raise AssertionError
            | Some i => ret (delete i properties)
            end) ;;
       WriteFile C local_properties (_JoinLines properties) false false
     else ret tt) s1.
Proof.
  intros Hread Hr Hfind. unfold persist_java_asserts.
  unfold bind at 1, try. rewrite Hread.
  destruct r as [contents|e].
  - subst properties. unfold bind at 1, ret at 1.
    unfold bind at 1, lift. rewrite Hfind. reflexivity.
  - destruct Hr as [He ->]. rewrite He. unfold bind at 1, ret at 1.
    unfold bind at 1, lift. rewrite Hfind. reflexivity.
Qed.

Lemma properties_no_linebreak (r : result string) properties :
  match r with
  | Ok contents => properties = PyStr.splitlines contents
  | Raise e => is_CommandFailedError e = true /\ properties = []
  end ->
  Forall (fun line => no_linebreak line = true) properties.
Proof.
  destruct r as [contents|e].
  - intros ->. apply splitlines_no_linebreak.
  - intros [_ ->]. constructor.
Qed.

End JavaAsserts.

(** Enabling Java asserts when the local properties file does not give
    the property the value [all]: the file is written with the line
    [dalvik.vm.enableassertions=all] in the place of the first line for
    the property, or after the last line when there is none; the text
    written splits into these lines again, and [find_property] finds the
    value [all] in them, at that place.  A file that could not be read
    counts as empty. *)
Theorem SetJavaAsserts_enable_persists {W : Type} (C : Collaborators W)
    (local_properties : string) (s : DeviceUtils W) (r : result string)
    (s1 : DeviceUtils W) (properties : list string) (index : option nat)
    (value : string) :
  ReadFile C local_properties false s = (r, s1) ->
  match r with
  | Ok contents => properties = PyStr.splitlines contents
  | Raise e => is_CommandFailedError e = true /\ properties = []
  end ->
  find_property properties JAVA_ASSERT_PROPERTY = Ok (index, value) ->
  value <> "all" ->
  let new_line := "dalvik.vm.enableassertions=all" in
  let written :=
    match index with
    | Some i => <[i := new_line]> properties
    | None => (properties ++ [new_line])%list
    end in
  persist_java_asserts C local_properties "all" s
    = WriteFile C local_properties (_JoinLines written) false false s1
  /\ PyStr.splitlines (_JoinLines written) = written
  /\ find_property written JAVA_ASSERT_PROPERTY
     = Ok (Some (default (length properties) index), "all").
Proof.
  intros Hread Hr Hfind Hvalue new_line written.
  assert (property_line JAVA_ASSERT_PROPERTY new_line = Some "all") as Hnew
    by (vm_compute; reflexivity).
  pose proof (properties_no_linebreak r properties Hr) as Hlines.
  pose proof (find_property_from_spec 0 properties JAVA_ASSERT_PROPERTY)
    as Hspec.
  unfold find_property in Hfind. rewrite Hfind in Hspec.
  split; [|split].
  - rewrite (persist_after_read C local_properties "all" s r s1 properties
               index value Hread Hr Hfind).
    assert (String.eqb "all" value = false) as ->
      by (apply String.eqb_neq; congruence).
    cbn [negb]. subst written. destruct index; reflexivity.
  - apply splitlines_JoinLines. subst written. destruct index as [i|].
    + apply Forall_insert; [exact Hlines | reflexivity].
    + apply Forall_app. split; [exact Hlines | now repeat constructor].
  - unfold find_property. subst written. destruct index as [i|].
    + destruct Hspec as (i' & line & -> & Hline & _ & Hbefore).
      cbn [default]. apply lookup_lt_Some in Hline.
      rewrite insert_take_drop by exact Hline.
      rewrite (find_property_from_app _ _ _ _ Hbefore).
      rewrite length_take, Nat.min_l by lia.
      now apply find_property_from_found.
    + destruct Hspec as [_ Hall]. cbn [default].
      rewrite (find_property_from_app _ _ _ _ Hall).
      now apply find_property_from_found.
Qed.

Lemma SetJavaAsserts_enable_persists_witness :
  let C := Sim.collaborators in
  let s :=
    Sim.fresh
      (Sim.set_files {["/data/local.prop" := "a=1" +:+ Sim.NL]} Sim.blank) in
  let s1 := (ReadFile C "/data/local.prop" false s).2 in
  let written := ["a=1"; "dalvik.vm.enableassertions=all"] in
  persist_java_asserts C "/data/local.prop" "all" s
    = WriteFile C "/data/local.prop" (_JoinLines written) false false s1
  /\ PyStr.splitlines (_JoinLines written) = written
  /\ find_property written JAVA_ASSERT_PROPERTY = Ok (Some 1%nat, "all").
Proof.
  intros C s s1 written.
  apply (SetJavaAsserts_enable_persists C "/data/local.prop" s
           (Ok ("a=1" +:+ Sim.NL)) s1 ["a=1"] None EmptyString).
  - vm_compute. reflexivity.
  - vm_compute. reflexivity.
  - vm_compute. reflexivity.
  - discriminate.
Defined.

(** Disabling Java asserts when the local properties file gives the
    property a non-empty value: the line found is removed and the other
    lines are written back in their order.  The [assert] of the source
    holds: a non-empty value always comes with the index of its line. *)
Theorem SetJavaAsserts_disable_removes {W : Type} (C : Collaborators W)
    (local_properties : string) (s : DeviceUtils W) (r : result string)
    (s1 : DeviceUtils W) (properties : list string) (index : option nat)
    (value : string) :
  ReadFile C local_properties false s = (r, s1) ->
  match r with
  | Ok contents => properties = PyStr.splitlines contents
  | Raise e => is_CommandFailedError e = true /\ properties = []
  end ->
  find_property properties JAVA_ASSERT_PROPERTY = Ok (index, value) ->
  value <> EmptyString ->
  exists i line,
    index = Some i
    /\ properties !! i = Some line
    /\ property_line JAVA_ASSERT_PROPERTY line = Some value
    /\ persist_java_asserts C local_properties EmptyString s
       = WriteFile C local_properties (_JoinLines (delete i properties))
           false false s1.
Proof.
  intros Hread Hr Hfind Hvalue.
  pose proof (find_property_from_spec 0 properties JAVA_ASSERT_PROPERTY)
    as Hspec.
  unfold find_property in Hfind. rewrite Hfind in Hspec.
  destruct index as [i|]; [|now destruct Hspec].
  destruct Hspec as (i' & line & -> & Hline & Hprop & _).
  exists i', line. repeat split; [exact Hline | exact Hprop|].
  rewrite (persist_after_read C local_properties EmptyString s r s1
             properties (Some i') value Hread Hr Hfind).
  destruct value as [|c value]; [congruence | reflexivity].
Qed.

Lemma SetJavaAsserts_disable_removes_witness :
  let C := Sim.collaborators in
  let contents :=
    "a=1" +:+ Sim.NL +:+ "dalvik.vm.enableassertions = all" +:+ Sim.NL in
  let s :=
    Sim.fresh (Sim.set_files {["/data/local.prop" := contents]} Sim.blank) in
  let s1 := (ReadFile C "/data/local.prop" false s).2 in
  exists i line,
    Some 1%nat = Some i
    /\ ["a=1"; "dalvik.vm.enableassertions = all"] !! i = Some line
    /\ property_line JAVA_ASSERT_PROPERTY line = Some "all"
    /\ persist_java_asserts C "/data/local.prop" EmptyString s
       = WriteFile C "/data/local.prop"
           (_JoinLines (delete i ["a=1"; "dalvik.vm.enableassertions = all"]))
           false false s1.
Proof.
  intros C contents s s1.
  apply (SetJavaAsserts_disable_removes C "/data/local.prop" s (Ok contents)).
  - vm_compute. reflexivity.
  - vm_compute. reflexivity.
  - vm_compute. reflexivity.
  - discriminate.
Defined.

(** A line of the local properties file that is not blank and holds no
    [=], such as a comment, makes [SetJavaAsserts] raise [ValueError]
    when no line before it gives the property a value: the call ends
    after reading the file, before anything is written or set. *)
Theorem SetJavaAsserts_malformed_line {W : Type} (C : Collaborators W)
    (local_properties : string) (enabled : bool) (s : DeviceUtils W)
    (contents : string) (s1 : DeviceUtils W) (before : list string)
    (line : string) (after : list string) :
  ReadFile C local_properties false s = (Ok contents, s1) ->
  PyStr.splitlines contents = (before ++ line :: after)%list ->
  Forall (passed_over JAVA_ASSERT_PROPERTY) before ->
  malformed line = true ->
  SetJavaAsserts C local_properties enabled s = (Raise ValueError, s1).
Proof.
  intros Hread Hlines Hbefore Hline.
  assert (find_property (PyStr.splitlines contents) JAVA_ASSERT_PROPERTY
          = Raise ValueError) as Hfind.
  { unfold find_property. rewrite Hlines.
    rewrite (find_property_from_app _ _ _ _ Hbefore).
    now apply find_property_from_malformed. }
  unfold SetJavaAsserts. apply bind_Raise.
  unfold persist_java_asserts.
  unfold bind at 1, try. rewrite Hread.
  unfold bind at 1, ret at 1. unfold bind at 1, lift. now rewrite Hfind.
Qed.

Lemma SetJavaAsserts_malformed_line_witness :
  let C := Sim.collaborators in
  let contents :=
    "# asserts" +:+ Sim.NL +:+ "dalvik.vm.enableassertions=all" +:+ Sim.NL in
  let s :=
    Sim.fresh (Sim.set_files {["/data/local.prop" := contents]} Sim.blank) in
  SetJavaAsserts C "/data/local.prop" true s
  = (Raise ValueError, (ReadFile C "/data/local.prop" false s).2).
Proof.
  intros C contents s.
  apply (SetJavaAsserts_malformed_line C "/data/local.prop" true s contents
           _ [] "# asserts" ["dalvik.vm.enableassertions=all"]).
  - vm_compute. reflexivity.
  - vm_compute. reflexivity.
  - constructor.
  - vm_compute. reflexivity.
Defined.

(** ** GetBatteryInfo and GetCharging *)

Lemma battery_info_spec (lines : list string) (info : gmap string string) :
  match forallb (PyStr.contains ": ") lines with
  | false => battery_info info lines = Raise ValueError
  | true =>
      exists info',
        battery_info info lines = Ok info'
        /\ forall k,
             info' !! k
             = match last (omap (battery_line k) lines) with
               | Some v => Some v
               | None => info !! k
               end
  end.
Proof.
  revert info. induction lines as [|line lines IH]; intros info.
  - cbn. now exists info.
  - cbn [forallb battery_info].
    destruct (PyStr.split_once ": " line) as [[key value]|] eqn:Hsplit.
    + assert (PyStr.contains ": " line = true) as ->.
      { destruct (PyStr.contains ": " line) eqn:Hc; [reflexivity|].
        apply split_once_None in Hc. congruence. }
      cbn [andb]. specialize (IH (<[PyStr.strip key := PyStr.strip value]> info)).
      destruct (forallb (PyStr.contains ": ") lines); [|exact IH].
      destruct IH as (info' & Hrun & Hlookup). exists info'.
      split; [exact Hrun|]. intros k. rewrite Hlookup.
      change (omap (battery_line k) (line :: lines))
        with (match battery_line k line with
              | Some v => v :: omap (battery_line k) lines
              | None => omap (battery_line k) lines
              end).
      unfold battery_line at 2 3. rewrite Hsplit.
      destruct (String.eqb (PyStr.strip key) k) eqn:Hk.
      * apply String.eqb_eq in Hk as <-. rewrite last_cons.
        destruct (last (omap _ lines)); [reflexivity|].
        apply lookup_insert_eq.
      * destruct (last (omap _ lines)); [reflexivity|].
        apply lookup_insert_ne. now apply String.eqb_neq.
    + apply split_once_None in Hsplit. now rewrite Hsplit.
Qed.

(** [GetBatteryInfo] skips the first line of the report.  When every
    other line holds a colon followed by a space, it returns a dict in
    which a key has the value of the last line for this key, keys and
    values being stripped of surrounding white space; when some other
    line holds none, an empty line for instance, it raises
    [ValueError]. *)
Theorem GetBatteryInfo_entries {W : Type} (C : Collaborators W)
    (s : DeviceUtils W) (lines : list string) (s1 : DeviceUtils W) :
  RunShellCommand C (CmdArgs ["dumpsys"; "battery"])
    true None None false false s = (Ok lines, s1) ->
  match forallb (PyStr.contains ": ") (tail lines) with
  | false => GetBatteryInfo C s = (Raise ValueError, s1)
  | true =>
      exists info,
        GetBatteryInfo C s = (Ok info, s1)
        /\ forall k, info !! k = last (omap (battery_line k) (tail lines))
  end.
Proof.
  intros Hrun. unfold GetBatteryInfo. rewrite (bind_Ok _ _ _ _ _ Hrun).
  unfold lift. pose proof (battery_info_spec (tail lines) ∅) as Hspec.
  destruct (forallb (PyStr.contains ": ") (tail lines)).
  - destruct Hspec as (info & -> & Hlookup). exists info.
    split; [reflexivity|]. intros k. rewrite Hlookup, lookup_empty.
    now destruct (last _).
  - now rewrite Hspec.
Qed.

Lemma GetBatteryInfo_entries_witness :
  let C := Script.collaborators [("dumpsys battery", Ok Script.battery_report)] in
  exists info,
    GetBatteryInfo C Script.fresh
      = (Ok info, mkDeviceUtils ∅ None tt [CallShell "dumpsys battery"])
    /\ forall k,
         info !! k
         = last (omap (battery_line k)
                   ["  AC powered: false"; "  USB powered: true";
                    "  level: 87"; "  technology: Li-ion"]).
Proof.
  intros C.
  apply (GetBatteryInfo_entries C Script.fresh
           ["Current Battery Service state:"; "  AC powered: false";
            "  USB powered: true"; "  level: 87"; "  technology: Li-ion"]).
  vm_compute. reflexivity.
Defined.

(** [GetCharging] answers from the last line of the battery report for
    each of the three power sources: it returns True when one of them
    reads [true], [1] or [yes], in any letter case. *)
Theorem GetCharging_sources {W : Type} (C : Collaborators W)
    (s : DeviceUtils W) (lines : list string) (s1 : DeviceUtils W) :
  RunShellCommand C (CmdArgs ["dumpsys"; "battery"])
    true None None false false s = (Ok lines, s1) ->
  forallb (PyStr.contains ": ") (tail lines) = true ->
  GetCharging C s
  = (Ok (existsb
           (fun k =>
              match last (omap (battery_line k) (tail lines)) with
              | Some v => bool_decide (PyStr.lower v ∈ ["true"; "1"; "yes"])
              | None => false
              end)
           ["AC powered"; "USB powered"; "Wireless powered"]), s1).
Proof.
  intros Hrun Hall.
  pose proof (battery_info_spec (tail lines) ∅) as Hspec.
  rewrite Hall in Hspec. destruct Hspec as (info & Hinfo & Hlookup).
  assert (GetBatteryInfo C s = (Ok info, s1)) as Hget.
  { unfold GetBatteryInfo. rewrite (bind_Ok _ _ _ _ _ Hrun).
    unfold lift. now rewrite Hinfo. }
  unfold GetCharging. rewrite (bind_Ok _ _ _ _ _ Hget).
  unfold ret. do 2 f_equal.
  assert (forall k, info !! k = last (omap (battery_line k) (tail lines)))
    as Heq.
  { intros k. rewrite Hlookup, lookup_empty. now destruct (last _). }
  cbn [existsb]. now rewrite !Heq.
Qed.

Lemma GetCharging_sources_witness :
  let C := Script.collaborators [("dumpsys battery", Ok Script.battery_report)] in
  GetCharging C Script.fresh
  = (Ok true, mkDeviceUtils ∅ None tt [CallShell "dumpsys battery"]).
Proof.
  intros C.
  apply (GetCharging_sources C Script.fresh
           ["Current Battery Service state:"; "  AC powered: false";
            "  USB powered: true"; "  level: 87"; "  technology: Li-ion"]).
  - vm_compute. reflexivity.
  - vm_compute. reflexivity.
Defined.

(** ** StartActivity *)

Lemma for_each_error_lines {W : Type} (lines : list string)
    (s : DeviceUtils W) :
  for_each lines (fun line =>
    if PyStr.startswith "Error:" line
    then raise (CommandFailedError line [])
    else ret tt) s
  = (match List.find (PyStr.startswith "Error:") lines with
     | Some line => Raise (CommandFailedError line [])
     | None => Ok tt
     end, s).
Proof.
  induction lines as [|line lines IH]; [reflexivity|].
  cbn [for_each List.find]. unfold bind.
  destruct (PyStr.startswith "Error:" line); [reflexivity|].
  unfold ret at 1. exact IH.
Qed.

(** [StartActivity] fails although [am start] has exited with status
    zero when a line of its output starts with [Error:]: it raises
    [CommandFailedError] with the first such line as its message, and
    returns when there is none.  The state is the one the command has
    left. *)
Theorem StartActivity_error_line {W : Type} (C : Collaborators W)
    (am_args : list string) (blocking : bool)
    (trace_file_name : option string) (force_stop : bool)
    (s : DeviceUtils W) (lines : list string) (s1 : DeviceUtils W) :
  RunShellCommand C
    (CmdArgs (am_start am_args blocking trace_file_name force_stop))
    true None None false false s = (Ok lines, s1) ->
  StartActivity C am_args blocking trace_file_name force_stop s
  = (match List.find (PyStr.startswith "Error:") lines with
     | Some line => Raise (CommandFailedError line [])
     | None => Ok tt
     end, s1).
Proof.
  intros Hrun. unfold StartActivity. rewrite (bind_Ok _ _ _ _ _ Hrun).
  apply for_each_error_lines.
Qed.

Lemma StartActivity_error_line_witness :
  let C :=
    Script.collaborators
      [("am start -W -S -n com.example/.Main",
        Ok ("Starting: Intent { cmp=com.example/.Main }" +:+ Sim.NL
            +:+ "Error: Activity class {com.example/.Main} does not exist."
            +:+ Sim.NL))] in
  StartActivity C ["-n"; "com.example/.Main"] true (Some EmptyString) true
    Script.fresh
  = (Raise (CommandFailedError
              "Error: Activity class {com.example/.Main} does not exist." []),
     mkDeviceUtils ∅ None tt [CallShell "am start -W -S -n com.example/.Main"]).
Proof.
  intros C.
  apply (StartActivity_error_line C ["-n"; "com.example/.Main"] true
           (Some EmptyString) true Script.fresh
           ["Starting: Intent { cmp=com.example/.Main }";
            "Error: Activity class {com.example/.Main} does not exist."]).
  vm_compute. reflexivity.
Defined.

(** ** RunShellCommand in single-line mode *)

Lemma splitlines_from_joined (lines : list string) :
  Forall (fun line => no_linebreak line = true) lines ->
  PyStr.splitlines_from EmptyString (_JoinLines lines) = lines.
Proof.
  induction lines as [|line lines IH]; intros Hlines; [reflexivity|].
  inversion Hlines as [|? ? Hline Hrest]; subst.
  cbn [_JoinLines foldr]. fold (_JoinLines lines).
  rewrite (splitlines_from_line line (_JoinLines lines) EmptyString Hline).
  now rewrite (IH Hrest).
Qed.

(** C6: let the command string [c] have been assembled and sent, and let
    [output] be what the command has printed.  In single-line mode
    [RunShellCommand] returns the empty string when [output] splits into
    no line, the line when it splits into exactly one, and raises
    [CommandFailedError] carrying all the lines when it splits into two
    or more.  In terms of the text printed: when [output] consists of the
    lines [lines], each followed by a newline, the result is the empty
    string for no line, the line for one, and the failure carrying
    [lines] for more.  For a command sent inline, [output] is what the
    [Shell] call has printed. *)
Theorem RunShellCommand_single_line {W : Type} (C : Collaborators W)
    (cmd : command) (check_return : bool) (cwd : option string)
    (env : option (list (string * string))) (as_root : bool)
    (s : DeviceUtils W) (c : string) (s1 : DeviceUtils W) (output : string)
    (s2 : DeviceUtils W) :
  build_command C (NeedsSU C) cmd cwd env as_root s = (Ok c, s1) ->
  run_command C check_return c s1 = (Ok output, s2) ->
  RunShellCommand C cmd check_return cwd env as_root true s =
    (match PyStr.splitlines output with
     | [] => Ok EmptyString
     | [line] => Ok line
     | _ => Raise (CommandFailedError
                     "one line of output was expected, but got: %s"
                     (PyStr.splitlines output))
     end, s2)
  /\ (forall lines,
        Forall (fun line => no_linebreak line = true) lines ->
        output = _JoinLines lines ->
        RunShellCommand C cmd check_return cwd env as_root true s =
          (match lines with
           | [] => Ok EmptyString
           | [line] => Ok line
           | _ => Raise (CommandFailedError
                           "one line of output was expected, but got: %s"
                           lines)
           end, s2))
  /\ ((PyStr.len c < 512)%Z ->
      forall out w, Shell C c (adb s1) = (Ok out, w) -> output = out).
Proof.
  intros Hbuild Hrun.
  assert (RunShellCommand C cmd check_return cwd env as_root true s =
            (match PyStr.splitlines output with
             | [] => Ok EmptyString
             | [line] => Ok line
             | _ => Raise (CommandFailedError
                             "one line of output was expected, but got: %s"
                             (PyStr.splitlines output))
             end, s2)) as Hsplit.
  { unfold RunShellCommand, RunShellCommand_with.
    rewrite (bind_Ok _ _ _ _ _ Hbuild), (bind_Ok _ _ _ _ _ Hrun).
    unfold split_output.
    destruct (PyStr.splitlines output) as [|l [|l' ls]]; reflexivity. }
  split; [exact Hsplit|]. split.
  - intros lines Hlines ->. rewrite Hsplit.
    unfold PyStr.splitlines. now rewrite (splitlines_from_joined lines Hlines).
  - intros Hlen out w Hshell. revert Hrun.
    unfold run_command, _MAX_ADB_COMMAND_LENGTH.
    apply Z.ltb_lt in Hlen. rewrite Hlen.
    unfold do_run, bind, try, adb_Shell, prim. rewrite Hshell.
    now intros [= <- _].
Qed.

Lemma RunShellCommand_single_line_witness :
  let C := Sim.collaborators in
  let s := Sim.fresh Sim.notebook in
  RunShellCommand C (CmdArgs ["cat"; "/data/two"]) true None None false true s
  = (Raise (CommandFailedError "one line of output was expected, but got: %s"
              ["a"; "b"]),
     mkDeviceUtils ∅ None Sim.notebook [CallShell "cat /data/two"]).
Proof.
  intros C s.
  destruct (RunShellCommand_single_line C (CmdArgs ["cat"; "/data/two"])
              true None None false s "cat /data/two" s
              ("a" +:+ Sim.NL +:+ "b" +:+ Sim.NL)
              (mkDeviceUtils ∅ None Sim.notebook [CallShell "cat /data/two"]))
    as (_ & Hlines & _).
  - reflexivity.
  - vm_compute. reflexivity.
  - apply (Hlines ["a"; "b"]); [repeat constructor | reflexivity].
Defined.
